(** * AWS resource inventory: a shallow embedding of [aws_inventory_script.py]

    The script walks six AWS services, resolves an owning application for
    every resource from its tags and groups the resulting records by owner.
    This development embeds the class [AWSResourceInventory] and [main]:

    - Python values ([pyval]) for the data handed to [extract_app_name] and
      stored in the [resource_info] dictionaries;
    - exceptions as an explicit [result] type;
    - the boto3 session and the services behind it as an environment
      ([aws_env]) that says what every API call answers;
    - the mutable object ([self.clients], [self.inventory]) and the
      module-level logger as one record threaded through the methods.

    A Python [str] is modelled as a [string] whose characters are the code
    points below 256. *)

From Stdlib Require Import List String Ascii Bool Arith ZArith Lia.
From Stdlib Require DecimalString.
Import ListNotations.
Open Scope string_scope.
Open Scope list_scope.

Set Implicit Arguments.
Set Warnings "-register-all".

(** ** Exceptions and results *)

(** [ClientError] is botocore's exception: the script reads its error code.
    Every other exception only matters through its class and message. *)
Inductive exn : Type :=
| ClientError (code : string) (msg : string)
| PyError (cls : string) (msg : string).

(** [str(e)], as interpolated in the log messages. *)
Definition exn_str (e : exn) : string :=
  match e with
  | ClientError _ msg => msg
  | PyError _ msg => msg
  end.

Inductive result (A : Type) : Type :=
| Ok (a : A)
| Raise (e : exn).

Arguments Ok {A} a.
Arguments Raise {A} e.

Definition bind {A B : Type} (r : result A) (k : A -> result B) : result B :=
  match r with
  | Ok a => k a
  | Raise e => Raise e
  end.

Notation "'let*' x ':=' r 'in' k" := (bind r (fun x => k))
  (at level 10, x pattern, r at level 100, k at level 200).

Definition is_ok {A : Type} (r : result A) : bool :=
  match r with Ok _ => true | Raise _ => false end.

(** ** Python values *)

Inductive pyval : Type :=
| PNone
| PInt (z : Z)
| PStr (s : string)
| PList (l : list pyval)
| PDict (d : list (string * pyval)).

(** A dict keeps its insertion order, so it is an association list; a key
    occurs once. *)
Definition pydict : Type := list (string * pyval).

Fixpoint dict_lookup (d : pydict) (k : string) : option pyval :=
  match d with
  | [] => None
  | (k', v) :: d' => if String.eqb k' k then Some v else dict_lookup d' k
  end.

(** [d.get(k, default)] *)
Definition dict_get (d : pydict) (k : string) (default : pyval) : pyval :=
  match dict_lookup d k with
  | Some v => v
  | None => default
  end.

(** [d[k]] for reading *)
Definition dict_item (d : pydict) (k : string) : result pyval :=
  match dict_lookup d k with
  | Some v => Ok v
  | None => Raise (PyError "KeyError" k)
  end.

(** Truth value of an object, as tested by [if x] and [not x]. *)
Definition truthy (v : pyval) : bool :=
  match v with
  | PNone => false
  | PInt z => negb (Z.eqb z 0)
  | PStr s => negb (String.eqb s "")
  | PList l => match l with [] => false | _ => true end
  | PDict d => match d with [] => false | _ => true end
  end.

Definition chars_of (s : string) : list string :=
  map (fun c => String c EmptyString) (list_ascii_of_string s).

(** What [for x in v] iterates over: the elements of a list, the keys of a
    dict, the characters of a str; the other values are not iterable. *)
Definition py_iter (v : pyval) : result (list pyval) :=
  match v with
  | PList l => Ok l
  | PDict d => Ok (map (fun kv => PStr (fst kv)) d)
  | PStr s => Ok (map PStr (chars_of s))
  | PNone => Raise (PyError "TypeError" "'NoneType' object is not iterable")
  | PInt _ => Raise (PyError "TypeError" "'int' object is not iterable")
  end.


(** [v in keys] for a list of strings: equality with one of its elements. *)
Definition py_in (v : pyval) (keys : list string) : bool :=
  match v with
  | PStr s => existsb (String.eqb s) keys
  | _ => false
  end.

(** ** [str.lower] and [str.replace] *)

(** Code points below 256 that have a lower-case mapping: A-Z, and in
    Latin-1 the letters 192-214 and 216-222; each maps 32 higher. *)
Definition is_upper (n : nat) : bool :=
  (((65 <=? n) && (n <=? 90)) || ((192 <=? n) && (n <=? 214))
   || ((216 <=? n) && (n <=? 222)))%nat.

Definition lower_char (c : ascii) : ascii :=
  let n := nat_of_ascii c in
  if is_upper n then ascii_of_nat (n + 32) else c.

Fixpoint map_string (f : ascii -> ascii) (s : string) : string :=
  match s with
  | EmptyString => EmptyString
  | String c s' => String (f c) (map_string f s')
  end.

(** [s.lower()] *)
Definition lower (s : string) : string := map_string lower_char s.

(** [s.replace(' ', '-')]: the pattern is one character long, so every
    occurrence of it is replaced where it stands. *)
Definition replace_space (s : string) : string :=
  map_string (fun c => if Ascii.eqb c " " then "-"%char else c) s.

(** ** The tag resolver *)

(** [self.app_tag_keys], set in [__init__]. *)
Definition app_tag_keys : list string :=
  ["Application"; "App"; "application"; "app"; "Project"; "project"].

(** The body of the [for tag in tags] loop of [extract_app_name]. *)
Fixpoint scan_tags (keys : list string) (tags : list pyval) : result string :=
  match tags with
  | [] => Ok "untagged"
  | tag :: rest =>
      match tag with
      | PDict d =>
          let key := dict_get d "Key" (PStr "") in
          let value := dict_get d "Value" (PStr "") in
          if py_in key keys && truthy value then
            match value with
            | PStr s => Ok (replace_space (lower s))
            | PList _ =>
                Raise (PyError "AttributeError" "'list' object has no attribute 'lower'")
            | PDict _ =>
                Raise (PyError "AttributeError" "'dict' object has no attribute 'lower'")
            | PInt _ =>
                Raise (PyError "AttributeError" "'int' object has no attribute 'lower'")
            | PNone =>
                Raise (PyError "AttributeError" "'NoneType' object has no attribute 'lower'")
            end
          else scan_tags keys rest
      | _ => scan_tags keys rest
      end
  end.

(** [extract_app_name(self, tags)], with [self.app_tag_keys] as [keys]. *)
Definition extract_app_name_with (keys : list string) (tags : pyval) : result string :=
  if negb (truthy tags) then Ok "untagged"
  else
    let* items := py_iter tags in
    scan_tags keys items.

Definition extract_app_name (tags : pyval) : result string :=
  extract_app_name_with app_tag_keys tags.

(** The dict [{'Key': k, 'Value': v}] and the list comprehension
    [[{'Key': k, 'Value': v} for k, v in m.items()]]. *)
Definition tag_dict (kv : string * string) : pyval :=
  PDict [("Key", PStr (fst kv)); ("Value", PStr (snd kv))].

Definition tag_pairs (m : list (string * string)) : list pyval :=
  map tag_dict m.

(** A flat key-to-value mapping of strings as a Python dict. *)
Definition flat_tags (m : list (string * string)) : pyval :=
  PDict (map (fun kv => (fst kv, PStr (snd kv))) m).

(** ** Raw records of the service responses

    A field the script reads by subscript ([func['FunctionArn']]) is part of
    every response and is a field here; a field it reads with [.get] may be
    missing and is an [option]. *)

(** A [datetime] value, of which the script only takes [isoformat()]. *)
Record datetime : Type := { isoformat : string }.

(** A tag list as the services return it: [{'Key': .., 'Value': ..}] entries. *)
Definition tag_list : Type := list (string * string).

Record lambda_function : Type := {
  lf_FunctionName : string;
  lf_FunctionArn : string;
  lf_Runtime : option string;
  lf_MemorySize : option Z;
  lf_Timeout : option Z;
  lf_LastModified : option string
}.

Record db_instance : Type := {
  dbi_DBInstanceIdentifier : string;
  dbi_DBInstanceArn : string;
  dbi_Engine : option string;
  dbi_DBInstanceClass : option string;
  dbi_DBInstanceStatus : option string;
  dbi_AllocatedStorage : option Z
}.

Record db_cluster : Type := {
  dbc_DBClusterIdentifier : string;
  dbc_DBClusterArn : string;
  dbc_Engine : option string;
  dbc_Status : option string
}.

Record table_description : Type := {
  tbl_TableArn : string;
  tbl_TableStatus : option string;
  tbl_ItemCount : option Z;
  tbl_TableSizeBytes : option Z
}.

Record bucket : Type := {
  bkt_Name : string;
  bkt_CreationDate : datetime
}.

Record ec2_instance : Type := {
  ec2_InstanceId : string;
  ec2_OwnerId : option string;
  ec2_InstanceType : option string;
  ec2_State : option (option string);   (* [State], and [Name] inside it *)
  ec2_LaunchTime : option datetime;
  ec2_Tags : option tag_list
}.

Record rest_api : Type := {
  rest_id : string;
  rest_name : string;
  rest_createdDate : option datetime
}.

Record http_api : Type := {
  http_Name : string;
  http_ApiId : string;
  http_ProtocolType : option string;
  http_CreatedDate : option datetime;
  http_Tags : option (list (string * string))   (* a flat key-to-value map *)
}.

(** A paginator: the pages it yields, then the exception that ends the
    iteration when a page request fails. *)
Record paginated (A : Type) : Type := Pages {
  pages : list A;
  failure : option exn
}.

Arguments Pages {A} pages failure.

(** What the session and the services answer, for the profile and region of
    the run. *)
Record aws_env : Type := {
  session_error : option string -> option exn;   (* [boto3.Session(..)] *)
  client_error : string -> option exn;           (* [session.client(service, ..)] *)
  list_functions : paginated (list lambda_function);
  list_tags : string -> result (option (list (string * string)));
  describe_db_instances : paginated (list db_instance);
  describe_db_clusters : paginated (list db_cluster);
  list_tags_for_resource : string -> result (option tag_list);
  list_tables : paginated (list string);
  describe_table : string -> result table_description;
  list_tags_of_resource : string -> result (option tag_list);
  list_buckets : result (list bucket);
  get_bucket_tagging : string -> result (option tag_list);
  get_bucket_location : string -> result (option (option string));
  describe_instances : paginated (list (list ec2_instance));
  get_rest_apis : paginated (list rest_api);
  get_tags : string -> result (option (list (string * string)));
  get_apis : paginated (list http_api);
  now : string;                                  (* [strftime('%Y%m%d_%H%M%S')] *)
  open_error : string -> option exn              (* [open(file, 'w')] *)
}.

(** ** The object and the logger *)

Inductive level : Type := INFO | WARNING | ERROR.

(** A client handle. [client_id] tells apart the objects the session has
    created: it is the number of clients created before this one. *)
Record client : Type := {
  client_service : string;
  client_region : string;
  client_id : nat
}.

(** [self.inventory]: a [defaultdict(list)], from owner key to records, in
    insertion order. A record is the [resource_info] dict. *)
Definition Inventory : Type := list (string * list pydict).

Record state : Type := {
  region : string;
  clients : list (string * client);
  created : nat;
  inventory : Inventory;
  logged : list (level * string)
}.

(** [__init__], once the session exists. *)
Definition new_inventory (rgn : string) : state :=
  {| region := rgn; clients := []; created := 0; inventory := []; logged := [] |}.

Definition log (lvl : level) (msg : string) (st : state) : state :=
  {| region := region st; clients := clients st; created := created st;
     inventory := inventory st; logged := logged st ++ [(lvl, msg)] |}.

Fixpoint lookup {A : Type} (k : string) (m : list (string * A)) : option A :=
  match m with
  | [] => None
  | (k', v) :: m' => if String.eqb k' k then Some v else lookup k m'
  end.

(** [self.inventory[app_name].append(resource_info)] *)
Fixpoint inv_append (inv : Inventory) (app_name : string) (r : pydict) : Inventory :=
  match inv with
  | [] => [(app_name, [r])]
  | (k, rs) :: inv' =>
      if String.eqb k app_name then (k, rs ++ [r]) :: inv'
      else (k, rs) :: inv_append inv' app_name r
  end.

Definition add_resource (app_name : string) (r : pydict) (st : state) : state :=
  {| region := region st; clients := clients st; created := created st;
     inventory := inv_append (inventory st) app_name r; logged := logged st |}.

(** The records of one owner, and all records. *)
Definition owner_bucket (inv : Inventory) (k : string) : list pydict :=
  match lookup k inv with
  | Some rs => rs
  | None => []
  end.

Definition all_records (inv : Inventory) : list pydict :=
  List.concat (map snd inv).

(** ** [get_client] *)

Definition get_client (E : aws_env) (service : string) (st : state)
  : result client * state :=
  match lookup service (clients st) with
  | Some c => (Ok c, st)
  | None =>
      match client_error E service with
      | Some e => (Raise e, st)
      | None =>
          let c := {| client_service := service; client_region := region st;
                      client_id := created st |} in
          (Ok c,
           {| region := region st; clients := clients st ++ [(service, c)];
              created := S (created st); inventory := inventory st;
              logged := logged st |})
      end
  end.

(** ** Control flow of the collectors

    A [block] is the body of a [try]: it changes the state and may end with
    an exception, whose state changes stay. *)
Definition block : Type := state -> state * option exn.

Definition and_then (b1 b2 : block) : block :=
  fun st =>
    match b1 st with
    | (st1, None) => b2 st1
    | (st1, Some e) => (st1, Some e)
    end.

Notation "b1 ;; b2" := (and_then b1 b2) (at level 61, right associativity).

(** [client = self.get_client(service)] *)
Definition use_client (E : aws_env) (service : string) : block :=
  fun st =>
    match get_client E service st with
    | (Ok _, st1) => (st1, None)
    | (Raise e, st1) => (st1, Some e)
    end.

(** [for item in items: try: <process, append> except Exception as e: <warn>] *)
Definition for_each_try {A : Type} (process : A -> result (string * pydict))
    (warning : A -> exn -> string) (items : list A) (st : state) : state :=
  fold_left
    (fun st item =>
       match process item with
       | Ok (app_name, info) => add_resource app_name info st
       | Raise e => log WARNING (warning item e) st
       end)
    items st.

(** [for page in paginator.paginate(): <body>] *)
Definition for_pages {A : Type} (p : paginated A) (body : A -> state -> state) : block :=
  fun st => (fold_left (fun st page => body page st) (pages p) st, failure p).

(** [try: <block> except Exception as e: logger.error(f"<what>: {e}")] *)
Definition try_except (b : block) (what : string) (st : state) : state :=
  match b st with
  | (st1, None) => st1
  | (st1, Some e) => log ERROR (what ++ ": " ++ exn_str e) st1
  end.

Definition str_or (o : option string) (d : string) : pyval :=
  PStr (match o with Some s => s | None => d end).

Definition int_or (o : option Z) (d : Z) : pyval :=
  PInt (match o with Some z => z | None => d end).

Definition tags_or_empty (o : option (list (string * string))) : list (string * string) :=
  match o with Some l => l | None => [] end.

(** [d.isoformat() if d else ''] *)
Definition iso_or_empty (o : option datetime) : pyval :=
  PStr (match o with Some d => isoformat d | None => "" end).

(** ** The collectors

    Each [*_process] is the body of an inner [try]: the secondary fetches
    for one resource, the owner resolution, and the [resource_info] dict it
    builds, returned with the owner key it is filed under. *)

Section Collectors.

Variable E : aws_env.

(** *** Lambda *)

Definition lambda_process (func : lambda_function) : result (string * pydict) :=
  let* tags_response := list_tags E (lf_FunctionArn func) in
  let tags := tag_pairs (tags_or_empty tags_response) in
  let* app_name := extract_app_name (PList tags) in
  Ok (app_name,
      [("service", PStr "Lambda");
       ("resource_type", PStr "Function");
       ("name", PStr (lf_FunctionName func));
       ("arn", PStr (lf_FunctionArn func));
       ("app_name", PStr app_name);
       ("runtime", str_or (lf_Runtime func) "Unknown");
       ("memory", int_or (lf_MemorySize func) 0);
       ("timeout", int_or (lf_Timeout func) 0);
       ("last_modified", str_or (lf_LastModified func) "");
       ("tags", PList tags)]).

Definition lambda_warning (func : lambda_function) (e : exn) : string :=
  "Error processing Lambda function " ++ lf_FunctionName func ++ ": " ++ exn_str e.

Definition inventory_lambda_functions (st : state) : state :=
  let st := log INFO "Inventorying Lambda functions..." st in
  try_except
    (use_client E "lambda" ;;
     for_pages (list_functions E) (for_each_try lambda_process lambda_warning))
    "Error inventorying Lambda functions" st.

(** *** RDS *)

Definition rds_instance_process (db : db_instance) : result (string * pydict) :=
  let* tags_response := list_tags_for_resource E (dbi_DBInstanceArn db) in
  let tags := tag_pairs (tags_or_empty tags_response) in
  let* app_name := extract_app_name (PList tags) in
  Ok (app_name,
      [("service", PStr "RDS");
       ("resource_type", PStr "DB Instance");
       ("name", PStr (dbi_DBInstanceIdentifier db));
       ("arn", PStr (dbi_DBInstanceArn db));
       ("app_name", PStr app_name);
       ("engine", str_or (dbi_Engine db) "Unknown");
       ("instance_class", str_or (dbi_DBInstanceClass db) "Unknown");
       ("status", str_or (dbi_DBInstanceStatus db) "Unknown");
       ("allocated_storage", int_or (dbi_AllocatedStorage db) 0);
       ("tags", PList tags)]).

Definition rds_instance_warning (db : db_instance) (e : exn) : string :=
  "Error processing RDS instance " ++ dbi_DBInstanceIdentifier db ++ ": " ++ exn_str e.

Definition rds_cluster_process (cluster : db_cluster) : result (string * pydict) :=
  let* tags_response := list_tags_for_resource E (dbc_DBClusterArn cluster) in
  let tags := tag_pairs (tags_or_empty tags_response) in
  let* app_name := extract_app_name (PList tags) in
  Ok (app_name,
      [("service", PStr "RDS");
       ("resource_type", PStr "DB Cluster");
       ("name", PStr (dbc_DBClusterIdentifier cluster));
       ("arn", PStr (dbc_DBClusterArn cluster));
       ("app_name", PStr app_name);
       ("engine", str_or (dbc_Engine cluster) "Unknown");
       ("status", str_or (dbc_Status cluster) "Unknown");
       ("tags", PList tags)]).

Definition rds_cluster_warning (cluster : db_cluster) (e : exn) : string :=
  "Error processing RDS cluster " ++ dbc_DBClusterIdentifier cluster ++ ": " ++ exn_str e.

Definition inventory_rds_instances (st : state) : state :=
  let st := log INFO "Inventorying RDS instances..." st in
  try_except
    (use_client E "rds" ;;
     for_pages (describe_db_instances E)
       (for_each_try rds_instance_process rds_instance_warning) ;;
     for_pages (describe_db_clusters E)
       (for_each_try rds_cluster_process rds_cluster_warning))
    "Error inventorying RDS resources" st.

(** *** DynamoDB *)

Definition dynamodb_process (table_name : string) : result (string * pydict) :=
  let* table := describe_table E table_name in
  let* tags_response := list_tags_of_resource E (tbl_TableArn table) in
  let tags := tag_pairs (tags_or_empty tags_response) in
  let* app_name := extract_app_name (PList tags) in
  Ok (app_name,
      [("service", PStr "DynamoDB");
       ("resource_type", PStr "Table");
       ("name", PStr table_name);
       ("arn", PStr (tbl_TableArn table));
       ("app_name", PStr app_name);
       ("status", str_or (tbl_TableStatus table) "Unknown");
       ("item_count", int_or (tbl_ItemCount table) 0);
       ("table_size_bytes", int_or (tbl_TableSizeBytes table) 0);
       ("tags", PList tags)]).

Definition dynamodb_warning (table_name : string) (e : exn) : string :=
  "Error processing DynamoDB table " ++ table_name ++ ": " ++ exn_str e.

Definition inventory_dynamodb_tables (st : state) : state :=
  let st := log INFO "Inventorying DynamoDB tables..." st in
  try_except
    (use_client E "dynamodb" ;;
     for_pages (list_tables E) (for_each_try dynamodb_process dynamodb_warning))
    "Error inventorying DynamoDB tables" st.

(** *** S3 *)

(** The inner [try] around [get_bucket_tagging]: only a [ClientError] whose
    code is [NoSuchTagSet] is turned into an empty tag list; every other
    exception goes on to the bucket's handler. *)
Definition s3_bucket_tags (bucket_name : string) : result tag_list :=
  match get_bucket_tagging E bucket_name with
  | Ok tags_response => Ok (tags_or_empty tags_response)
  | Raise (ClientError code msg) =>
      if String.eqb code "NoSuchTagSet" then Ok []
      else Raise (ClientError code msg)
  | Raise e => Raise e
  end.

(** The [try] around [get_bucket_location], whose bare [except] gives
    ['Unknown']. *)
Definition s3_bucket_location (bucket_name : string) : string :=
  match get_bucket_location E bucket_name with
  | Ok (Some (Some location)) => location
  | Ok _ => "us-east-1"
  | Raise _ => "Unknown"
  end.

Definition s3_process (b : bucket) : result (string * pydict) :=
  let bucket_name := bkt_Name b in
  let* tag_set := s3_bucket_tags bucket_name in
  let tags := tag_pairs tag_set in
  let* app_name := extract_app_name (PList tags) in
  let location := s3_bucket_location bucket_name in
  Ok (app_name,
      [("service", PStr "S3");
       ("resource_type", PStr "Bucket");
       ("name", PStr bucket_name);
       ("arn", PStr ("arn:aws:s3:::" ++ bucket_name));
       ("app_name", PStr app_name);
       ("creation_date", PStr (isoformat (bkt_CreationDate b)));
       ("region", PStr location);
       ("tags", PList tags)]).

Definition s3_warning (b : bucket) (e : exn) : string :=
  "Error processing S3 bucket " ++ bkt_Name b ++ ": " ++ exn_str e.

(** [response = s3_client.list_buckets()], then the loop over
    [response['Buckets']]. *)
Definition s3_list_and_collect : block :=
  fun st =>
    match list_buckets E with
    | Ok buckets => (for_each_try s3_process s3_warning buckets st, None)
    | Raise e => (st, Some e)
    end.

Definition inventory_s3_buckets (st : state) : state :=
  let st := log INFO "Inventorying S3 buckets..." st in
  try_except (use_client E "s3" ;; s3_list_and_collect)
    "Error inventorying S3 buckets" st.

(** *** EC2 *)

Definition ec2_process (rgn : string) (instance : ec2_instance) : result (string * pydict) :=
  let tags := tag_pairs (tags_or_empty (ec2_Tags instance)) in
  let* app_name := extract_app_name (PList tags) in
  Ok (app_name,
      [("service", PStr "EC2");
       ("resource_type", PStr "Instance");
       ("name", PStr (ec2_InstanceId instance));
       ("arn", PStr ("arn:aws:ec2:" ++ rgn ++ ":"
                       ++ match ec2_OwnerId instance with Some o => o | None => "unknown" end
                       ++ ":instance/" ++ ec2_InstanceId instance));
       ("app_name", PStr app_name);
       ("instance_type", str_or (ec2_InstanceType instance) "Unknown");
       ("state", PStr match ec2_State instance with
                       | Some (Some name) => name
                       | _ => "Unknown"
                       end);
       ("launch_time", iso_or_empty (ec2_LaunchTime instance));
       ("tags", PList tags)]).

Definition ec2_warning (instance : ec2_instance) (e : exn) : string :=
  "Error processing EC2 instance " ++ ec2_InstanceId instance ++ ": " ++ exn_str e.

(** A page holds reservations, a reservation holds instances. *)
Definition inventory_ec2_instances (st : state) : state :=
  let st := log INFO "Inventorying EC2 instances..." st in
  try_except
    (use_client E "ec2" ;;
     for_pages (describe_instances E)
       (fun reservations st =>
          fold_left
            (fun st instances =>
               for_each_try (ec2_process (region st)) ec2_warning instances st)
            reservations st))
    "Error inventorying EC2 instances" st.

(** *** API Gateway *)

Definition rest_api_arn (rgn : string) (api : rest_api) : string :=
  "arn:aws:apigateway:" ++ rgn ++ "::/restapis/" ++ rest_id api.

Definition rest_api_process (rgn : string) (api : rest_api) : result (string * pydict) :=
  let* tags_response := get_tags E (rest_api_arn rgn api) in
  let tags := tag_pairs (tags_or_empty tags_response) in
  let* app_name := extract_app_name (PList tags) in
  Ok (app_name,
      [("service", PStr "API Gateway");
       ("resource_type", PStr "REST API");
       ("name", PStr (rest_name api));
       ("arn", PStr (rest_api_arn rgn api));
       ("app_name", PStr app_name);
       ("api_id", PStr (rest_id api));
       ("created_date", iso_or_empty (rest_createdDate api));
       ("tags", PList tags)]).

Definition rest_api_warning (api : rest_api) (e : exn) : string :=
  "Error processing API Gateway API " ++ rest_name api ++ ": " ++ exn_str e.

(** The owner is resolved from [api.get('Tags', {})] as it comes, a flat
    map; the ['tags'] entry of the record is the list of pairs. *)
Definition http_api_process (rgn : string) (api : http_api) : result (string * pydict) :=
  let* app_name := extract_app_name (flat_tags (tags_or_empty (http_Tags api))) in
  Ok (app_name,
      [("service", PStr "API Gateway v2");
       ("resource_type", PStr "HTTP API");
       ("name", PStr (http_Name api));
       ("arn", PStr ("arn:aws:apigateway:" ++ rgn ++ "::/apis/" ++ http_ApiId api));
       ("app_name", PStr app_name);
       ("api_id", PStr (http_ApiId api));
       ("protocol_type", str_or (http_ProtocolType api) "Unknown");
       ("created_date", iso_or_empty (http_CreatedDate api));
       ("tags", PList (tag_pairs (tags_or_empty (http_Tags api))))]).

Definition http_api_warning (api : http_api) (e : exn) : string :=
  "Error processing API Gateway v2 API " ++ http_Name api ++ ": " ++ exn_str e.

Definition inventory_apigateway_apis (st : state) : state :=
  let st := log INFO "Inventorying API Gateway APIs..." st in
  try_except
    (use_client E "apigateway" ;;
     for_pages (get_rest_apis E)
       (fun items st => for_each_try (rest_api_process (region st)) rest_api_warning items st) ;;
     use_client E "apigatewayv2" ;;
     for_pages (get_apis E)
       (fun items st => for_each_try (http_api_process (region st)) http_api_warning items st))
    "Error inventorying API Gateway APIs" st.

(** *** [run_inventory] *)

(** The state after the six collectors; the method returns
    [dict(self.inventory)], the [inventory] of that state. *)
Definition run_inventory (st : state) : state :=
  let st := log INFO ("Starting AWS resource inventory for region: " ++ region st) st in
  let st := inventory_lambda_functions st in
  let st := inventory_rds_instances st in
  let st := inventory_dynamodb_tables st in
  let st := inventory_s3_buckets st in
  let st := inventory_ec2_instances st in
  let st := inventory_apigateway_apis st in
  log INFO "Inventory complete!" st.

End Collectors.

(** ** The reports and [main] *)

(** The default dialect of [csv.writer]: fields joined by a comma, a field
    quoted when it holds the delimiter, the quote character, a carriage
    return or a line feed, a quote inside it doubled, and every row ended
    by carriage return and line feed. *)
Definition dquote : ascii := "034"%char.
Definition cr : ascii := "013"%char.
Definition lf : ascii := "010"%char.

Fixpoint needs_quoting (s : string) : bool :=
  match s with
  | EmptyString => false
  | String c s' =>
      Ascii.eqb c ","%char || Ascii.eqb c dquote || Ascii.eqb c cr || Ascii.eqb c lf
      || needs_quoting s'
  end.

Fixpoint double_quotes (s : string) : string :=
  match s with
  | EmptyString => EmptyString
  | String c s' =>
      if Ascii.eqb c dquote then String dquote (String dquote (double_quotes s'))
      else String c (double_quotes s')
  end.

Definition csv_field (s : string) : string :=
  if needs_quoting s
  then String dquote (double_quotes s ++ String dquote EmptyString)
  else s.

Definition csv_line (fields : list string) : string :=
  String.concat "," (map csv_field fields) ++ String cr (String lf EmptyString).

Record report_files : Type := {
  json_file : string;
  csv_file : string;
  summary_file : string
}.

Section Reports.

(** [json.dumps(d, default=str)] of the standard library, applied to the
    dict of the remaining attributes. *)
Variable json_dumps : pydict -> string.

(** The row given to the first [writer.writerow]. *)
Definition csv_header : list pyval :=
  [PStr "App Name"; PStr "Service"; PStr "Resource Type"; PStr "Resource Name";
   PStr "ARN"; PStr "Additional Info"].

Definition fixed_keys : list string :=
  ["service"; "resource_type"; "name"; "arn"; "app_name"; "tags"].

(** [{k: v for k, v in resource.items() if k not in [...]}] *)
Definition additional_info (resource : pydict) : pydict :=
  filter (fun kv => negb (existsb (String.eqb (fst kv)) fixed_keys)) resource.

(** The list given to [writer.writerow] for one resource. *)
Definition csv_row (app_name : string) (resource : pydict) : result (list pyval) :=
  let info := additional_info resource in
  let* service := dict_item resource "service" in
  let* resource_type := dict_item resource "resource_type" in
  let* name := dict_item resource "name" in
  let* arn := dict_item resource "arn" in
  Ok [PStr app_name; service; resource_type; name; arn; PStr (json_dumps info)].

Fixpoint result_map {A B : Type} (f : A -> result B) (l : list A) : result (list B) :=
  match l with
  | [] => Ok []
  | a :: l' =>
      let* b := f a in
      let* bs := result_map f l' in
      Ok (b :: bs)
  end.

(** The rows written to the CSV file: the header, then, for every owner of
    [self.inventory.items()] and every resource of that owner, its row. *)
Definition csv_rows (inv : Inventory) : result (list (list pyval)) :=
  let* per_owner :=
    result_map (fun kv => result_map (csv_row (fst kv)) (snd kv)) inv in
  Ok (csv_header :: List.concat per_owner).

(** *** The summary report *)

(** The values that can be keys of a dict: [None], an int or a str. *)
Inductive pykey : Type :=
| KNone
| KInt (z : Z)
| KStr (s : string).

(** Hashing a value to use it as a key; a list or a dict is unhashable. *)
Definition as_key (v : pyval) : result pykey :=
  match v with
  | PNone => Ok KNone
  | PInt z => Ok (KInt z)
  | PStr s => Ok (KStr s)
  | PList _ => Raise (PyError "TypeError" "unhashable type: 'list'")
  | PDict _ => Raise (PyError "TypeError" "unhashable type: 'dict'")
  end.

Definition key_eqb (a b : pykey) : bool :=
  match a, b with
  | KNone, KNone => true
  | KInt x, KInt y => Z.eqb x y
  | KStr s, KStr t => String.eqb s t
  | _, _ => false
  end.

(** [resource['service']] as a key of [service_counts]. *)
Definition service_key (resource : pydict) : result pykey :=
  let* v := dict_item resource "service" in
  as_key v.

(** [service_counts[key] += 1] on a [defaultdict(int)]. *)
Fixpoint count_up (counts : list (pykey * nat)) (key : pykey) : list (pykey * nat) :=
  match counts with
  | [] => [(key, 1)]
  | (k, n) :: rest =>
      if key_eqb k key then (k, S n) :: rest else (k, n) :: count_up rest key
  end.

(** The loop over the resources of one owner. *)
Fixpoint count_services (resources : list pydict) (counts : list (pykey * nat))
  : result (list (pykey * nat)) :=
  match resources with
  | [] => Ok counts
  | resource :: rest =>
      let* key := service_key resource in
      count_services rest (count_up counts key)
  end.

(** [a < b] on keys: two strs compare by code points, two ints by value, and
    nothing else compares. *)
Definition key_ltb (a b : pykey) : result bool :=
  match a, b with
  | KStr s, KStr t => Ok (String.ltb s t)
  | KInt x, KInt y => Ok (Z.ltb x y)
  | _, _ => Raise (PyError "TypeError" "'<' not supported between instances")
  end.

(** [sorted(items)] on items whose keys are distinct, as the items of a dict
    are: the result is the one ascending arrangement, reached here by
    insertion; a comparison that raises ends it. *)
Fixpoint insert_sorted {A : Type} (lt : A -> A -> result bool) (x : A) (l : list A)
  : result (list A) :=
  match l with
  | [] => Ok [x]
  | y :: l' =>
      let* before := lt x y in
      if before then Ok (x :: y :: l')
      else
        let* rest := insert_sorted lt x l' in
        Ok (y :: rest)
  end.

Fixpoint py_sorted {A : Type} (lt : A -> A -> result bool) (l : list A)
  : result (list A) :=
  match l with
  | [] => Ok []
  | x :: l' =>
      let* sorted_rest := py_sorted lt l' in
      insert_sorted lt x sorted_rest
  end.

(** The same insertion with a comparison that cannot raise. *)
Fixpoint insert_by {A : Type} (lt : A -> A -> bool) (x : A) (l : list A) : list A :=
  match l with
  | [] => [x]
  | y :: l' => if lt x y then x :: y :: l' else y :: insert_by lt x l'
  end.

Fixpoint sort_by {A : Type} (lt : A -> A -> bool) (l : list A) : list A :=
  match l with
  | [] => []
  | x :: l' => insert_by lt x (sort_by lt l')
  end.

(** [str(n)] for a count and for a key. *)
Definition nat_str (n : nat) : string :=
  DecimalString.NilEmpty.string_of_uint (Nat.to_uint n).

Definition key_str (k : pykey) : string :=
  match k with
  | KNone => "None"
  | KInt z => DecimalString.NilZero.string_of_int (Z.to_int z)
  | KStr s => s
  end.

Definition newline : string := String lf EmptyString.

(** [s * n] *)
Fixpoint repeat_string (s : string) (n : nat) : string :=
  match n with
  | O => EmptyString
  | S n' => (s ++ repeat_string s n')%string
  end.

(** What the summary says about one owner: its name, the count of each
    service in ascending order of the services, and [len(resources)]. *)
Record owner_summary : Type := {
  summary_owner : string;
  summary_counts : list (pykey * nat);
  summary_total : nat
}.

Definition summarize_owner (kv : string * list pydict) : result owner_summary :=
  let* counts := count_services (snd kv) [] in
  let* sorted_counts := py_sorted (fun a b => key_ltb (fst a) (fst b)) counts in
  Ok {| summary_owner := fst kv; summary_counts := sorted_counts;
        summary_total := List.length (snd kv) |}.

(** The owners in the order of [sorted(self.inventory.items())]. *)
Definition summary_blocks (inv : Inventory) : result (list owner_summary) :=
  let* owners := py_sorted (fun a b => Ok (String.ltb (fst a) (fst b))) inv in
  result_map summarize_owner owners.

Definition render_count (kn : pykey * nat) : string :=
  "  " ++ key_str (fst kn) ++ ": " ++ nat_str (snd kn) ++ " resources" ++ newline.

Definition render_block (b : owner_summary) : string :=
  "Application: " ++ summary_owner b ++ newline
  ++ repeat_string "-" 30 ++ newline
  ++ String.concat "" (map render_count (summary_counts b))
  ++ "  Total: " ++ nat_str (summary_total b) ++ " resources" ++ newline ++ newline.

(** [total_resources], counted up once per resource. *)
Definition total_resources (blocks : list owner_summary) : nat :=
  list_sum (map summary_total blocks).

(** The text written to the summary file. *)
Definition summary_text (inv : Inventory) : result string :=
  let* blocks := summary_blocks inv in
  Ok ("AWS Resource Inventory Summary" ++ newline
      ++ repeat_string "=" 40 ++ newline ++ newline
      ++ String.concat "" (map render_block blocks)
      ++ "OVERALL TOTAL: " ++ nat_str (total_resources blocks)
      ++ " resources across " ++ nat_str (List.length inv) ++ " applications"
      ++ newline)%string.

(** The line [main] prints about the result of [run_inventory]. *)
Definition found_line (results : Inventory) : string :=
  "Found " ++ nat_str (list_sum (map (fun kv => List.length (snd kv)) results))
  ++ " resources across " ++ nat_str (List.length results) ++ " applications".

(** *** [generate_reports] and [main] *)

Record reports : Type := {
  files : report_files;
  csv_written : list (list pyval);
  summary_written : string
}.

(** [generate_reports]: the three files are opened and written in turn.
    Opening a file can fail, and so can writing a CSV row or the summary,
    which read the records; what was logged before stays. [json.dump]
    with [default=str] does not fail on the values of this development
    (every key of a dict is a str, and a dict or list is a tree), and the
    text it writes is not part of it. *)
Definition generate_reports (E : aws_env) (output_dir : string) (st : state)
  : result reports * state :=
  let timestamp := now E in
  let json_file := (output_dir ++ "/aws_inventory_" ++ timestamp ++ ".json")%string in
  match open_error E json_file with
  | Some e => (Raise e, st)
  | None =>
      let st := log INFO ("JSON report saved to: " ++ json_file) st in
      let csv_file := (output_dir ++ "/aws_inventory_" ++ timestamp ++ ".csv")%string in
      match open_error E csv_file with
      | Some e => (Raise e, st)
      | None =>
          match csv_rows (inventory st) with
          | Raise e => (Raise e, st)
          | Ok rows =>
              let st := log INFO ("CSV report saved to: " ++ csv_file) st in
              let summary_file :=
                (output_dir ++ "/aws_inventory_summary_" ++ timestamp ++ ".txt")%string in
              match open_error E summary_file with
              | Some e => (Raise e, st)
              | None =>
                  match summary_text (inventory st) with
                  | Raise e => (Raise e, st)
                  | Ok text =>
                      let st :=
                        log INFO ("Summary report saved to: " ++ summary_file) st in
                      (Ok {| files := {| json_file := json_file; csv_file := csv_file;
                                         summary_file := summary_file |};
                             csv_written := rows;
                             summary_written := text |}, st)
                  end
              end
          end
      end
  end.

(** [AWSResourceInventory(region, profile)]: the session is created with the
    profile when one is given (and not empty); a failure is logged and
    raised again. *)
Definition init (E : aws_env) (rgn : string) (profile : option string) : result state :=
  let profile_name :=
    match profile with
    | Some p => if String.eqb p "" then None else Some p
    | None => None
    end in
  match session_error E profile_name with
  | Some e => Raise e
  | None => Ok (new_inventory rgn)
  end.

Record outcome : Type := {
  exit_status : Z;
  results : Inventory;
  written : option reports
}.

(** [main], after the arguments are parsed: any exception gives status 1,
    otherwise the status is 0. *)
Definition main (E : aws_env) (rgn : string) (profile : option string)
    (output_dir : string) : outcome :=
  match init E rgn profile with
  | Raise _ => {| exit_status := 1; results := []; written := None |}
  | Ok st =>
      let st := run_inventory E st in
      match generate_reports E output_dir st with
      | (Raise _, _) => {| exit_status := 1; results := inventory st; written := None |}
      | (Ok files, _) =>
          {| exit_status := 0; results := inventory st; written := Some files |}
      end
  end.

End Reports.

(** ** Vocabulary of the properties *)

(** *** Tags *)

(** An entry [(key, value)] names an owner: its key is one of
    [app_tag_keys] and its value is not empty. *)
Definition owner_tag (kv : string * string) : bool :=
  existsb (String.eqb (fst kv)) app_tag_keys && negb (String.eqb (snd kv) "").

(** The owner key of a list of key/value pairs: the value of the first
    owner tag, lower-cased, every space turned into a hyphen. *)
Definition owner_of (tags : list (string * string)) : string :=
  match find owner_tag tags with
  | Some kv => replace_space (lower (snd kv))
  | None => "untagged"
  end.

(** The same test on an arbitrary entry of a tag sequence. *)
Definition matches_owner (entry : pyval) : bool :=
  match entry with
  | PDict d =>
      py_in (dict_get d "Key" (PStr "")) app_tag_keys
      && truthy (dict_get d "Value" (PStr ""))
  | _ => false
  end.


(** The normalization in the words of the specification: the value
    lower-cased, and every whitespace character that is interior (text on
    both sides of it) replaced by a hyphen. Whitespace is what [str.isspace]
    accepts below code point 256. *)
Definition is_whitespace (c : ascii) : bool :=
  existsb (Nat.eqb (nat_of_ascii c)) [9; 10; 11; 12; 13; 28; 29; 30; 31; 32; 133; 160]%nat.

Fixpoint has_text (s : string) : bool :=
  match s with
  | EmptyString => false
  | String c s' => negb (is_whitespace c) || has_text s'
  end.

Fixpoint hyphenate_interior (text_before : bool) (s : string) : string :=
  match s with
  | EmptyString => EmptyString
  | String c s' =>
      if is_whitespace c
      then String (if text_before && has_text s' then "-"%char else c)
                  (hyphenate_interior text_before s')
      else String c (hyphenate_interior true s')
  end.

Definition spec_normalize (value : string) : string :=
  hyphenate_interior false (lower value).

(** *** Records appended to the inventory *)

Definition successes {A : Type} (process : A -> result (string * pydict))
    (items : list A) : list (string * pydict) :=
  List.flat_map
    (fun item => match process item with Ok x => [x] | Raise _ => [] end) items.

Definition warnings {A : Type} (process : A -> result (string * pydict))
    (warning : A -> exn -> string) (items : list A) : list (level * string) :=
  List.flat_map
    (fun item =>
       match process item with
       | Ok _ => []
       | Raise e => [(WARNING, warning item e)]
       end) items.

(** The inventory after the records [rs] were appended in turn, each under
    its owner key. *)
Definition extend (inv : Inventory) (rs : list (string * pydict)) : Inventory :=
  fold_left (fun inv kr => inv_append inv (fst kr) (snd kr)) rs inv.

(** [get_client] would return a handle: one is cached, or the session can
    create one. *)
Definition available (E : aws_env) (st : state) (service : string) : bool :=
  match lookup service (clients st) with
  | Some _ => true
  | None => match client_error E service with None => true | Some _ => false end
  end.

(** What a later state of the same run keeps: the region, the services that
    can be reached and every cached handle. *)
Definition session_kept (E : aws_env) (st st' : state) : Prop :=
  region st' = region st
  /\ (forall s, available E st' s = available E st s)
  /\ (forall s c, lookup s (clients st) = Some c -> lookup s (clients st') = Some c).

(** A loop body appends the records [f] and logs the lines [g], and leaves
    the rest of the state alone. *)
Definition appends {A : Type} (body : A -> state -> state)
    (f : string -> A -> list (string * pydict))
    (g : string -> A -> list (level * string)) : Prop :=
  forall a st,
    inventory (body a st) = extend (inventory st) (f (region st) a)
    /\ logged (body a st) = logged st ++ g (region st) a
    /\ region (body a st) = region st
    /\ clients (body a st) = clients st
    /\ created (body a st) = created st.

Definition no_exn (o : option exn) : bool :=
  match o with None => true | Some _ => false end.

(** A block appends the records [recs] and ends without an exception
    exactly when [ok]; both depend on the state only through its region
    and the services that can be reached, given as [avail]. *)
Definition block_spec (E : aws_env) (b : block)
    (recs : string -> (string -> bool) -> list (string * pydict))
    (ok : string -> (string -> bool) -> bool) : Prop :=
  forall st avail,
    (forall s, avail s = available E st s) ->
    inventory (fst (b st)) = extend (inventory st) (recs (region st) avail)
    /\ no_exn (snd (b st)) = ok (region st) avail
    /\ session_kept E st (fst (b st))
    /\ incl (logged st) (logged (fst (b st))).

Inductive collector : Type := Lambda | RDS | DynamoDB | S3 | EC2 | APIGateway.

Definition collectors : list collector := [Lambda; RDS; DynamoDB; S3; EC2; APIGateway].

(** The values of ['service'] a collector writes. *)
Definition services_of (c : collector) : list string :=
  match c with
  | Lambda => ["Lambda"]
  | RDS => ["RDS"]
  | DynamoDB => ["DynamoDB"]
  | S3 => ["S3"]
  | EC2 => ["EC2"]
  | APIGateway => ["API Gateway"; "API Gateway v2"]
  end.

Definition run_collector (E : aws_env) (c : collector) : state -> state :=
  match c with
  | Lambda => inventory_lambda_functions E
  | RDS => inventory_rds_instances E
  | DynamoDB => inventory_dynamodb_tables E
  | S3 => inventory_s3_buckets E
  | EC2 => inventory_ec2_instances E
  | APIGateway => inventory_apigateway_apis E
  end.

(** The records a collector appends, in order, in a run for region [rgn]
    in which [avail] tells the services that can be reached. The records
    of the pages that came before a failed page request are among them. *)
Definition collector_records (E : aws_env) (c : collector) (rgn : string)
    (avail : string -> bool) : list (string * pydict) :=
  match c with
  | Lambda =>
      if avail "lambda"
      then List.flat_map (successes (lambda_process E)) (pages (list_functions E))
      else []
  | RDS =>
      if avail "rds"
      then List.flat_map (successes (rds_instance_process E)) (pages (describe_db_instances E))
           ++ (if no_exn (failure (describe_db_instances E))
               then List.flat_map (successes (rds_cluster_process E))
                      (pages (describe_db_clusters E))
               else [])
      else []
  | DynamoDB =>
      if avail "dynamodb"
      then List.flat_map (successes (dynamodb_process E)) (pages (list_tables E))
      else []
  | S3 =>
      if avail "s3"
      then match list_buckets E with
           | Ok buckets => successes (s3_process E) buckets
           | Raise _ => []
           end
      else []
  | EC2 =>
      if avail "ec2"
      then List.flat_map (List.flat_map (successes (ec2_process rgn)))
             (pages (describe_instances E))
      else []
  | APIGateway =>
      if avail "apigateway"
      then List.flat_map (successes (rest_api_process E rgn)) (pages (get_rest_apis E))
           ++ (if no_exn (failure (get_rest_apis E)) && avail "apigatewayv2"
               then List.flat_map (successes (http_api_process rgn)) (pages (get_apis E))
               else [])
      else []
  end.

Definition run_records (E : aws_env) (rgn : string) (avail : string -> bool)
  : list (string * pydict) :=
  List.flat_map (fun c => collector_records E c rgn avail) collectors.

(** The record carries one of the given ['service'] values. *)
Definition has_service (services : list string) (r : pydict) : bool :=
  py_in (dict_get r "service" PNone) services.

Definition text_field (r : pydict) (k : string) : option string :=
  match dict_lookup r k with
  | Some (PStr s) => Some s
  | _ => None
  end.

(** The four fixed columns are strings. *)
Definition well_formed (r : pydict) : bool :=
  match text_field r "service", text_field r "resource_type",
        text_field r "name", text_field r "arn" with
  | Some _, Some _, Some _, Some _ => true
  | _, _, _, _ => false
  end.

(** ['arn'] is a string that is not empty. *)
Definition arn_nonempty (r : pydict) : bool :=
  match text_field r "arn" with
  | Some s => negb (String.eqb s "")
  | None => false
  end.

(** *** Environments *)

(** The environment [E] with other listing answers. *)
Definition with_listings (E : aws_env)
    (functions : paginated (list lambda_function))
    (db_instances : paginated (list db_instance))
    (db_clusters : paginated (list db_cluster))
    (tables : paginated (list string))
    (buckets : result (list bucket))
    (instances : paginated (list (list ec2_instance)))
    (rest_apis : paginated (list rest_api))
    (apis : paginated (list http_api)) : aws_env :=
  {| session_error := session_error E;
     client_error := client_error E;
     list_functions := functions;
     list_tags := list_tags E;
     describe_db_instances := db_instances;
     describe_db_clusters := db_clusters;
     list_tags_for_resource := list_tags_for_resource E;
     list_tables := tables;
     describe_table := describe_table E;
     list_tags_of_resource := list_tags_of_resource E;
     list_buckets := buckets;
     get_bucket_tagging := get_bucket_tagging E;
     get_bucket_location := get_bucket_location E;
     describe_instances := instances;
     get_rest_apis := rest_apis;
     get_tags := get_tags E;
     get_apis := apis;
     now := now E;
     open_error := open_error E |}.

(** [E], except that the first listing request of collector [c] fails with
    [e] before it gives a page. *)
Definition fail_listing (c : collector) (e : exn) (E : aws_env) : aws_env :=
  with_listings E
    (match c with Lambda => Pages [] (Some e) | _ => list_functions E end)
    (match c with RDS => Pages [] (Some e) | _ => describe_db_instances E end)
    (describe_db_clusters E)
    (match c with DynamoDB => Pages [] (Some e) | _ => list_tables E end)
    (match c with S3 => Raise e | _ => list_buckets E end)
    (match c with EC2 => Pages [] (Some e) | _ => describe_instances E end)
    (match c with APIGateway => Pages [] (Some e) | _ => get_rest_apis E end)
    (get_apis E).

(** Some listing request of collector [c] fails, on whatever page. *)
Definition listing_fails (c : collector) (E : aws_env) : bool :=
  match c with
  | Lambda => negb (no_exn (failure (list_functions E)))
  | RDS => negb (no_exn (failure (describe_db_instances E)))
           || negb (no_exn (failure (describe_db_clusters E)))
  | DynamoDB => negb (no_exn (failure (list_tables E)))
  | S3 => negb (is_ok (list_buckets E))
  | EC2 => negb (no_exn (failure (describe_instances E)))
  | APIGateway => negb (no_exn (failure (get_rest_apis E)))
                  || negb (no_exn (failure (get_apis E)))
  end.

(** The state after [get_client] was called for each service in turn. *)
Definition get_clients (E : aws_env) (services : list string) (st : state) : state :=
  fold_left (fun st service => snd (get_client E service st)) services st.

(** An account with nothing in it, in which every request succeeds. *)
Definition empty_account : aws_env :=
  {| session_error := fun _ => None;
     client_error := fun _ => None;
     list_functions := Pages [] None;
     list_tags := fun _ => Ok None;
     describe_db_instances := Pages [] None;
     describe_db_clusters := Pages [] None;
     list_tags_for_resource := fun _ => Ok None;
     list_tables := Pages [] None;
     describe_table := fun _ => Raise (ClientError "ResourceNotFoundException" "not found");
     list_tags_of_resource := fun _ => Ok None;
     list_buckets := Ok [];
     get_bucket_tagging := fun _ => Raise (ClientError "NoSuchTagSet" "The TagSet does not exist");
     get_bucket_location := fun _ => Ok None;
     describe_instances := Pages [] None;
     get_rest_apis := Pages [] None;
     get_tags := fun _ => Ok None;
     get_apis := Pages [] None;
     now := "20240101_000000";
     open_error := fun _ => None |}.

Definition access_denied : exn :=
  ClientError "AccessDenied" "User is not authorized to perform this operation".

(** The header row in the words of the specification. *)
Definition spec_header : list pyval :=
  [PStr "Owner Key"; PStr "Service"; PStr "Resource Type"; PStr "Name";
   PStr "ARN"; PStr "Additional Info"].

(** *** Sample resources *)

Definition order_tags : list (string * string) := [("project", "Order Service")].

Definition order_http_api : http_api :=
  {| http_Name := "orders"; http_ApiId := "a1b2c3d4e5"; http_ProtocolType := Some "HTTP";
     http_CreatedDate := None; http_Tags := Some order_tags |}.

Definition order_rest_api : rest_api :=
  {| rest_id := "a1b2c3d4e5"; rest_name := "orders"; rest_createdDate := None |}.

(** An account whose REST API tags are [order_tags]. *)
Definition order_account : aws_env :=
  {| session_error := session_error empty_account;
     client_error := client_error empty_account;
     list_functions := list_functions empty_account;
     list_tags := list_tags empty_account;
     describe_db_instances := describe_db_instances empty_account;
     describe_db_clusters := describe_db_clusters empty_account;
     list_tags_for_resource := list_tags_for_resource empty_account;
     list_tables := list_tables empty_account;
     describe_table := describe_table empty_account;
     list_tags_of_resource := list_tags_of_resource empty_account;
     list_buckets := list_buckets empty_account;
     get_bucket_tagging := get_bucket_tagging empty_account;
     get_bucket_location := get_bucket_location empty_account;
     describe_instances := describe_instances empty_account;
     get_rest_apis := Pages [[order_rest_api]] None;
     get_tags := fun _ => Ok (Some order_tags);
     get_apis := Pages [[order_http_api]] None;
     now := now empty_account;
     open_error := open_error empty_account |}.

(** *** Shape of a record *)

(** The five leading entries of every [resource_info] dict. *)
Definition headed (service resource_type name arn app_name : string) (r : pydict) : Prop :=
  exists rest,
    r = ("service", PStr service) :: ("resource_type", PStr resource_type)
        :: ("name", PStr name) :: ("arn", PStr arn) :: ("app_name", PStr app_name) :: rest.

(** The record is one a collector built, filed under its own owner key. *)
Definition filed_under (k : string) (r : pydict) : Prop :=
  exists service resource_type name arn, headed service resource_type name arn k r.

Definition inventory_filed (inv : Inventory) : Prop :=
  Forall (fun kv => Forall (filed_under (fst kv)) (snd kv)) inv.

(** [e] is the S3 answer that a bucket has no tag set. *)
Definition is_no_such_tag_set (e : exn) : bool :=
  match e with
  | ClientError code _ => String.eqb code "NoSuchTagSet"
  | PyError _ _ => false
  end.

(** The row of one record, from its own entries. *)
Definition record_row (json_dumps : pydict -> string) (r : pydict) : list pyval :=
  [dict_get r "app_name" PNone; dict_get r "service" PNone;
   dict_get r "resource_type" PNone; dict_get r "name" PNone; dict_get r "arn" PNone;
   PStr (json_dumps (additional_info r))].

(** *** A small account *)

Definition checkout_fn : lambda_function :=
  {| lf_FunctionName := "checkout-fn";
     lf_FunctionArn := "arn:aws:lambda:us-east-1:123456789012:function:checkout-fn";
     lf_Runtime := Some "python3.12"; lf_MemorySize := Some 256%Z;
     lf_Timeout := Some 30%Z; lf_LastModified := None |}.

Definition broken_fn : lambda_function :=
  {| lf_FunctionName := "broken-fn";
     lf_FunctionArn := "arn:aws:lambda:us-east-1:123456789012:function:broken-fn";
     lf_Runtime := None; lf_MemorySize := None; lf_Timeout := None;
     lf_LastModified := None |}.

Definition report_fn : lambda_function :=
  {| lf_FunctionName := "report-fn";
     lf_FunctionArn := "arn:aws:lambda:us-east-1:123456789012:function:report-fn";
     lf_Runtime := Some "nodejs20.x"; lf_MemorySize := None; lf_Timeout := None;
     lf_LastModified := None |}.

Definition orders_db : db_instance :=
  {| dbi_DBInstanceIdentifier := "orders-db";
     dbi_DBInstanceArn := "arn:aws:rds:us-east-1:123456789012:db:orders-db";
     dbi_Engine := Some "postgres"; dbi_DBInstanceClass := None;
     dbi_DBInstanceStatus := Some "available"; dbi_AllocatedStorage := Some 20%Z |}.

Definition orders_cluster : db_cluster :=
  {| dbc_DBClusterIdentifier := "orders-cluster";
     dbc_DBClusterArn := "arn:aws:rds:us-east-1:123456789012:cluster:orders-cluster";
     dbc_Engine := Some "aurora-postgresql"; dbc_Status := None |}.

Definition carts_table : table_description :=
  {| tbl_TableArn := "arn:aws:dynamodb:us-east-1:123456789012:table/carts";
     tbl_TableStatus := Some "ACTIVE"; tbl_ItemCount := Some 12%Z;
     tbl_TableSizeBytes := None |}.

Definition assets_bucket : bucket :=
  {| bkt_Name := "assets"; bkt_CreationDate := {| isoformat := "2023-05-01T10:00:00+00:00" |} |}.

Definition private_bucket : bucket :=
  {| bkt_Name := "private"; bkt_CreationDate := {| isoformat := "2023-06-01T10:00:00+00:00" |} |}.

Definition web_instance : ec2_instance :=
  {| ec2_InstanceId := "i-0abc"; ec2_OwnerId := None; ec2_InstanceType := Some "t3.micro";
     ec2_State := Some (Some "running"); ec2_LaunchTime := None;
     ec2_Tags := Some [("Name", "web-1"); ("App", "Store Front")] |}.

Definition sample_account : aws_env :=
  {| session_error := fun _ => None;
     client_error := fun _ => None;
     list_functions := Pages [[checkout_fn; broken_fn]; [report_fn]] None;
     list_tags := fun arn =>
       if String.eqb arn (lf_FunctionArn checkout_fn)
       then Ok (Some [("Application", "Checkout")])
       else if String.eqb arn (lf_FunctionArn report_fn) then Ok None
       else Raise (ClientError "ResourceNotFoundException" "Function not found");
     describe_db_instances := Pages [[orders_db]] None;
     describe_db_clusters := Pages [[orders_cluster]] None;
     list_tags_for_resource := fun _ => Ok (Some [("Project", "Orders")]);
     list_tables := Pages [["carts"]] None;
     describe_table := fun table_name =>
       if String.eqb table_name "carts" then Ok carts_table
       else Raise (ClientError "ResourceNotFoundException" "Table not found");
     list_tags_of_resource := fun _ => Ok (Some [("Application", "Checkout")]);
     list_buckets := Ok [assets_bucket; private_bucket];
     get_bucket_tagging := fun bucket_name =>
       if String.eqb bucket_name "assets"
       then Raise (ClientError "NoSuchTagSet" "The TagSet does not exist")
       else Raise access_denied;
     get_bucket_location := fun _ => Ok (Some None);
     describe_instances := Pages [[[web_instance]]] None;
     get_rest_apis := Pages [[order_rest_api]] None;
     get_tags := fun _ => Ok (Some order_tags);
     get_apis := Pages [[order_http_api]] None;
     now := "20240101_000000";
     open_error := fun _ => None |}.

(** The same account when the request that lists the DB clusters is
    denied. *)
Definition clusters_denied : aws_env :=
  with_listings sample_account
    (list_functions sample_account)
    (describe_db_instances sample_account)
    (Pages [] (Some access_denied))
    (list_tables sample_account)
    (list_buckets sample_account)
    (describe_instances sample_account)
    (get_rest_apis sample_account)
    (get_apis sample_account).

(** The three report files can be opened for writing. *)
Definition files_writable (E : aws_env) (output_dir : string) : bool :=
  no_exn (open_error E (output_dir ++ "/aws_inventory_" ++ now E ++ ".json"))
  && no_exn (open_error E (output_dir ++ "/aws_inventory_" ++ now E ++ ".csv"))
  && no_exn (open_error E (output_dir ++ "/aws_inventory_summary_" ++ now E ++ ".txt")).

(** The records that do not carry a service value of collector [c]. *)
Definition of_other_collector (c : collector) (r : pydict) : bool :=
  negb (has_service (services_of c) r).

(** A stand-in for [json.dumps] where its output does not matter. *)
Definition json_dumps_stub (d : pydict) : string := "{}".

(** The cells of a row that holds only strings, as [csv.writer] takes them. *)
Fixpoint row_text (row : list pyval) : option (list string) :=
  match row with
  | [] => Some []
  | PStr s :: row' =>
      match row_text row' with
      | Some l => Some (s :: l)
      | None => None
      end
  | _ => None
  end.

From Stdlib Require Import Permutation Sorted.
From Stdlib Require OrderedTypeEx.

(** ** Further vocabulary *)


(** The value is a [str]. *)
Definition is_str (v : pyval) : bool :=
  match v with PStr _ => true | _ => false end.


(** A [defaultdict(list)] that was only ever appended to: every owner key
    occurs once and no owner has an empty list. *)
Definition inventory_ok (inv : Inventory) : Prop :=
  NoDup (map fst inv) /\ Forall (fun kv => snd kv <> []) inv.

(** The cache of [get_client]: one entry per service name, each handle
    made for its service and for the region of the run, the handles told
    apart by their numbers, all below the number of handles created. *)
Definition clients_ok (st : state) : Prop :=
  NoDup (map fst (clients st))
  /\ NoDup (map (fun sc => client_id (snd sc)) (clients st))
  /\ Forall (fun sc => client_service (snd sc) = fst sc
                       /\ client_region (snd sc) = region st
                       /\ client_id (snd sc) < created st) (clients st).

(** Two states with the same region, cache and count of created handles. *)
Definition same_session (st st' : state) : Prop :=
  region st' = region st /\ clients st' = clients st /\ created st' = created st.

(** The session part of [st'] is that of [st] after [get_client] was called
    for some of the [allowed] services. *)
Definition reaches (E : aws_env) (allowed : list string) (st st' : state) : Prop :=
  exists services,
    incl services allowed /\ same_session (get_clients E services st) st'.

(** The service names the collectors ask clients for. *)
Definition client_names (c : collector) : list string :=
  match c with
  | Lambda => ["lambda"]
  | RDS => ["rds"]
  | DynamoDB => ["dynamodb"]
  | S3 => ["s3"]
  | EC2 => ["ec2"]
  | APIGateway => ["apigateway"; "apigatewayv2"]
  end.

Definition all_client_names : list string :=
  List.flat_map client_names collectors.

(** The client a collector asks for first, the line it logs when it starts
    and the head of the line it logs when it gives up. *)
Definition first_client (c : collector) : string :=
  match c with
  | Lambda => "lambda"
  | RDS => "rds"
  | DynamoDB => "dynamodb"
  | S3 => "s3"
  | EC2 => "ec2"
  | APIGateway => "apigateway"
  end.

Definition collector_intro (c : collector) : string :=
  match c with
  | Lambda => "Inventorying Lambda functions..."
  | RDS => "Inventorying RDS instances..."
  | DynamoDB => "Inventorying DynamoDB tables..."
  | S3 => "Inventorying S3 buckets..."
  | EC2 => "Inventorying EC2 instances..."
  | APIGateway => "Inventorying API Gateway APIs..."
  end.

Definition collector_what (c : collector) : string :=
  match c with
  | Lambda => "Error inventorying Lambda functions"
  | RDS => "Error inventorying RDS resources"
  | DynamoDB => "Error inventorying DynamoDB tables"
  | S3 => "Error inventorying S3 buckets"
  | EC2 => "Error inventorying EC2 instances"
  | APIGateway => "Error inventorying API Gateway APIs"
  end.

(** The body of the outer [try] of a collector. *)
Definition collector_block (E : aws_env) (c : collector) : block :=
  match c with
  | Lambda =>
      use_client E "lambda" ;;
      for_pages (list_functions E) (for_each_try (lambda_process E) lambda_warning)
  | RDS =>
      use_client E "rds" ;;
      for_pages (describe_db_instances E)
        (for_each_try (rds_instance_process E) rds_instance_warning) ;;
      for_pages (describe_db_clusters E)
        (for_each_try (rds_cluster_process E) rds_cluster_warning)
  | DynamoDB =>
      use_client E "dynamodb" ;;
      for_pages (list_tables E) (for_each_try (dynamodb_process E) dynamodb_warning)
  | S3 => use_client E "s3" ;; s3_list_and_collect E
  | EC2 =>
      use_client E "ec2" ;;
      for_pages (describe_instances E)
        (fun reservations st =>
           fold_left
             (fun st instances =>
                for_each_try (ec2_process (region st)) ec2_warning instances st)
             reservations st)
  | APIGateway =>
      use_client E "apigateway" ;;
      for_pages (get_rest_apis E)
        (fun items st =>
           for_each_try (rest_api_process E (region st)) rest_api_warning items st) ;;
      use_client E "apigatewayv2" ;;
      for_pages (get_apis E)
        (fun items st =>
           for_each_try (http_api_process (region st)) http_api_warning items st)
  end.

(** A block logs the lines [logs] and ends with the exception [raised]. *)
Definition block_log (E : aws_env) (b : block)
    (logs : string -> (string -> bool) -> list (level * string))
    (raised : string -> (string -> bool) -> option exn) : Prop :=
  forall st avail,
    (forall s, avail s = available E st s) ->
    logged (fst (b st)) = logged st ++ logs (region st) avail
    /\ snd (b st) = raised (region st) avail
    /\ session_kept E st (fst (b st)).

(** The exception of [get_client] for a service, if any. *)
Definition client_failure (E : aws_env) (avail : string -> bool) (service : string)
  : option exn :=
  if avail service then None else client_error E service.

(** The first of two exceptions in sequence. *)
Definition or_else (first second : option exn) : option exn :=
  match first with Some e => Some e | None => second end.

(** The warnings a collector logs, in order. *)
Definition collector_warnings (E : aws_env) (c : collector) (rgn : string)
    (avail : string -> bool) : list (level * string) :=
  match c with
  | Lambda =>
      if avail "lambda"
      then List.flat_map (warnings (lambda_process E) lambda_warning)
             (pages (list_functions E))
      else []
  | RDS =>
      if avail "rds"
      then List.flat_map (warnings (rds_instance_process E) rds_instance_warning)
             (pages (describe_db_instances E))
           ++ (if no_exn (failure (describe_db_instances E))
               then List.flat_map (warnings (rds_cluster_process E) rds_cluster_warning)
                      (pages (describe_db_clusters E))
               else [])
      else []
  | DynamoDB =>
      if avail "dynamodb"
      then List.flat_map (warnings (dynamodb_process E) dynamodb_warning)
             (pages (list_tables E))
      else []
  | S3 =>
      if avail "s3"
      then match list_buckets E with
           | Ok buckets => warnings (s3_process E) s3_warning buckets
           | Raise _ => []
           end
      else []
  | EC2 =>
      if avail "ec2"
      then List.flat_map (List.flat_map (warnings (ec2_process rgn) ec2_warning))
             (pages (describe_instances E))
      else []
  | APIGateway =>
      if avail "apigateway"
      then List.flat_map (warnings (rest_api_process E rgn) rest_api_warning)
             (pages (get_rest_apis E))
           ++ (if no_exn (failure (get_rest_apis E)) && avail "apigatewayv2"
               then List.flat_map (warnings (http_api_process rgn) http_api_warning)
                      (pages (get_apis E))
               else [])
      else []
  end.

(** The exception that ends the outer [try] of a collector, if any. *)
Definition collector_raised (E : aws_env) (c : collector) (avail : string -> bool)
  : option exn :=
  match c with
  | Lambda => or_else (client_failure E avail "lambda") (failure (list_functions E))
  | RDS =>
      or_else (client_failure E avail "rds")
        (or_else (failure (describe_db_instances E)) (failure (describe_db_clusters E)))
  | DynamoDB => or_else (client_failure E avail "dynamodb") (failure (list_tables E))
  | S3 =>
      or_else (client_failure E avail "s3")
        (match list_buckets E with Ok _ => None | Raise e => Some e end)
  | EC2 => or_else (client_failure E avail "ec2") (failure (describe_instances E))
  | APIGateway =>
      or_else (client_failure E avail "apigateway")
        (or_else (failure (get_rest_apis E))
           (or_else (client_failure E avail "apigatewayv2") (failure (get_apis E))))
  end.

(** The lines a collector logs. *)
Definition collector_log (E : aws_env) (c : collector) (rgn : string)
    (avail : string -> bool) : list (level * string) :=
  (INFO, collector_intro c)
  :: collector_warnings E c rgn avail
  ++ match collector_raised E c avail with
     | None => []
     | Some e => [(ERROR, (collector_what c ++ ": " ++ exn_str e)%string)]
     end.

(** The environment [E] in which the session refuses clients as [refuse]
    says. *)
Definition with_client_error (E : aws_env) (refuse : string -> option exn) : aws_env :=
  {| session_error := session_error E;
     client_error := refuse;
     list_functions := list_functions E;
     list_tags := list_tags E;
     describe_db_instances := describe_db_instances E;
     describe_db_clusters := describe_db_clusters E;
     list_tags_for_resource := list_tags_for_resource E;
     list_tables := list_tables E;
     describe_table := describe_table E;
     list_tags_of_resource := list_tags_of_resource E;
     list_buckets := list_buckets E;
     get_bucket_tagging := get_bucket_tagging E;
     get_bucket_location := get_bucket_location E;
     describe_instances := describe_instances E;
     get_rest_apis := get_rest_apis E;
     get_tags := get_tags E;
     get_apis := get_apis E;
     now := now E;
     open_error := open_error E |}.

(** The sample account when no Lambda client can be created. *)
Definition no_lambda_client : aws_env :=
  with_client_error sample_account
    (fun service => if String.eqb service "lambda" then Some access_denied else None).

(** The level of a log line. *)
Definition has_level (lvl : level) (line : level * string) : bool :=
  match lvl, fst line with
  | INFO, INFO | WARNING, WARNING | ERROR, ERROR => true
  | _, _ => false
  end.

(** The record has the four entries the CSV row reads by subscript. *)
Definition has_columns (r : pydict) : bool :=
  forallb (fun k => match dict_lookup r k with Some _ => true | None => false end)
    ["service"; "resource_type"; "name"; "arn"].

(** ** Vocabulary of the summary *)

(** The key of the record is [key]. *)
Definition has_service_key (key : pykey) (resource : pydict) : bool :=
  match service_key resource with
  | Ok k => key_eqb k key
  | Raise _ => false
  end.

(** The state of [service_counts] after the resources [seen]. *)
Definition counted (counts : list (pykey * nat)) (seen : list pydict) : Prop :=
  NoDup (map fst counts)
  /\ list_sum (map snd counts) = List.length seen
  /\ (forall k n, In (k, n) counts ->
                  n = List.length (filter (has_service_key k) seen) /\ 1 <= n)
  /\ (forall r, In r seen -> exists k n, service_key r = Ok k /\ In (k, n) counts).

(** The text of a str key. *)
Definition key_name (k : pykey) : string :=
  match k with KStr s => s | _ => "" end.

(** Strings in strictly ascending order of their code points. *)
Definition ascending (names : list string) : Prop :=
  StronglySorted (fun a b => String.ltb a b = true) names.

(** What a record keeps of the tags it was filed by. *)
Definition keeps_tags (k : string) (r : pydict) : Prop :=
  exists tags,
    dict_lookup r "tags" = Some (PList (tag_pairs tags))
    /\ k = owner_of tags
    /\ text_field r "app_name" = Some k.

(** ** ARNs copied from a response *)

(** The record is that of a listed function, DB instance or DB cluster, or
    of a described table, whose ARN in the response is the empty string. *)
Definition empty_provider_arn (E : aws_env) (r : pydict) : Prop :=
  (exists page func,
      In page (pages (list_functions E)) /\ In func page
      /\ lf_FunctionArn func = ""
      /\ has_service ["Lambda"] r = true
      /\ text_field r "name" = Some (lf_FunctionName func))
  \/ (exists page db,
        In page (pages (describe_db_instances E)) /\ In db page
        /\ dbi_DBInstanceArn db = ""
        /\ has_service ["RDS"] r = true
        /\ text_field r "name" = Some (dbi_DBInstanceIdentifier db))
  \/ (exists page cluster,
        In page (pages (describe_db_clusters E)) /\ In cluster page
        /\ dbc_DBClusterArn cluster = ""
        /\ has_service ["RDS"] r = true
        /\ text_field r "name" = Some (dbc_DBClusterIdentifier cluster))
  \/ (exists page table_name table,
        In page (pages (list_tables E)) /\ In table_name page
        /\ describe_table E table_name = Ok table
        /\ tbl_TableArn table = ""
        /\ has_service ["DynamoDB"] r = true
        /\ text_field r "name" = Some table_name).

(** A function that the service lists with an empty ARN, and an account
    that holds nothing else. *)
Definition blank_fn : lambda_function :=
  {| lf_FunctionName := "blank-fn"; lf_FunctionArn := "";
     lf_Runtime := None; lf_MemorySize := None; lf_Timeout := None;
     lf_LastModified := None |}.

Definition blank_arn_account : aws_env :=
  with_listings empty_account
    (Pages [[blank_fn]] None)
    (describe_db_instances empty_account)
    (describe_db_clusters empty_account)
    (list_tables empty_account)
    (list_buckets empty_account)
    (describe_instances empty_account)
    (get_rest_apis empty_account)
    (get_apis empty_account).

(** ** Resources and their secondary fetches *)

(** A resource as the loop of a collector takes it from a listing. *)
Inductive resource : Type :=
| LambdaFn (func : lambda_function)
| DbInstance (db : db_instance)
| DbCluster (cluster : db_cluster)
| DynamoTable (table_name : string)
| S3Bucket (b : bucket)
| Ec2Instance (instance : ec2_instance)
| RestApi (api : rest_api)
| HttpApi (api : http_api).

Definition collector_of (R : resource) : collector :=
  match R with
  | LambdaFn _ => Lambda
  | DbInstance _ | DbCluster _ => RDS
  | DynamoTable _ => DynamoDB
  | S3Bucket _ => S3
  | Ec2Instance _ => EC2
  | RestApi _ | HttpApi _ => APIGateway
  end.

(** The body of the inner [try] that the resource goes through. *)
Definition process_resource (E : aws_env) (rgn : string) (R : resource)
  : result (string * pydict) :=
  match R with
  | LambdaFn func => lambda_process E func
  | DbInstance db => rds_instance_process E db
  | DbCluster cluster => rds_cluster_process E cluster
  | DynamoTable table_name => dynamodb_process E table_name
  | S3Bucket b => s3_process E b
  | Ec2Instance instance => ec2_process rgn instance
  | RestApi api => rest_api_process E rgn api
  | HttpApi api => http_api_process rgn api
  end.

(** The line of the inner [except] for the resource. *)
Definition warning_line (R : resource) (e : exn) : level * string :=
  (WARNING,
   match R with
   | LambdaFn func => lambda_warning func e
   | DbInstance db => rds_instance_warning db e
   | DbCluster cluster => rds_cluster_warning cluster e
   | DynamoTable table_name => dynamodb_warning table_name e
   | S3Bucket b => s3_warning b e
   | Ec2Instance instance => ec2_warning instance e
   | RestApi api => rest_api_warning api e
   | HttpApi api => http_api_warning api e
   end).

(** The loop of its collector reaches the resource: the client is there,
    the listings before its own ended without an exception, and the
    resource is on a page that was delivered. *)
Definition listed (E : aws_env) (avail : string -> bool) (R : resource) : Prop :=
  match R with
  | LambdaFn func =>
      avail "lambda" = true
      /\ exists page, In page (pages (list_functions E)) /\ In func page
  | DbInstance db =>
      avail "rds" = true
      /\ exists page, In page (pages (describe_db_instances E)) /\ In db page
  | DbCluster cluster =>
      avail "rds" = true
      /\ no_exn (failure (describe_db_instances E)) = true
      /\ exists page, In page (pages (describe_db_clusters E)) /\ In cluster page
  | DynamoTable table_name =>
      avail "dynamodb" = true
      /\ exists page, In page (pages (list_tables E)) /\ In table_name page
  | S3Bucket b =>
      avail "s3" = true
      /\ exists buckets, list_buckets E = Ok buckets /\ In b buckets
  | Ec2Instance instance =>
      avail "ec2" = true
      /\ exists page reservation,
           In page (pages (describe_instances E)) /\ In reservation page
           /\ In instance reservation
  | RestApi api =>
      avail "apigateway" = true
      /\ exists page, In page (pages (get_rest_apis E)) /\ In api page
  | HttpApi api =>
      avail "apigateway" = true
      /\ no_exn (failure (get_rest_apis E)) && avail "apigatewayv2" = true
      /\ exists page, In page (pages (get_apis E)) /\ In api page
  end.

(** A request made for the resource inside the inner [try] raises [e] and
    nothing catches it there: the tag request of a function, a DB instance,
    a DB cluster or a REST API; the description or the tag request of a
    table; the tag request of a bucket, unless the answer is
    [NoSuchTagSet]. No request is made for an EC2 instance or an HTTP API,
    and the location request of a bucket has an [except] of its own. *)
Definition fetch_fails (E : aws_env) (rgn : string) (R : resource) (e : exn) : Prop :=
  match R with
  | LambdaFn func => list_tags E (lf_FunctionArn func) = Raise e
  | DbInstance db => list_tags_for_resource E (dbi_DBInstanceArn db) = Raise e
  | DbCluster cluster => list_tags_for_resource E (dbc_DBClusterArn cluster) = Raise e
  | DynamoTable table_name =>
      describe_table E table_name = Raise e
      \/ exists table, describe_table E table_name = Ok table
                       /\ list_tags_of_resource E (tbl_TableArn table) = Raise e
  | S3Bucket b =>
      get_bucket_tagging E (bkt_Name b) = Raise e /\ is_no_such_tag_set e = false
  | Ec2Instance _ => False
  | RestApi api => get_tags E (rest_api_arn rgn api) = Raise e
  | HttpApi _ => False
  end.

(** An account with one bucket, whose tags can be read and whose location
    request is denied. *)
Definition location_denied : aws_env :=
  {| session_error := session_error empty_account;
     client_error := client_error empty_account;
     list_functions := list_functions empty_account;
     list_tags := list_tags empty_account;
     describe_db_instances := describe_db_instances empty_account;
     describe_db_clusters := describe_db_clusters empty_account;
     list_tags_for_resource := list_tags_for_resource empty_account;
     list_tables := list_tables empty_account;
     describe_table := describe_table empty_account;
     list_tags_of_resource := list_tags_of_resource empty_account;
     list_buckets := Ok [assets_bucket];
     get_bucket_tagging := fun _ => Ok (Some [("app", "Store Front")]);
     get_bucket_location := fun _ => Raise access_denied;
     describe_instances := describe_instances empty_account;
     get_rest_apis := get_rest_apis empty_account;
     get_tags := get_tags empty_account;
     get_apis := get_apis empty_account;
     now := now empty_account;
     open_error := open_error empty_account |}.

(** * Properties *)

(** ** The tag resolver *)

Lemma scan_tags_tag_pairs (tags : list (string * string)) :
  scan_tags app_tag_keys (tag_pairs tags) = Ok (owner_of tags).
Proof.
  unfold owner_of.
  induction tags as [|[k v] tags IH]; [reflexivity|].
  cbn [tag_pairs map tag_dict scan_tags fst snd find].
  change (dict_get [("Key", PStr k); ("Value", PStr v)] "Key" (PStr "")) with (PStr k).
  change (dict_get [("Key", PStr k); ("Value", PStr v)] "Value" (PStr "")) with (PStr v).
  change (py_in (PStr k) app_tag_keys && truthy (PStr v)) with (owner_tag (k, v)).
  destruct (owner_tag (k, v)); [reflexivity|].
  exact IH.
Qed.

Lemma extract_app_name_tag_pairs (tags : list (string * string)) :
  extract_app_name (PList (tag_pairs tags)) = Ok (owner_of tags).
Proof.
  destruct tags as [|kv tags]; [reflexivity|].
  exact (scan_tags_tag_pairs (kv :: tags)).
Qed.

Lemma find_first_match {A : Type} (p : A -> bool) (pre post : list A) (a : A) :
  forallb (fun x => negb (p x)) pre = true -> p a = true ->
  find p (pre ++ a :: post) = Some a.
Proof.
  intros Hpre Ha.
  induction pre as [|x pre IH]; simpl in *.
  - now rewrite Ha.
  - apply andb_true_iff in Hpre as [Hx Hpre].
    apply negb_true_iff in Hx. rewrite Hx. now apply IH.
Qed.

Lemma scan_tags_no_match (entries : list pyval) :
  forallb (fun e => negb (matches_owner e)) entries = true ->
  scan_tags app_tag_keys entries = Ok "untagged".
Proof.
  induction entries as [|e entries IH]; intros H; [reflexivity|].
  cbn [forallb] in H. apply andb_true_iff in H as [He H].
  apply negb_true_iff in He.
  destruct e; cbn [scan_tags]; auto.
  cbn [matches_owner] in He. rewrite He. auto.
Qed.



Lemma scan_tags_keys_only (d : pydict) :
  scan_tags app_tag_keys (map (fun kv => PStr (fst kv)) d) = Ok "untagged".
Proof.
  induction d as [|kv d IH]; [reflexivity | exact IH].
Qed.

Lemma extract_app_name_flat (d : pydict) :
  extract_app_name (PDict d) = Ok "untagged".
Proof.
  destruct d as [|kv d]; [reflexivity|].
  exact (scan_tags_keys_only (kv :: d)).
Qed.

Lemma nonempty_app {A : Type} (pre post : list A) (a : A) :
  exists x l, pre ++ a :: post = x :: l.
Proof. destruct pre; simpl; eauto. Qed.

(** C2 (as amended). In a list of [{Key, Value}] mappings, the first entry
    whose key is a recognized owner-tag key and whose value is not empty
    decides the result, whatever the entries before it (none of which
    matches) and after it: [extract_app_name] returns its value lower-cased
    with every space character replaced by a hyphen. *)
Theorem C2_first_owner_tag_decides :
  forall (pre : list (string * string)) (k v : string) (post : list (string * string)),
    forallb (fun kv => negb (owner_tag kv)) pre = true ->
    owner_tag (k, v) = true ->
    extract_app_name (PList (tag_pairs (pre ++ (k, v) :: post)))
    = Ok (replace_space (lower v)).
Proof.
  intros pre k v post Hpre Hkv.
  rewrite extract_app_name_tag_pairs. unfold owner_of.
  now rewrite (find_first_match owner_tag pre post (k, v) Hpre Hkv).
Qed.

(** The tag [project=Order Service] between two tags that do not match
    resolves to [order-service]. *)
Lemma C2_order_service_witness :
  extract_app_name
    (PList (tag_pairs ([("env", "prod")] ++ ("project", "Order Service") :: [("team", "x")])))
  = Ok "order-service".
Proof.
  exact (C2_first_owner_tag_decides [("env", "prod")] "project" "Order Service"
           [("team", "x")] eq_refl eq_refl).
Defined.

(** C2 as stated fails: a leading space is not interior and a tab is
    whitespace, yet the code turns the first into a hyphen and keeps the
    second, so the result is not the value with its interior whitespace
    replaced by a hyphen. *)
Lemma C2_interior_whitespace_counterexample :
  extract_app_name (PList (tag_pairs [("project", " Order Service")]))
    = Ok "-order-service"
  /\ spec_normalize " Order Service" = " order-service"
  /\ extract_app_name
       (PList (tag_pairs [("project", String "O" (String "009" (String "S" EmptyString)))]))
     = Ok (String "o" (String "009" (String "s" EmptyString)))
  /\ spec_normalize (String "O" (String "009" (String "S" EmptyString))) = "o-s"
  /\ ~ (forall (pre : list (string * string)) (k v : string) (post : list (string * string)),
          forallb (fun kv => negb (owner_tag kv)) pre = true ->
          owner_tag (k, v) = true ->
          extract_app_name (PList (tag_pairs (pre ++ (k, v) :: post)))
          = Ok (spec_normalize v)).
Proof.
  repeat split; try reflexivity.
  intros H.
  specialize (H [] "project" " Order Service" [] eq_refl eq_refl).
  vm_compute in H. discriminate H.
Qed.

(** C3. Key matching is case-sensitive against exactly the list
    [Application, App, application, app, Project, project]: an entry
    matches when its key is in the list and its value is not empty. A tag
    sequence none of whose entries matches, the empty sequence and an
    absent one ([None]) all resolve to [untagged], and so does a tag whose
    key is the unlisted variant [PROJECT]. *)
Theorem C3_unmatched_is_untagged :
  forall entries : list pyval,
    forallb (fun e => negb (matches_owner e)) entries = true ->
    extract_app_name (PList entries) = Ok "untagged"
    /\ extract_app_name PNone = Ok "untagged"
    /\ extract_app_name (PList []) = Ok "untagged"
    /\ app_tag_keys = ["Application"; "App"; "application"; "app"; "Project"; "project"]
    /\ (forall k v,
          matches_owner (tag_dict (k, v)) = true
          <-> In k ["Application"; "App"; "application"; "app"; "Project"; "project"]
              /\ v <> "")
    /\ (forall v, extract_app_name (PList [tag_dict ("PROJECT", v)]) = Ok "untagged").
Proof.
  intros entries H.
  split; [|split; [reflexivity|split; [reflexivity|split; [reflexivity|split]]]].
  - destruct entries as [|e entries]; [reflexivity|].
    exact (scan_tags_no_match (e :: entries) H).
  - intros k v.
    change (matches_owner (tag_dict (k, v)))
      with (existsb (String.eqb k) app_tag_keys && negb (String.eqb v "")).
    rewrite andb_true_iff, negb_true_iff, existsb_exists, String.eqb_neq.
    split.
    + intros [[x [Hin Hx]] Hv]. apply String.eqb_eq in Hx. subst x. now split.
    + intros [Hin Hv]. split; [|exact Hv].
      exists k. split; [exact Hin | apply String.eqb_refl].
  - intros v. reflexivity.
Qed.

Lemma C3_unmatched_witness :
  extract_app_name (PList [tag_dict ("PROJECT", "Order Service"); PStr "app";
                           tag_dict ("app", ""); tag_dict ("Name", "web-1")])
  = Ok "untagged".
Proof.
  exact (proj1 (C3_unmatched_is_untagged
                  [tag_dict ("PROJECT", "Order Service"); PStr "app";
                   tag_dict ("app", ""); tag_dict ("Name", "web-1")] eq_refl)).
Defined.

(** C1 (the code at the failing input). The HTTP API collector resolves the
    owner from the flat tag map as it comes, so every HTTP API is filed
    under [untagged]: the API tagged [project=Order Service] gets the owner
    key [untagged], although its record lists the tag as a pair, and
    although the REST API collector resolves the same tags to
    [order-service]. *)
Theorem C1_http_api_owner_is_untagged :
  (forall rgn api, exists info, http_api_process rgn api = Ok ("untagged", info))
  /\ (exists info,
        http_api_process "us-east-1" order_http_api = Ok ("untagged", info)
        /\ dict_lookup info "tags" = Some (PList (tag_pairs order_tags)))
  /\ (exists info,
        rest_api_process order_account "us-east-1" order_rest_api
        = Ok ("order-service", info)).
Proof.
  split; [|split].
  - intros rgn api. unfold http_api_process, flat_tags.
    rewrite extract_app_name_flat. cbn [bind]. eexists; reflexivity.
  - eexists; split; reflexivity.
  - eexists; reflexivity.
Qed.

(** ** The inventory as a sequence of appended records *)

Lemma owner_bucket_inv_append (inv : Inventory) (k k' : string) (r : pydict) :
  owner_bucket (inv_append inv k r) k'
  = if String.eqb k k' then owner_bucket inv k' ++ [r] else owner_bucket inv k'.
Proof.
  unfold owner_bucket.
  induction inv as [|[k0 rs] inv IH]; cbn [inv_append lookup].
  - destruct (String.eqb k k'); reflexivity.
  - destruct (String.eqb k0 k) eqn:Hk0; cbn [lookup].
    + apply String.eqb_eq in Hk0. subst k0.
      destruct (String.eqb k k'); reflexivity.
    + destruct (String.eqb k0 k') eqn:Hk0'.
      * apply String.eqb_eq in Hk0'. subst k0.
        rewrite String.eqb_sym in Hk0. now rewrite Hk0.
      * exact IH.
Qed.

Lemma extend_app (inv : Inventory) (rs1 rs2 : list (string * pydict)) :
  extend inv (rs1 ++ rs2) = extend (extend inv rs1) rs2.
Proof. unfold extend. apply fold_left_app. Qed.

Lemma owner_bucket_extend (rs : list (string * pydict)) :
  forall (inv : Inventory) (k : string),
    owner_bucket (extend inv rs) k
    = owner_bucket inv k ++ map snd (filter (fun kr => String.eqb (fst kr) k) rs).
Proof.
  induction rs as [|[k0 r] rs IH]; intros inv k; cbn [extend fold_left filter fst snd].
  - now rewrite app_nil_r.
  - change (fold_left _ rs ?i) with (extend i rs).
    rewrite IH, owner_bucket_inv_append.
    destruct (String.eqb k0 k); cbn [map snd]; [|reflexivity].
    now rewrite <- app_assoc.
Qed.

Lemma all_records_inv_append (inv : Inventory) (k : string) (r r' : pydict) :
  In r' (all_records (inv_append inv k r)) <-> In r' (all_records inv) \/ r' = r.
Proof.
  unfold all_records.
  induction inv as [|[k0 rs] inv IH]; cbn [inv_append map snd List.concat].
  - cbn [app In]. intuition congruence.
  - destruct (String.eqb k0 k); cbn [map snd List.concat];
      rewrite ?in_app_iff; [cbn [In]|rewrite IH]; intuition congruence.
Qed.

Lemma all_records_extend (rs : list (string * pydict)) :
  forall (inv : Inventory) (r : pydict),
    In r (all_records (extend inv rs)) <-> In r (all_records inv) \/ In r (map snd rs).
Proof.
  induction rs as [|[k0 r0] rs IH]; intros inv r; cbn [extend fold_left map fst snd In].
  - tauto.
  - change (fold_left _ rs ?i) with (extend i rs).
    rewrite IH, all_records_inv_append. intuition congruence.
Qed.

(** ** Loops *)

Lemma for_each_try_spec {A : Type} (process : A -> result (string * pydict))
    (warning : A -> exn -> string) (items : list A) :
  forall st,
    inventory (for_each_try process warning items st)
    = extend (inventory st) (successes process items)
    /\ logged (for_each_try process warning items st)
       = logged st ++ warnings process warning items
    /\ region (for_each_try process warning items st) = region st
    /\ clients (for_each_try process warning items st) = clients st
    /\ created (for_each_try process warning items st) = created st.
Proof.
  unfold for_each_try.
  induction items as [|item items IH]; intros st; cbn [fold_left successes warnings List.flat_map].
  - rewrite app_nil_r. repeat split.
  - fold (successes process items). fold (warnings process warning items).
    destruct (IH (match process item with
                  | Ok (app_name, info) => add_resource app_name info st
                  | Raise e => log WARNING (warning item e) st
                  end)) as (Hi & Hl & Hr & Hc & Hn).
    rewrite Hi, Hl, Hr, Hc, Hn. rewrite extend_app.
    destruct (process item) as [[app_name info]|e]; cbn;
      rewrite <- ?app_assoc; repeat split.
Qed.

Lemma appends_for_each_try {A : Type} (process : string -> A -> result (string * pydict))
    (warning : A -> exn -> string) :
  appends (fun items st => for_each_try (process (region st)) warning items st)
    (fun rgn => successes (process rgn))
    (fun rgn => warnings (process rgn) warning).
Proof. intros items st. apply for_each_try_spec. Qed.

Lemma appends_fold {A : Type} (body : A -> state -> state)
    (f : string -> A -> list (string * pydict))
    (g : string -> A -> list (level * string)) :
  appends body f g ->
  appends (fun l st => fold_left (fun st a => body a st) l st)
    (fun rgn l => List.flat_map (f rgn) l)
    (fun rgn l => List.flat_map (g rgn) l).
Proof.
  intros Hbody l.
  induction l as [|a l IH]; intros st; cbn [fold_left List.flat_map].
  - rewrite app_nil_r. repeat split.
  - destruct (IH (body a st)) as (Hi & Hl & Hr & Hc & Hn).
    destruct (Hbody a st) as (Hi0 & Hl0 & Hr0 & Hc0 & Hn0).
    rewrite Hi, Hl, Hr, Hc, Hn, Hi0, Hl0, Hr0, Hc0, Hn0.
    rewrite extend_app, app_assoc. repeat split.
Qed.

(** ** [get_client] *)

Lemma lookup_app_fresh {A : Type} (m : list (string * A)) (k k' : string) (v : A) :
  lookup k' (m ++ [(k, v)])
  = match lookup k' m with
    | Some x => Some x
    | None => if String.eqb k k' then Some v else None
    end.
Proof.
  induction m as [|[k0 v0] m IH]; cbn [app lookup]; [reflexivity|].
  destruct (String.eqb k0 k'); [reflexivity | exact IH].
Qed.

Lemma session_kept_refl (E : aws_env) (st : state) : session_kept E st st.
Proof. repeat split; auto. Qed.

Lemma session_kept_trans (E : aws_env) (st1 st2 st3 : state) :
  session_kept E st1 st2 -> session_kept E st2 st3 -> session_kept E st1 st3.
Proof.
  intros (Hr & Ha & Hc) (Hr' & Ha' & Hc'). repeat split.
  - congruence.
  - intros s. now rewrite Ha'.
  - auto.
Qed.

Lemma session_kept_same (E : aws_env) (st st' : state) :
  region st' = region st -> clients st' = clients st -> session_kept E st st'.
Proof.
  intros Hr Hc. unfold session_kept, available. rewrite Hr, Hc. repeat split; auto.
Qed.

Lemma get_client_spec (E : aws_env) (service : string) (st : state) :
  is_ok (fst (get_client E service st)) = available E st service
  /\ inventory (snd (get_client E service st)) = inventory st
  /\ logged (snd (get_client E service st)) = logged st
  /\ session_kept E st (snd (get_client E service st)).
Proof.
  unfold get_client, available.
  destruct (lookup service (clients st)) as [c|] eqn:Hc; cbn [fst snd is_ok].
  - repeat split; auto.
  - destruct (client_error E service) as [e|] eqn:He; cbn [fst snd is_ok].
    + repeat split; auto.
    + repeat split; cbn [region clients inventory logged].
      * intros s. unfold available. cbn [clients]. rewrite lookup_app_fresh.
        destruct (lookup s (clients st)); [reflexivity|].
        destruct (String.eqb service s) eqn:Hs; [|reflexivity].
        apply String.eqb_eq in Hs. subst s. now rewrite He.
      * intros s c H. rewrite lookup_app_fresh. now rewrite H.
Qed.

Lemma get_client_cached (E : aws_env) (service : string) (st st1 : state) (c : client) :
  get_client E service st = (Ok c, st1) -> lookup service (clients st1) = Some c.
Proof.
  unfold get_client.
  destruct (lookup service (clients st)) as [c0|] eqn:Hc.
  - intros H. inversion H. subst. exact Hc.
  - destruct (client_error E service); intros H; inversion H.
    cbn [clients]. rewrite lookup_app_fresh, Hc, String.eqb_refl. reflexivity.
Qed.

Lemma get_client_hit (E : aws_env) (service : string) (st : state) (c : client) :
  lookup service (clients st) = Some c -> get_client E service st = (Ok c, st).
Proof. intros H. unfold get_client. now rewrite H. Qed.

Lemma get_clients_kept (E : aws_env) (services : list string) :
  forall st, session_kept E st (get_clients E services st).
Proof.
  unfold get_clients.
  induction services as [|s services IH]; intros st; cbn [fold_left].
  - apply session_kept_refl.
  - eapply session_kept_trans; [|apply IH]. apply get_client_spec.
Qed.

(** ** Blocks *)

Lemma spec_use_client (E : aws_env) (service : string) :
  block_spec E (use_client E service) (fun _ _ => []) (fun _ avail => avail service).
Proof.
  intros st avail Hav. unfold use_client. rewrite Hav.
  destruct (get_client_spec E service st) as (Hok & Hi & Hl & Hk).
  destruct (get_client E service st) as [[c|e] st1]; cbn [fst snd is_ok no_exn] in *;
    (split; [exact Hi | split; [exact Hok | split; [exact Hk |]]]);
    rewrite Hl; apply incl_refl.
Qed.

Lemma spec_for_pages (E : aws_env) {A : Type} (p : paginated A)
    (body : A -> state -> state) (f : string -> A -> list (string * pydict))
    (g : string -> A -> list (level * string)) :
  appends body f g ->
  block_spec E (for_pages p body)
    (fun rgn _ => List.flat_map (f rgn) (pages p))
    (fun _ _ => no_exn (failure p)).
Proof.
  intros Hbody st avail _. unfold for_pages. cbn [fst snd].
  destruct (appends_fold Hbody (pages p) st) as (Hi & Hl & Hr & Hc & Hn).
  split; [exact Hi | split; [reflexivity | split]].
  - now apply session_kept_same.
  - rewrite Hl. apply incl_appl, incl_refl.
Qed.

Lemma spec_and_then (E : aws_env) (b1 b2 : block)
    (r1 r2 : string -> (string -> bool) -> list (string * pydict))
    (o1 o2 : string -> (string -> bool) -> bool) :
  block_spec E b1 r1 o1 -> block_spec E b2 r2 o2 ->
  block_spec E (b1 ;; b2)
    (fun rgn avail => r1 rgn avail ++ (if o1 rgn avail then r2 rgn avail else []))
    (fun rgn avail => o1 rgn avail && o2 rgn avail).
Proof.
  intros H1 H2 st avail Hav. unfold and_then.
  destruct (H1 st avail Hav) as (Hi1 & Ho1 & Hk1 & Hl1).
  destruct (b1 st) as [st1 [e|]]; cbn [fst snd no_exn] in *; rewrite <- Ho1.
  - rewrite app_nil_r. cbn [andb]. repeat split; auto; apply Hk1.
  - assert (Hav1 : forall s, avail s = available E st1 s).
    { intros s. rewrite Hav. symmetry. apply Hk1. }
    destruct (H2 st1 avail Hav1) as (Hi2 & Ho2 & Hk2 & Hl2).
    assert (Hr : region st1 = region st) by apply Hk1.
    rewrite Hr in Hi2, Ho2. cbn [andb].
    split; [|split; [exact Ho2 | split]].
    + rewrite Hi2, Hi1. symmetry. apply extend_app.
    + eapply session_kept_trans; eassumption.
    + eapply incl_tran; eassumption.
Qed.

Lemma spec_s3_list_and_collect (E : aws_env) :
  block_spec E (s3_list_and_collect E)
    (fun _ _ => match list_buckets E with
                | Ok buckets => successes (s3_process E) buckets
                | Raise _ => []
                end)
    (fun _ _ => is_ok (list_buckets E)).
Proof.
  intros st avail _. unfold s3_list_and_collect.
  destruct (list_buckets E) as [buckets|e]; cbn [fst snd no_exn is_ok].
  - destruct (for_each_try_spec (s3_process E) (s3_warning) buckets st)
      as (Hi & Hl & Hr & Hc & Hn).
    split; [exact Hi | split; [reflexivity | split]].
    + now apply session_kept_same.
    + rewrite Hl. apply incl_appl, incl_refl.
  - repeat split; auto. apply incl_refl.
Qed.

Lemma try_except_spec (E : aws_env) (b : block)
    (recs : string -> (string -> bool) -> list (string * pydict))
    (ok : string -> (string -> bool) -> bool) (what msg : string) :
  block_spec E b recs ok ->
  forall st avail,
    (forall s, avail s = available E st s) ->
    inventory (try_except b what (log INFO msg st))
    = extend (inventory st) (recs (region st) avail)
    /\ session_kept E st (try_except b what (log INFO msg st))
    /\ incl (logged st) (logged (try_except b what (log INFO msg st))).
Proof.
  intros Hb st avail Hav. unfold try_except.
  destruct (Hb (log INFO msg st) avail Hav) as (Hi & _ & Hk & Hl).
  assert (Hl0 : incl (logged st) (logged (fst (b (log INFO msg st))))).
  { eapply incl_tran; [|exact Hl]. cbn [log logged]. apply incl_appl, incl_refl. }
  destruct (b (log INFO msg st)) as [st1 [e|]]; cbn [fst snd] in *.
  - split; [exact Hi | split; [exact Hk |]].
    cbn [log logged]. apply incl_appl. exact Hl0.
  - split; [exact Hi | split; [exact Hk | exact Hl0]].
Qed.

(** ** The collectors, one by one *)

Lemma collector_spec (E : aws_env) (c : collector) :
  forall st avail,
    (forall s, avail s = available E st s) ->
    inventory (run_collector E c st)
    = extend (inventory st) (collector_records E c (region st) avail)
    /\ session_kept E st (run_collector E c st)
    /\ incl (logged st) (logged (run_collector E c st)).
Proof.
  intros st avail Hav.
  destruct c; cbn [run_collector collector_records].
  - exact (@try_except_spec E _ _ _ "Error inventorying Lambda functions"
             "Inventorying Lambda functions..."
             (spec_and_then (spec_use_client E "lambda")
                (spec_for_pages E (list_functions E)
                   (appends_for_each_try (fun _ => lambda_process E) lambda_warning)))
             st avail Hav).
  - exact (@try_except_spec E _ _ _ "Error inventorying RDS resources"
             "Inventorying RDS instances..."
             (spec_and_then (spec_use_client E "rds")
                (spec_and_then
                   (spec_for_pages E (describe_db_instances E)
                      (appends_for_each_try (fun _ => rds_instance_process E)
                         rds_instance_warning))
                   (spec_for_pages E (describe_db_clusters E)
                      (appends_for_each_try (fun _ => rds_cluster_process E)
                         rds_cluster_warning))))
             st avail Hav).
  - exact (@try_except_spec E _ _ _ "Error inventorying DynamoDB tables"
             "Inventorying DynamoDB tables..."
             (spec_and_then (spec_use_client E "dynamodb")
                (spec_for_pages E (list_tables E)
                   (appends_for_each_try (fun _ => dynamodb_process E) dynamodb_warning)))
             st avail Hav).
  - exact (@try_except_spec E _ _ _ "Error inventorying S3 buckets"
             "Inventorying S3 buckets..."
             (spec_and_then (spec_use_client E "s3") (spec_s3_list_and_collect E))
             st avail Hav).
  - exact (@try_except_spec E _ _ _ "Error inventorying EC2 instances"
             "Inventorying EC2 instances..."
             (spec_and_then (spec_use_client E "ec2")
                (spec_for_pages E (describe_instances E)
                   (appends_fold (appends_for_each_try ec2_process ec2_warning))))
             st avail Hav).
  - pose proof (@try_except_spec E _ _ _ "Error inventorying API Gateway APIs"
                  "Inventorying API Gateway APIs..."
                  (spec_and_then (spec_use_client E "apigateway")
                     (spec_and_then
                        (spec_for_pages E (get_rest_apis E)
                           (appends_for_each_try (rest_api_process E) rest_api_warning))
                        (spec_and_then (spec_use_client E "apigatewayv2")
                           (spec_for_pages E (get_apis E)
                              (appends_for_each_try http_api_process http_api_warning)))))
                  st avail Hav) as H.
    cbn beta in H.
    destruct (avail "apigateway"), (no_exn (failure (get_rest_apis E))),
      (avail "apigatewayv2"); cbn [andb app] in *; exact H.
Qed.

(** ** [run_inventory] *)

Lemma run_collectors_spec (E : aws_env) (cs : list collector) :
  forall st avail,
    (forall s, avail s = available E st s) ->
    inventory (fold_left (fun st c => run_collector E c st) cs st)
    = extend (inventory st)
        (List.flat_map (fun c => collector_records E c (region st) avail) cs)
    /\ session_kept E st (fold_left (fun st c => run_collector E c st) cs st)
    /\ incl (logged st) (logged (fold_left (fun st c => run_collector E c st) cs st)).
Proof.
  induction cs as [|c cs IH]; intros st avail Hav; cbn [fold_left List.flat_map].
  - split; [reflexivity | split; [apply session_kept_refl | apply incl_refl]].
  - destruct (collector_spec E c st avail Hav) as (Hi & Hk & Hl).
    assert (Hav1 : forall s, avail s = available E (run_collector E c st) s).
    { intros s. rewrite Hav. symmetry. apply Hk. }
    destruct (IH (run_collector E c st) avail Hav1) as (Hi' & Hk' & Hl').
    assert (Hr : region (run_collector E c st) = region st) by apply Hk.
    rewrite Hr in Hi'.
    split; [|split].
    + rewrite Hi', Hi. symmetry. apply extend_app.
    + eapply session_kept_trans; eassumption.
    + eapply incl_tran; eassumption.
Qed.

Lemma run_inventory_unfold (E : aws_env) (st : state) :
  run_inventory E st
  = log INFO "Inventory complete!"
      (fold_left (fun st c => run_collector E c st) collectors
         (log INFO ("Starting AWS resource inventory for region: " ++ region st) st)).
Proof.
  unfold run_inventory, collectors. cbv zeta.
  cbn [fold_left run_collector]. reflexivity.
Qed.

Lemma run_inventory_spec (E : aws_env) (st : state) (avail : string -> bool) :
  (forall s, avail s = available E st s) ->
  inventory (run_inventory E st) = extend (inventory st) (run_records E (region st) avail)
  /\ session_kept E st (run_inventory E st)
  /\ incl (logged st) (logged (run_inventory E st)).
Proof.
  intros Hav. rewrite run_inventory_unfold.
  remember (log INFO ("Starting AWS resource inventory for region: " ++ region st) st)
    as st0 eqn:Hst0.
  assert (Hi0 : inventory st0 = inventory st) by (subst st0; reflexivity).
  assert (Hr0 : region st0 = region st) by (subst st0; reflexivity).
  assert (Hc0 : clients st0 = clients st) by (subst st0; reflexivity).
  assert (Hl0 : incl (logged st) (logged st0)).
  { subst st0. cbn [log logged]. apply incl_appl, incl_refl. }
  assert (Hav0 : forall s, avail s = available E st0 s).
  { intros s. rewrite Hav. unfold available. now rewrite Hc0. }
  destruct (run_collectors_spec E collectors st0 avail Hav0) as (Hi & Hk & Hl).
  remember (fold_left (fun st c => run_collector E c st) collectors st0) as st1 eqn:Hst1.
  clear Hst0 Hst1.
  unfold run_records. rewrite Hi0, Hr0 in Hi.
  split; [exact Hi | split].
  - eapply session_kept_trans; [apply session_kept_same; eassumption|].
    eapply session_kept_trans; [exact Hk|].
    apply session_kept_same; reflexivity.
  - cbn [log logged]. apply incl_appl.
    eapply incl_tran; [exact Hl0 | exact Hl].
Qed.

(** ** What the collectors write *)

Lemma in_successes {A : Type} (process : A -> result (string * pydict))
    (items : list A) (x : string * pydict) :
  In x (successes process items) <-> exists item, In item items /\ process item = Ok x.
Proof.
  unfold successes. rewrite in_flat_map. split.
  - intros [item [Hin Hx]]. exists item. split; [exact Hin|].
    destruct (process item) as [y|e]; cbn [In] in Hx; [|contradiction].
    destruct Hx as [Hx|[]]. now subst.
  - intros [item [Hin Hx]]. exists item. split; [exact Hin|].
    rewrite Hx. now left.
Qed.

Lemma in_page_successes {A : Type} (process : A -> result (string * pydict))
    (ps : list (list A)) (x : string * pydict) :
  In x (List.flat_map (successes process) ps)
  <-> exists page item, In page ps /\ In item page /\ process item = Ok x.
Proof.
  rewrite in_flat_map. split.
  - intros [page [Hp Hx]]. apply in_successes in Hx as [item [Hi Hx]]. eauto.
  - intros [page [item [Hp [Hi Hx]]]]. exists page. split; [exact Hp|].
    apply in_successes. eauto.
Qed.

Ltac bind_ok H :=
  repeat match type of H with
         | bind ?r _ = Ok _ =>
             let E := fresh "E" in
             destruct r eqn:E; cbn [bind] in H; [|discriminate H]
         end;
  injection H as <- <-.

Lemma lambda_process_ok (E : aws_env) (func : lambda_function) (k : string) (r : pydict) :
  lambda_process E func = Ok (k, r) ->
  headed "Lambda" "Function" (lf_FunctionName func) (lf_FunctionArn func) k r
  /\ exists tags, list_tags E (lf_FunctionArn func) = Ok tags
                  /\ k = owner_of (tags_or_empty tags).
Proof.
  unfold lambda_process. intros H.
  destruct (list_tags E (lf_FunctionArn func)) as [tags|e] eqn:Ht; [|discriminate H].
  cbn [bind] in H. rewrite extract_app_name_tag_pairs in H. cbn [bind] in H.
  injection H as <- <-. split; [eexists; reflexivity | eauto].
Qed.

Lemma rds_instance_process_ok (E : aws_env) (db : db_instance) (k : string) (r : pydict) :
  rds_instance_process E db = Ok (k, r) ->
  headed "RDS" "DB Instance" (dbi_DBInstanceIdentifier db) (dbi_DBInstanceArn db) k r.
Proof.
  unfold rds_instance_process. intros H. bind_ok H. eexists; reflexivity.
Qed.

Lemma rds_cluster_process_ok (E : aws_env) (cluster : db_cluster) (k : string) (r : pydict) :
  rds_cluster_process E cluster = Ok (k, r) ->
  headed "RDS" "DB Cluster" (dbc_DBClusterIdentifier cluster) (dbc_DBClusterArn cluster) k r.
Proof.
  unfold rds_cluster_process. intros H. bind_ok H. eexists; reflexivity.
Qed.

Lemma dynamodb_process_ok (E : aws_env) (table_name k : string) (r : pydict) :
  dynamodb_process E table_name = Ok (k, r) ->
  exists table, describe_table E table_name = Ok table
                /\ headed "DynamoDB" "Table" table_name (tbl_TableArn table) k r.
Proof.
  unfold dynamodb_process. intros H.
  destruct (describe_table E table_name) as [table|e]; [|discriminate H].
  cbn [bind] in H. bind_ok H. exists table. split; [reflexivity|]. eexists; reflexivity.
Qed.

Lemma s3_process_ok (E : aws_env) (b : bucket) (k : string) (r : pydict) :
  s3_process E b = Ok (k, r) ->
  headed "S3" "Bucket" (bkt_Name b) ("arn:aws:s3:::" ++ bkt_Name b) k r
  /\ exists tags, s3_bucket_tags E (bkt_Name b) = Ok tags /\ k = owner_of tags
                  /\ dict_lookup r "tags" = Some (PList (tag_pairs tags)).
Proof.
  unfold s3_process. intros H.
  destruct (s3_bucket_tags E (bkt_Name b)) as [tags|e] eqn:Ht; [|discriminate H].
  cbn [bind] in H. rewrite extract_app_name_tag_pairs in H. cbn [bind] in H.
  injection H as <- <-. split; [eexists; reflexivity|].
  exists tags. repeat split; reflexivity.
Qed.

Lemma ec2_process_ok (rgn : string) (instance : ec2_instance) (k : string) (r : pydict) :
  ec2_process rgn instance = Ok (k, r) ->
  headed "EC2" "Instance" (ec2_InstanceId instance)
    ("arn:aws:ec2:" ++ rgn ++ ":"
       ++ match ec2_OwnerId instance with Some o => o | None => "unknown" end
       ++ ":instance/" ++ ec2_InstanceId instance) k r.
Proof.
  unfold ec2_process. intros H. bind_ok H. eexists; reflexivity.
Qed.

Lemma rest_api_process_ok (E : aws_env) (rgn : string) (api : rest_api)
    (k : string) (r : pydict) :
  rest_api_process E rgn api = Ok (k, r) ->
  headed "API Gateway" "REST API" (rest_name api)
    ("arn:aws:apigateway:" ++ rgn ++ "::/restapis/" ++ rest_id api) k r.
Proof.
  unfold rest_api_process. intros H. bind_ok H. eexists; reflexivity.
Qed.

Lemma http_api_process_ok (rgn : string) (api : http_api) (k : string) (r : pydict) :
  http_api_process rgn api = Ok (k, r) ->
  headed "API Gateway v2" "HTTP API" (http_Name api)
    ("arn:aws:apigateway:" ++ rgn ++ "::/apis/" ++ http_ApiId api) k r.
Proof.
  unfold http_api_process. intros H. bind_ok H. eexists; reflexivity.
Qed.

(** Where a record of a collector comes from. *)
Lemma collector_records_origin (E : aws_env) (c : collector) (rgn : string)
    (avail : string -> bool) (k : string) (r : pydict) :
  In (k, r) (collector_records E c rgn avail) ->
  match c with
  | Lambda =>
      exists page func, In page (pages (list_functions E)) /\ In func page
                        /\ lambda_process E func = Ok (k, r)
  | RDS =>
      (exists page db, In page (pages (describe_db_instances E)) /\ In db page
                       /\ rds_instance_process E db = Ok (k, r))
      \/ (exists page cluster, In page (pages (describe_db_clusters E)) /\ In cluster page
                               /\ rds_cluster_process E cluster = Ok (k, r))
  | DynamoDB =>
      exists page table_name, In page (pages (list_tables E)) /\ In table_name page
                              /\ dynamodb_process E table_name = Ok (k, r)
  | S3 =>
      exists buckets b, list_buckets E = Ok buckets /\ In b buckets
                        /\ s3_process E b = Ok (k, r)
  | EC2 =>
      exists page reservation instance,
        In page (pages (describe_instances E)) /\ In reservation page
        /\ In instance reservation /\ ec2_process rgn instance = Ok (k, r)
  | APIGateway =>
      (exists page api, In page (pages (get_rest_apis E)) /\ In api page
                        /\ rest_api_process E rgn api = Ok (k, r))
      \/ (exists page api, In page (pages (get_apis E)) /\ In api page
                           /\ http_api_process rgn api = Ok (k, r))
  end.
Proof.
  destruct c; cbn [collector_records]; intros H.
  - destruct (avail "lambda"); [|contradiction]. now apply in_page_successes.
  - destruct (avail "rds"); [|contradiction].
    apply in_app_or in H as [H|H]; [left; now apply in_page_successes|].
    destruct (no_exn _); [|contradiction]. right. now apply in_page_successes.
  - destruct (avail "dynamodb"); [|contradiction]. now apply in_page_successes.
  - destruct (avail "s3"); [|contradiction].
    destruct (list_buckets E) as [buckets|e]; [|contradiction].
    apply in_successes in H as [b [Hb H]]. eauto.
  - destruct (avail "ec2"); [|contradiction].
    apply in_flat_map in H as [page [Hp H]].
    apply in_page_successes in H as [reservation [instance [Hr [Hi H]]]].
    exists page, reservation, instance. auto.
  - destruct (avail "apigateway"); [|contradiction].
    apply in_app_or in H as [H|H]; [left; now apply in_page_successes|].
    destruct (_ && _); [|contradiction]. right. now apply in_page_successes.
Qed.

Lemma collector_records_headed (E : aws_env) (c : collector) (rgn : string)
    (avail : string -> bool) (k : string) (r : pydict) :
  In (k, r) (collector_records E c rgn avail) ->
  exists service resource_type name arn,
    In service (services_of c) /\ headed service resource_type name arn k r.
Proof.
  intros H. apply collector_records_origin in H.
  destruct c; cbn [services_of In].
  - destruct H as (page & func & _ & _ & H). apply lambda_process_ok in H as [H _]. eauto 8.
  - destruct H as [(page & db & _ & _ & H)|(page & cluster & _ & _ & H)].
    + apply rds_instance_process_ok in H. eauto 8.
    + apply rds_cluster_process_ok in H. eauto 8.
  - destruct H as (page & table_name & _ & _ & H).
    apply dynamodb_process_ok in H as (table & _ & H). eauto 8.
  - destruct H as (buckets & b & _ & _ & H). apply s3_process_ok in H as [H _]. eauto 8.
  - destruct H as (page & reservation & instance & _ & _ & _ & H).
    apply ec2_process_ok in H. eauto 8.
  - destruct H as [(page & api & _ & _ & H)|(page & api & _ & _ & H)].
    + apply rest_api_process_ok in H. eauto 8.
    + apply http_api_process_ok in H. eauto 10.
Qed.

Lemma has_service_headed (services : list string)
    (service resource_type name arn k : string) (r : pydict) :
  headed service resource_type name arn k r ->
  has_service services r = existsb (String.eqb service) services.
Proof. intros [rest ->]. reflexivity. Qed.

Lemma text_fields_headed (service resource_type name arn k : string) (r : pydict) :
  headed service resource_type name arn k r ->
  text_field r "service" = Some service
  /\ text_field r "resource_type" = Some resource_type
  /\ text_field r "name" = Some name
  /\ text_field r "arn" = Some arn
  /\ text_field r "app_name" = Some k.
Proof. intros [rest ->]. repeat split. Qed.

Lemma existsb_eqb_in (s : string) (l : list string) :
  In s l -> existsb (String.eqb s) l = true.
Proof.
  intros H. apply existsb_exists. exists s. split; [exact H | apply String.eqb_refl].
Qed.

(** A record of collector [c] carries a service value of [c], and of no
    other collector. *)
Lemma collector_records_service (E : aws_env) (c c' : collector) (rgn : string)
    (avail : string -> bool) (k : string) (r : pydict) :
  In (k, r) (collector_records E c rgn avail) ->
  has_service (services_of c') r = true <-> c' = c.
Proof.
  intros H.
  apply collector_records_headed in H as (service & t & n & a & Hs & Hh).
  rewrite (has_service_headed _ Hh).
  destruct c; cbn [services_of In] in Hs;
    repeat match goal with H : _ \/ _ |- _ => destruct H as [H|H] end;
    try contradiction; subst service;
    destruct c'; cbn; split; intros H; try reflexivity; discriminate H.
Qed.

Lemma run_records_filed (E : aws_env) (rgn : string) (avail : string -> bool) :
  Forall (fun kr => filed_under (fst kr) (snd kr)) (run_records E rgn avail).
Proof.
  apply Forall_forall. intros [k r] H. unfold run_records in H.
  apply in_flat_map in H as [c [_ H]].
  apply collector_records_headed in H as (service & t & n & a & _ & Hh).
  exists service, t, n, a. exact Hh.
Qed.

(** ** Inventories made of collector records *)

Lemma inv_append_filed (inv : Inventory) (k : string) (r : pydict) :
  inventory_filed inv -> filed_under k r -> inventory_filed (inv_append inv k r).
Proof.
  unfold inventory_filed. intros Hinv Hr.
  induction inv as [|[k0 rs] inv IH]; cbn [inv_append].
  - repeat constructor. exact Hr.
  - inversion Hinv as [|x l Hx Hl]; subst. cbn [fst snd] in Hx.
    destruct (String.eqb k0 k) eqn:Hk.
    + apply String.eqb_eq in Hk. subst k0.
      constructor; [|exact Hl]. cbn [fst snd].
      apply Forall_app. split; [exact Hx | now constructor].
    + constructor; [exact Hx | now apply IH].
Qed.

Lemma extend_filed (rs : list (string * pydict)) :
  forall inv,
    inventory_filed inv ->
    Forall (fun kr => filed_under (fst kr) (snd kr)) rs ->
    inventory_filed (extend inv rs).
Proof.
  induction rs as [|[k r] rs IH]; intros inv Hinv Hrs; cbn [extend fold_left]; [exact Hinv|].
  inversion Hrs; subst.
  apply IH; [|assumption]. now apply inv_append_filed.
Qed.

Lemma run_inventory_filed (E : aws_env) (rgn : string) :
  inventory_filed (inventory (run_inventory E (new_inventory rgn))).
Proof.
  destruct (run_inventory_spec E (new_inventory rgn)
              (available E (new_inventory rgn)) (fun s => eq_refl)) as [Hi _].
  rewrite Hi. apply extend_filed; [constructor | apply run_records_filed].
Qed.

Lemma in_all_records (inv : Inventory) (r : pydict) :
  In r (all_records inv) <-> exists k rs, In (k, rs) inv /\ In r rs.
Proof.
  unfold all_records. rewrite in_concat. split.
  - intros [rs [Hrs Hr]]. apply in_map_iff in Hrs as [[k rs'] [Heq Hin]].
    cbn [snd] in Heq. subst rs'. eauto.
  - intros [k [rs [Hin Hr]]]. exists rs. split; [|exact Hr].
    apply in_map_iff. exists (k, rs). auto.
Qed.

Lemma filed_record (inv : Inventory) (r : pydict) :
  inventory_filed inv -> In r (all_records inv) -> exists k, filed_under k r.
Proof.
  intros Hinv Hr. apply in_all_records in Hr as (k & rs & Hin & Hr).
  unfold inventory_filed in Hinv. rewrite Forall_forall in Hinv.
  specialize (Hinv _ Hin). cbn [fst snd] in Hinv. rewrite Forall_forall in Hinv.
  exists k. now apply Hinv.
Qed.

(** ** The CSV rows *)

Lemma result_map_ok {A B : Type} (f : A -> result B) (g : A -> B) (l : list A) :
  (forall a, In a l -> f a = Ok (g a)) -> result_map f l = Ok (map g l).
Proof.
  induction l as [|a l IH]; intros H; cbn [result_map map]; [reflexivity|].
  rewrite (H a (or_introl eq_refl)). cbn [bind].
  rewrite IH by (intros; apply H; now right). reflexivity.
Qed.

Lemma csv_row_filed (json_dumps : pydict -> string) (k : string) (r : pydict) :
  filed_under k r -> csv_row json_dumps k r = Ok (record_row json_dumps r).
Proof. intros (service & t & n & a & rest & ->). reflexivity. Qed.

Lemma csv_rows_filed (json_dumps : pydict -> string) (inv : Inventory) :
  inventory_filed inv ->
  csv_rows json_dumps inv
  = Ok (csv_header :: map (record_row json_dumps) (all_records inv)).
Proof.
  intros Hinv. unfold csv_rows, inventory_filed in *.
  rewrite Forall_forall in Hinv.
  rewrite (result_map_ok _ (fun kv => map (record_row json_dumps) (snd kv))).
  - cbn [bind]. unfold all_records.
    rewrite concat_map, map_map. reflexivity.
  - intros [k rs] Hin. cbn [fst snd]. apply result_map_ok.
    intros r Hr. apply csv_row_filed.
    specialize (Hinv _ Hin). cbn [fst snd] in Hinv. rewrite Forall_forall in Hinv.
    now apply Hinv.
Qed.

(** ** A listing that fails at once *)

Lemma collector_eq_dec (c c' : collector) : {c = c'} + {c <> c'}.
Proof. decide equality. Defined.

Lemma filter_none {A : Type} (p : A -> bool) (l : list A) :
  (forall x, In x l -> p x = false) -> filter p l = [].
Proof.
  induction l as [|a l IH]; intros H; cbn [filter]; [reflexivity|].
  rewrite (H a (or_introl eq_refl)). apply IH. intros x Hx. apply H. now right.
Qed.

Lemma filter_all {A : Type} (p : A -> bool) (l : list A) :
  (forall x, In x l -> p x = true) -> filter p l = l.
Proof.
  induction l as [|a l IH]; intros H; cbn [filter]; [reflexivity|].
  rewrite (H a (or_introl eq_refl)). f_equal. apply IH. intros x Hx. apply H. now right.
Qed.

Lemma filter_flat_map {A B : Type} (p : B -> bool) (f : A -> list B) (l : list A) :
  filter p (List.flat_map f l) = List.flat_map (fun a => filter p (f a)) l.
Proof.
  induction l as [|a l IH]; cbn [List.flat_map]; [reflexivity|].
  now rewrite filter_app, IH.
Qed.

Lemma filter_comm {A : Type} (p q : A -> bool) (l : list A) :
  filter p (filter q l) = filter q (filter p l).
Proof.
  induction l as [|a l IH]; cbn [filter]; [reflexivity|].
  destruct (p a) eqn:Hp, (q a) eqn:Hq; cbn [filter]; rewrite ?Hp, ?Hq, IH; reflexivity.
Qed.

Lemma filter_map_snd {A B : Type} (p : B -> bool) (l : list (A * B)) :
  filter p (map snd l) = map snd (filter (fun kr => p (snd kr)) l).
Proof.
  induction l as [|a l IH]; cbn [filter map]; [reflexivity|].
  destruct (p (snd a)); cbn [map]; now rewrite IH.
Qed.

Lemma fail_listing_records (E : aws_env) (c c' : collector) (e : exn) (rgn : string)
    (avail : string -> bool) :
  collector_records (fail_listing c e E) c' rgn avail
  = filter (fun kr => of_other_collector c (snd kr)) (collector_records E c' rgn avail).
Proof.
  destruct (collector_eq_dec c c') as [<-|Hne].
  - rewrite filter_none.
    + destruct c; cbn; destruct (avail _); reflexivity.
    + intros [k r] H. unfold of_other_collector. cbn [snd].
      pose proof (@collector_records_service E c c rgn avail k r H) as Hs.
      now rewrite (proj2 Hs eq_refl).
  - rewrite filter_all.
    + destruct c, c'; try congruence; reflexivity.
    + intros [k r] H. unfold of_other_collector. cbn [snd].
      pose proof (@collector_records_service E c' c rgn avail k r H) as Hs.
      destruct (has_service (services_of c) r); [|reflexivity].
      exfalso. apply Hne. apply Hs. reflexivity.
Qed.

Lemma fail_listing_run_records (E : aws_env) (c : collector) (e : exn) (rgn : string)
    (avail : string -> bool) :
  run_records (fail_listing c e E) rgn avail
  = filter (fun kr => of_other_collector c (snd kr)) (run_records E rgn avail).
Proof.
  unfold run_records. rewrite filter_flat_map.
  apply flat_map_ext. intros c'. apply fail_listing_records.
Qed.

Lemma fail_listing_inventory (E : aws_env) (c : collector) (e : exn) (rgn k : string) :
  owner_bucket (inventory (run_inventory (fail_listing c e E) (new_inventory rgn))) k
  = filter (of_other_collector c)
      (owner_bucket (inventory (run_inventory E (new_inventory rgn))) k).
Proof.
  destruct (run_inventory_spec E (new_inventory rgn)
              (available E (new_inventory rgn)) (fun s => eq_refl)) as [Hi _].
  destruct (run_inventory_spec (fail_listing c e E) (new_inventory rgn)
              (available E (new_inventory rgn)) (fun s => eq_refl)) as [Hi' _].
  rewrite Hi, Hi', !owner_bucket_extend, fail_listing_run_records.
  cbn [new_inventory inventory region owner_bucket lookup app].
  now rewrite filter_map_snd, filter_comm.
Qed.

(** ** ARNs *)

Lemma arn_nonempty_headed (service resource_type name arn k : string) (r : pydict) :
  headed service resource_type name arn k r ->
  arn_nonempty r = negb (String.eqb arn "").
Proof. intros [rest ->]. reflexivity. Qed.

Lemma eqb_empty (s : string) : negb (String.eqb s "") = false -> s = "".
Proof.
  intros H. apply negb_false_iff in H. now apply String.eqb_eq.
Qed.

(** The ARN of a record of a collector: always a string; never empty when
    the collector builds it; the one of the response when it copies it. *)
Lemma collector_records_arn (E : aws_env) (c : collector) (rgn : string)
    (avail : string -> bool) (k : string) (r : pydict) :
  In (k, r) (collector_records E c rgn avail) ->
  (has_service ["S3"; "EC2"; "API Gateway"; "API Gateway v2"] r = true ->
   arn_nonempty r = true)
  /\ (arn_nonempty r = false -> empty_provider_arn E r)
  /\ (exists arn, text_field r "arn" = Some arn).
Proof.
  intros H. apply collector_records_origin in H. destruct c.
  - destruct H as (page & func & Hp & Hf & H). apply lambda_process_ok in H as [H _].
    destruct (text_fields_headed H) as (_ & _ & Hn & Ha & _).
    rewrite (has_service_headed _ H), (arn_nonempty_headed H).
    split; [discriminate|]. split; [|eauto].
    intros Harn. apply eqb_empty in Harn. left. exists page, func.
    rewrite (has_service_headed _ H). auto.
  - destruct H as [(page & db & Hp & Hd & H)|(page & cluster & Hp & Hd & H)].
    + apply rds_instance_process_ok in H.
      destruct (text_fields_headed H) as (_ & _ & Hn & Ha & _).
      rewrite (has_service_headed _ H), (arn_nonempty_headed H).
      split; [discriminate|]. split; [|eauto].
      intros Harn. apply eqb_empty in Harn. right. left. exists page, db.
      rewrite (has_service_headed _ H). auto.
    + apply rds_cluster_process_ok in H.
      destruct (text_fields_headed H) as (_ & _ & Hn & Ha & _).
      rewrite (has_service_headed _ H), (arn_nonempty_headed H).
      split; [discriminate|]. split; [|eauto].
      intros Harn. apply eqb_empty in Harn. right. right. left. exists page, cluster.
      rewrite (has_service_headed _ H). auto.
  - destruct H as (page & table_name & Hp & Ht & H).
    apply dynamodb_process_ok in H as (table & Hd & H).
    destruct (text_fields_headed H) as (_ & _ & Hn & Ha & _).
    rewrite (has_service_headed _ H), (arn_nonempty_headed H).
    split; [discriminate|]. split; [|eauto].
    intros Harn. apply eqb_empty in Harn. right. right. right.
    exists page, table_name, table.
    rewrite (has_service_headed _ H). auto 7.
  - destruct H as (buckets & b & _ & _ & H). apply s3_process_ok in H as [H _].
    destruct (text_fields_headed H) as (_ & _ & _ & Ha & _).
    rewrite (arn_nonempty_headed H).
    split; [reflexivity|]. split; [discriminate | eauto].
  - destruct H as (page & reservation & instance & _ & _ & _ & H).
    apply ec2_process_ok in H.
    destruct (text_fields_headed H) as (_ & _ & _ & Ha & _).
    rewrite (arn_nonempty_headed H).
    split; [reflexivity|]. split; [discriminate | eauto].
  - destruct H as [(page & api & _ & _ & H)|(page & api & _ & _ & H)].
    + apply rest_api_process_ok in H.
      destruct (text_fields_headed H) as (_ & _ & _ & Ha & _).
      rewrite (arn_nonempty_headed H).
      split; [reflexivity|]. split; [discriminate | eauto].
    + apply http_api_process_ok in H.
      destruct (text_fields_headed H) as (_ & _ & _ & Ha & _).
      rewrite (arn_nonempty_headed H).
      split; [reflexivity|]. split; [discriminate | eauto].
Qed.

(** C7 (as amended). Every record of a run has an ['arn'] that is a string.
    For S3 buckets, EC2 instances and API Gateway APIs it is built from
    the region, the owner id and the resource id behind a fixed prefix,
    and is never empty. For Lambda functions, RDS instances and clusters
    and DynamoDB tables it is the ARN of the response, copied as it is: a
    record has an empty ['arn'] only when it is one of these and the
    service handed out an empty ARN. *)
Theorem C7_arn_constructed_or_copied :
  forall (E : aws_env) (rgn : string),
    Forall
      (fun r =>
         (has_service ["S3"; "EC2"; "API Gateway"; "API Gateway v2"] r = true ->
          arn_nonempty r = true)
         /\ (arn_nonempty r = false -> empty_provider_arn E r)
         /\ (exists arn, text_field r "arn" = Some arn))
      (all_records (inventory (run_inventory E (new_inventory rgn))))
    /\ (forall func k r, lambda_process E func = Ok (k, r) ->
                         text_field r "arn" = Some (lf_FunctionArn func))
    /\ (forall db k r, rds_instance_process E db = Ok (k, r) ->
                       text_field r "arn" = Some (dbi_DBInstanceArn db))
    /\ (forall cluster k r, rds_cluster_process E cluster = Ok (k, r) ->
                            text_field r "arn" = Some (dbc_DBClusterArn cluster))
    /\ (forall table_name k r, dynamodb_process E table_name = Ok (k, r) ->
          exists table, describe_table E table_name = Ok table
                        /\ text_field r "arn" = Some (tbl_TableArn table))
    /\ (forall b k r, s3_process E b = Ok (k, r) ->
                      text_field r "arn" = Some ("arn:aws:s3:::" ++ bkt_Name b)%string)
    /\ (forall instance k r, ec2_process rgn instance = Ok (k, r) ->
          text_field r "arn"
          = Some ("arn:aws:ec2:" ++ rgn ++ ":"
                    ++ match ec2_OwnerId instance with Some o => o | None => "unknown" end
                    ++ ":instance/" ++ ec2_InstanceId instance)%string)
    /\ (forall api k r, rest_api_process E rgn api = Ok (k, r) ->
          text_field r "arn"
          = Some ("arn:aws:apigateway:" ++ rgn ++ "::/restapis/" ++ rest_id api)%string)
    /\ (forall api k r, http_api_process rgn api = Ok (k, r) ->
          text_field r "arn"
          = Some ("arn:aws:apigateway:" ++ rgn ++ "::/apis/" ++ http_ApiId api)%string).
Proof.
  intros E rgn.
  split; [|repeat split].
  - apply Forall_forall.
    destruct (run_inventory_spec E (new_inventory rgn)
                (available E (new_inventory rgn)) (fun s => eq_refl)) as [Hi _].
    rewrite Hi. intros r Hr.
    apply all_records_extend in Hr as [Hr|Hr]; [contradiction|].
    apply in_map_iff in Hr as [[k r'] [Heq Hr]]. cbn [snd] in Heq. subst r'.
    unfold run_records in Hr. apply in_flat_map in Hr as [c [_ Hr]].
    exact (@collector_records_arn E c _ _ k r Hr).
  - intros func k r H. apply lambda_process_ok in H as [H _].
    apply (text_fields_headed H).
  - intros db k r H. apply rds_instance_process_ok in H. apply (text_fields_headed H).
  - intros cluster k r H. apply rds_cluster_process_ok in H. apply (text_fields_headed H).
  - intros table_name k r H. apply dynamodb_process_ok in H as (table & Ht & H).
    exists table. split; [exact Ht | apply (text_fields_headed H)].
  - intros b k r H. apply s3_process_ok in H as [H _]. apply (text_fields_headed H).
  - intros instance k r H. apply ec2_process_ok in H. apply (text_fields_headed H).
  - intros api k r H. apply rest_api_process_ok in H. apply (text_fields_headed H).
  - intros api k r H. apply http_api_process_ok in H. apply (text_fields_headed H).
Qed.

(** In the sample account no service hands out an empty ARN, and every
    record of the run has an ARN. *)
Lemma C7_sample_witness :
  forallb arn_nonempty
    (all_records (inventory (run_inventory sample_account (new_inventory "us-east-1"))))
  = true.
Proof.
  apply forallb_forall. intros r Hr.
  destruct (proj1 (Forall_forall _ _)
              (proj1 (C7_arn_constructed_or_copied sample_account "us-east-1")) r Hr)
    as (_ & Hempty & _).
  destruct (arn_nonempty r); [reflexivity|]. exfalso.
  destruct (Hempty eq_refl)
    as [(page & func & Hp & Hf & Harn & _)
       |[(page & db & Hp & Hf & Harn & _)
        |[(page & cluster & Hp & Hf & Harn & _)
         |(page & table_name & table & _ & _ & Hd & Harn & _)]]].
  - destruct Hp as [<-|[<-|[]]]; cbn [In] in Hf;
      repeat (destruct Hf as [<-|Hf]; [discriminate Harn|]); contradiction.
  - destruct Hp as [<-|[]]. destruct Hf as [<-|[]]. discriminate Harn.
  - destruct Hp as [<-|[]]. destruct Hf as [<-|[]]. discriminate Harn.
  - cbn [sample_account describe_table] in Hd.
    destruct (String.eqb table_name "carts"); [|discriminate Hd].
    injection Hd as <-. discriminate Harn.
Defined.

(** C7 as stated fails: an ARN taken from a response is copied without a
    check, so a function listed with an empty ARN is recorded with an empty
    ['arn']. *)
Lemma C7_empty_provider_arn_counterexample :
  (exists r,
      all_records (inventory (run_inventory blank_arn_account (new_inventory "us-east-1")))
      = [r]
      /\ text_field r "name" = Some "blank-fn"
      /\ text_field r "arn" = Some ""
      /\ arn_nonempty r = false)
  /\ ~ (forall (E : aws_env) (rgn : string) (r : pydict),
          In r (all_records (inventory (run_inventory E (new_inventory rgn)))) ->
          arn_nonempty r = true).
Proof.
  split.
  - eexists. split; [vm_compute; reflexivity|]. repeat split.
  - intros H.
    assert (Hex : existsb (fun r => negb (arn_nonempty r))
                    (all_records
                       (inventory (run_inventory blank_arn_account
                                     (new_inventory "us-east-1"))))
                  = true) by (vm_compute; reflexivity).
    apply existsb_exists in Hex as [r [Hin Hr]].
    rewrite (H blank_arn_account "us-east-1" r Hin) in Hr. discriminate Hr.
Qed.

(** ** Resources whose secondary fetch fails *)

Lemma warnings_in {A : Type} (process : A -> result (string * pydict))
    (warning : A -> exn -> string) (items : list A) (item : A) (e : exn) :
  In item items -> process item = Raise e ->
  In (WARNING, warning item e) (warnings process warning items).
Proof.
  intros Hin He. unfold warnings. apply in_flat_map.
  exists item. split; [exact Hin|]. rewrite He. now left.
Qed.

Lemma successes_skip {A : Type} (process : A -> result (string * pydict))
    (pre post : list A) (item : A) (e : exn) :
  process item = Raise e ->
  successes process (pre ++ item :: post) = successes process (pre ++ post).
Proof.
  intros He. unfold successes.
  rewrite !flat_map_app. cbn [List.flat_map]. now rewrite He.
Qed.

Lemma collector_record_in_bucket (E : aws_env) (c : collector) (st : state)
    (k : string) (r : pydict) :
  In (k, r) (collector_records E c (region st) (available E st)) ->
  In r (owner_bucket (inventory (run_collector E c st)) k).
Proof.
  intros H.
  destruct (collector_spec E c st (available E st) (fun s => eq_refl)) as [Hi _].
  rewrite Hi, owner_bucket_extend. apply in_or_app. right.
  apply in_map_iff. exists (k, r). split; [reflexivity|].
  apply filter_In. split; [exact H | apply String.eqb_refl].
Qed.

Lemma collector_keeps_buckets (E : aws_env) (c : collector) (st : state) (k : string) :
  exists added,
    owner_bucket (inventory (run_collector E c st)) k
    = owner_bucket (inventory st) k ++ added.
Proof.
  destruct (collector_spec E c st (available E st) (fun s => eq_refl)) as [Hi _].
  rewrite Hi, owner_bucket_extend. eexists; reflexivity.
Qed.

Lemma collector_new_record (E : aws_env) (c : collector) (st : state) (r : pydict) :
  In r (all_records (inventory (run_collector E c st))) ->
  In r (all_records (inventory st))
  \/ exists k, In (k, r) (collector_records E c (region st) (available E st)).
Proof.
  destruct (collector_spec E c st (available E st) (fun s => eq_refl)) as [Hi _].
  rewrite Hi. intros H. apply all_records_extend in H as [H|H]; [now left|].
  right. apply in_map_iff in H as [[k r'] [Heq H]]. cbn [snd] in Heq. subst r'. eauto.
Qed.

Lemma s3_warnings_logged (E : aws_env) (st : state) (buckets : list bucket) :
  available E st "s3" = true ->
  list_buckets E = Ok buckets ->
  incl (warnings (s3_process E) s3_warning buckets) (logged (inventory_s3_buckets E st)).
Proof.
  intros Hav Hb.
  unfold inventory_s3_buckets, try_except, and_then, use_client, s3_list_and_collect.
  remember (log INFO "Inventorying S3 buckets..." st) as st0 eqn:Hst0.
  assert (Hav0 : available E st0 "s3" = true) by (subst st0; exact Hav).
  destruct (get_client_spec E "s3" st0) as (Hok & _).
  rewrite Hav0 in Hok.
  destruct (get_client E "s3" st0) as [[c|e] st1]; cbn [fst is_ok] in Hok;
    [|discriminate Hok].
  rewrite Hb.
  destruct (for_each_try_spec (s3_process E) s3_warning buckets st1) as (_ & Hl & _).
  rewrite Hl. apply incl_appr, incl_refl.
Qed.

Lemma s3_process_tags (E : aws_env) (b : bucket) (tags : tag_list) :
  s3_bucket_tags E (bkt_Name b) = Ok tags ->
  exists r, s3_process E b = Ok (owner_of tags, r).
Proof.
  intros Ht. unfold s3_process. rewrite Ht. cbn [bind].
  rewrite extract_app_name_tag_pairs. cbn [bind]. eexists; reflexivity.
Qed.

Lemma s3_bucket_tags_raise (E : aws_env) (bucket_name : string) (e : exn) :
  get_bucket_tagging E bucket_name = Raise e ->
  is_no_such_tag_set e = false ->
  s3_bucket_tags E bucket_name = Raise e.
Proof.
  intros Hg He. unfold s3_bucket_tags. rewrite Hg.
  destruct e as [code msg|cls msg]; [|reflexivity].
  cbn [is_no_such_tag_set] in He. now rewrite He.
Qed.

(** C6. For a listed bucket, the answer [NoSuchTagSet] of the tag request
    is an empty tag list: the bucket gets its record, under [untagged].
    Any other failure of the tag request leaves the bucket out, with a
    warning. *)
Theorem C6_no_such_tag_set_is_empty :
  forall (E : aws_env) (st : state) (buckets : list bucket) (b : bucket),
    available E st "s3" = true ->
    list_buckets E = Ok buckets ->
    In b buckets ->
    (forall msg,
        get_bucket_tagging E (bkt_Name b) = Raise (ClientError "NoSuchTagSet" msg) ->
        exists r,
          In r (owner_bucket (inventory (inventory_s3_buckets E st)) "untagged")
          /\ headed "S3" "Bucket" (bkt_Name b) ("arn:aws:s3:::" ++ bkt_Name b) "untagged" r
          /\ dict_lookup r "tags" = Some (PList []))
    /\ (forall e,
          get_bucket_tagging E (bkt_Name b) = Raise e ->
          is_no_such_tag_set e = false ->
          In (WARNING, s3_warning b e) (logged (inventory_s3_buckets E st))
          /\ (forall r,
                In r (all_records (inventory (inventory_s3_buckets E st))) ->
                has_service ["S3"] r = true ->
                text_field r "name" = Some (bkt_Name b) ->
                In r (all_records (inventory st)))).
Proof.
  intros E st buckets b Hav Hlist Hb.
  split.
  - intros msg Hg.
    assert (Ht : s3_bucket_tags E (bkt_Name b) = Ok []).
    { unfold s3_bucket_tags. now rewrite Hg. }
    destruct (s3_process_tags E b Ht) as [r Hr].
    change (owner_of []) with "untagged" in Hr.
    exists r. split; [|split].
    + apply (collector_record_in_bucket E S3).
      cbn [collector_records]. rewrite Hav, Hlist.
      apply in_successes. exists b. auto.
    + apply (s3_process_ok E b Hr).
    + destruct (s3_process_ok E b Hr) as [_ (tags & Ht' & _ & Htags)].
      rewrite Ht in Ht'. injection Ht' as <-. exact Htags.
  - intros e Hg He.
    assert (Hp : s3_process E b = Raise e).
    { unfold s3_process. now rewrite (s3_bucket_tags_raise E (bkt_Name b) Hg He). }
    split.
    + apply (s3_warnings_logged E st Hav Hlist). now apply warnings_in.
    + intros r Hr _ Hname.
      apply (collector_new_record E S3) in Hr as [Hr|[k Hr]]; [exact Hr|].
      exfalso. apply collector_records_origin in Hr as (bs & b' & _ & _ & Hp').
      destruct (s3_process_ok E b' Hp') as [Hh (tags & Ht & _)].
      destruct (text_fields_headed Hh) as (_ & _ & Hn & _).
      rewrite Hn in Hname. injection Hname as Hname.
      rewrite Hname, (s3_bucket_tags_raise E (bkt_Name b) Hg He) in Ht.
      discriminate Ht.
Qed.

(** In the sample account the bucket [assets] has no tag set and is filed
    under [untagged]. *)
Lemma C6_assets_witness :
  exists r,
    In r (owner_bucket
            (inventory (inventory_s3_buckets sample_account (new_inventory "us-east-1")))
            "untagged")
    /\ headed "S3" "Bucket" "assets" "arn:aws:s3:::assets" "untagged" r
    /\ dict_lookup r "tags" = Some (PList []).
Proof.
  refine (proj1 (@C6_no_such_tag_set_is_empty sample_account (new_inventory "us-east-1")
                   [assets_bucket; private_bucket] assets_bucket eq_refl eq_refl _)
            "The TagSet does not exist" eq_refl).
  left. reflexivity.
Defined.

(** ** The client cache *)

Lemma run_inventory_kept (E : aws_env) (st : state) :
  session_kept E st (run_inventory E st).
Proof.
  apply (run_inventory_spec E st (available E st) (fun s => eq_refl)).
Qed.

Lemma get_client_created (E : aws_env) (service : string) (st st1 : state) (c : client) :
  get_client E service st = (Ok c, st1) ->
  lookup service (clients st) = None ->
  c = {| client_service := service; client_region := region st;
         client_id := created st |}
  /\ clients st1 = clients st ++ [(service, c)]
  /\ created st1 = S (created st).
Proof.
  unfold get_client. intros H Hnone. rewrite Hnone in H.
  destruct (client_error E service); [discriminate H|].
  injection H as <- <-. repeat split.
Qed.

(** C9. A call of [get_client] that returns a handle leaves it cached: when
    the service was not cached, the handle is a new one for the region of
    the run and is the only entry added; any later call for the same
    service, right away, after calls for other services or after the
    whole inventory run, returns that same handle and changes nothing, so
    no handle is created again. *)
Theorem C9_get_client_memoizes :
  forall (E : aws_env) (service : string) (st st1 : state) (c : client),
    get_client E service st = (Ok c, st1) ->
    (lookup service (clients st) = None ->
     c = {| client_service := service; client_region := region st;
            client_id := created st |}
     /\ clients st1 = clients st ++ [(service, c)]
     /\ created st1 = S (created st))
    /\ (forall c0, lookup service (clients st) = Some c0 -> c = c0 /\ st1 = st)
    /\ get_client E service st1 = (Ok c, st1)
    /\ (forall others,
          get_client E service (get_clients E others st1)
          = (Ok c, get_clients E others st1))
    /\ get_client E service (run_inventory E st1) = (Ok c, run_inventory E st1)
    /\ (forall st2, session_kept E st1 st2 -> get_client E service st2 = (Ok c, st2)).
Proof.
  intros E service st st1 c H.
  pose proof (get_client_cached E service st H) as Hc.
  split; [|split; [|split; [|split; [|split]]]].
  - intros Hnone. exact (get_client_created E service st H Hnone).
  - intros c0 Hc0. rewrite (get_client_hit E service st Hc0) in H.
    injection H as <- <-. split; reflexivity.
  - now apply get_client_hit.
  - intros others. apply get_client_hit.
    apply (get_clients_kept E others st1). exact Hc.
  - apply get_client_hit. apply (run_inventory_kept E st1). exact Hc.
  - intros st2 Hk. apply get_client_hit. apply Hk. exact Hc.
Qed.

(** The Lambda client of a new run, asked for again after the clients of
    two other services were created. *)
Lemma C9_lambda_client_witness :
  get_client sample_account "lambda"
    (get_clients sample_account ["rds"; "s3"]
       (snd (get_client sample_account "lambda" (new_inventory "us-east-1"))))
  = (Ok {| client_service := "lambda"; client_region := "us-east-1"; client_id := 0 |},
     get_clients sample_account ["rds"; "s3"]
       (snd (get_client sample_account "lambda" (new_inventory "us-east-1")))).
Proof.
  exact (proj1 (proj2 (proj2 (proj2
           (@C9_get_client_memoizes sample_account "lambda" (new_inventory "us-east-1")
              _ _ eq_refl))))
           ["rds"; "s3"]).
Defined.

(** * Further properties *)

(** ** The tag resolver on arbitrary input *)

Lemma lower_char_idem (c : ascii) : lower_char (lower_char c) = lower_char c.
Proof. destruct c as [[] [] [] [] [] [] [] []]; reflexivity. Qed.










Lemma scan_tags_strs (l : list string) :
  scan_tags app_tag_keys (map PStr l) = Ok "untagged".
Proof. induction l as [|s l IH]; [reflexivity | exact IH]. Qed.

(** X2. Input that is not a tag sequence: every falsy value ([None], [0],
    the empty str, list and dict) resolves to [untagged]; so does a str,
    whose characters are skipped one by one; a non-zero int is not
    iterable and raises [TypeError]. *)
Theorem X2_resolver_edge_inputs :
  (forall v, truthy v = false -> extract_app_name v = Ok "untagged")
  /\ (forall s, extract_app_name (PStr s) = Ok "untagged")
  /\ (forall z, z <> 0%Z ->
        extract_app_name (PInt z)
        = Raise (PyError "TypeError" "'int' object is not iterable")).
Proof.
  split; [|split].
  - intros v Hv. unfold extract_app_name, extract_app_name_with. now rewrite Hv.
  - intros s. unfold extract_app_name, extract_app_name_with.
    destruct (negb (truthy (PStr s))); [reflexivity|].
    cbn [py_iter bind]. apply scan_tags_strs.
  - intros z Hz. unfold extract_app_name, extract_app_name_with. cbn [truthy].
    apply Z.eqb_neq in Hz. rewrite Hz. reflexivity.
Qed.

Lemma X2_falsy_witness : extract_app_name (PInt 0) = Ok "untagged".
Proof. exact (proj1 X2_resolver_edge_inputs (PInt 0) eq_refl). Defined.

Lemma scan_tags_first_match (pre post : list pyval) (d : pydict) :
  forallb (fun e => negb (matches_owner e)) pre = true ->
  matches_owner (PDict d) = true ->
  scan_tags app_tag_keys (pre ++ PDict d :: post)
  = scan_tags app_tag_keys [PDict d].
Proof.
  intros Hpre Hd.
  induction pre as [|x pre IH].
  - cbn [app scan_tags]. cbn [matches_owner] in Hd. now rewrite Hd.
  - cbn [forallb] in Hpre. apply andb_true_iff in Hpre as [Hx Hpre].
    apply negb_true_iff in Hx.
    cbn [app scan_tags]. destruct x; try (now apply IH).
    cbn [matches_owner] in Hx. rewrite Hx. now apply IH.
Qed.

(** X3. In a sequence of entries of any shape, the first entry that
    matches (a mapping with a recognized key and a truthy value) decides
    alone, and nothing after it is looked at: when its value is a str the
    result is that value normalized, and when it is not a str the call
    raises [AttributeError]. *)
Theorem X3_first_match_decides_any_shape :
  forall (pre post : list pyval) (d : pydict),
    forallb (fun e => negb (matches_owner e)) pre = true ->
    matches_owner (PDict d) = true ->
    (forall s, dict_get d "Value" (PStr "") = PStr s ->
               extract_app_name (PList (pre ++ PDict d :: post))
               = Ok (replace_space (lower s)))
    /\ (is_str (dict_get d "Value" (PStr "")) = false ->
        exists msg,
          extract_app_name (PList (pre ++ PDict d :: post))
          = Raise (PyError "AttributeError" msg)).
Proof.
  intros pre post d Hpre Hd.
  assert (He : extract_app_name (PList (pre ++ PDict d :: post))
               = scan_tags app_tag_keys [PDict d]).
  { destruct (nonempty_app pre post (PDict d)) as [x [l Hx]].
    unfold extract_app_name, extract_app_name_with.
    rewrite Hx. cbn [truthy negb py_iter bind]. rewrite <- Hx.
    now apply scan_tags_first_match. }
  rewrite He. cbn [scan_tags]. cbn [matches_owner] in Hd. rewrite Hd.
  split.
  - intros s Hs. now rewrite Hs.
  - intros Hn. destruct (dict_get d "Value" (PStr "")); try discriminate Hn;
      eexists; reflexivity.
Qed.

Lemma X3_int_value_witness :
  exists msg,
    extract_app_name
      (PList ([tag_dict ("Name", "web-1")]
                ++ PDict [("Key", PStr "app"); ("Value", PInt 5)]
                :: [tag_dict ("project", "Orders")]))
    = Raise (PyError "AttributeError" msg).
Proof.
  exact (proj2 (X3_first_match_decides_any_shape [tag_dict ("Name", "web-1")]
                  [tag_dict ("project", "Orders")]
                  [("Key", PStr "app"); ("Value", PInt 5)] eq_refl eq_refl)
           eq_refl).
Defined.

(** ** The inventory as a [defaultdict(list)] *)

Lemma inv_append_keys (inv : Inventory) (k : string) (r : pydict) :
  map fst (inv_append inv k r)
  = if existsb (String.eqb k) (map fst inv) then map fst inv else map fst inv ++ [k].
Proof.
  induction inv as [|[k0 rs] inv IH]; cbn [inv_append map fst existsb]; [reflexivity|].
  rewrite (String.eqb_sym k k0).
  destruct (String.eqb k0 k); cbn [orb map fst]; [reflexivity|].
  rewrite IH. destruct (existsb _ _); reflexivity.
Qed.

Lemma existsb_eqb_false (k : string) (l : list string) :
  existsb (String.eqb k) l = false -> ~ In k l.
Proof.
  intros H Hin. apply existsb_eqb_in in Hin. congruence.
Qed.

Lemma inv_append_nonempty (inv : Inventory) (k : string) (r : pydict) :
  Forall (fun kv => snd kv <> []) inv ->
  Forall (fun kv => snd kv <> []) (inv_append inv k r).
Proof.
  intros H. induction inv as [|[k0 rs] inv IH]; cbn [inv_append].
  - repeat constructor. discriminate.
  - inversion H as [|x l Hx Hl]; subst.
    destruct (String.eqb k0 k).
    + constructor; [|exact Hl]. cbn [snd]. destruct rs; discriminate.
    + constructor; [exact Hx | now apply IH].
Qed.

Lemma inv_append_ok (inv : Inventory) (k : string) (r : pydict) :
  inventory_ok inv -> inventory_ok (inv_append inv k r).
Proof.
  intros [Hnd Hne]. split; [|now apply inv_append_nonempty].
  rewrite inv_append_keys.
  destruct (existsb (String.eqb k) (map fst inv)) eqn:Hex; [exact Hnd|].
  apply NoDup_app; [exact Hnd | repeat constructor; intros [] |].
  intros x Hx [<-|[]]. now apply (existsb_eqb_false _ _ Hex).
Qed.

Lemma extend_ok (rs : list (string * pydict)) :
  forall inv, inventory_ok inv -> inventory_ok (extend inv rs).
Proof.
  induction rs as [|[k r] rs IH]; intros inv H; cbn [extend fold_left]; [exact H|].
  apply IH. now apply inv_append_ok.
Qed.

Lemma extend_keys (rs : list (string * pydict)) :
  forall inv,
    (exists new, map fst (extend inv rs) = map fst inv ++ new)
    /\ (forall k, In k (map fst (extend inv rs)) <-> In k (map fst inv) \/ In k (map fst rs)).
Proof.
  induction rs as [|[k r] rs IH]; intros inv.
  - cbn [extend fold_left map fst In].
    split; [exists []; now rewrite app_nil_r | tauto].
  - change (extend inv ((k, r) :: rs)) with (extend (inv_append inv k r) rs).
    cbn [map fst In].
    destruct (IH (inv_append inv k r)) as [[new Hnew] Hin].
    rewrite inv_append_keys in Hnew, Hin.
    destruct (existsb (String.eqb k) (map fst inv)) eqn:Hex.
    + split; [now exists new|]. intros k'. rewrite Hin.
      apply existsb_exists in Hex as [x [Hx Heq]]. apply String.eqb_eq in Heq. subst x.
      intuition (subst; auto).
    + split; [exists (k :: new); now rewrite Hnew, <- app_assoc|].
      intros k'. rewrite Hin, in_app_iff. cbn [In]. intuition auto.
Qed.

Lemma all_records_inv_append_perm (inv : Inventory) (k : string) (r : pydict) :
  Permutation (all_records (inv_append inv k r)) (all_records inv ++ [r]).
Proof.
  unfold all_records.
  induction inv as [|[k0 rs] inv IH]; cbn [inv_append map snd List.concat].
  - reflexivity.
  - destruct (String.eqb k0 k); cbn [map snd List.concat].
    + rewrite <- !app_assoc. apply Permutation_app_head, Permutation_app_comm.
    + rewrite <- app_assoc. now apply Permutation_app_head.
Qed.

Lemma all_records_extend_perm (rs : list (string * pydict)) :
  forall inv, Permutation (all_records (extend inv rs)) (all_records inv ++ map snd rs).
Proof.
  induction rs as [|[k r] rs IH]; intros inv; cbn [extend fold_left map snd].
  - now rewrite app_nil_r.
  - change (fold_left _ rs ?i) with (extend i rs).
    rewrite IH, all_records_inv_append_perm, <- app_assoc. reflexivity.
Qed.

Lemma lookup_in {A : Type} (m : list (string * A)) (k : string) (v : A) :
  NoDup (map fst m) -> In (k, v) m -> lookup k m = Some v.
Proof.
  intros Hnd Hin. induction m as [|[k0 v0] m IH]; [contradiction|].
  cbn [map fst] in Hnd. inversion Hnd as [|x l Hx Hl]; subst.
  cbn [lookup]. destruct Hin as [Heq|Hin].
  - injection Heq as -> ->. now rewrite String.eqb_refl.
  - destruct (String.eqb k0 k) eqn:Hk; [|now apply IH].
    apply String.eqb_eq in Hk. subst k0. exfalso. apply Hx.
    apply in_map_iff. exists (k, v). auto.
Qed.

Lemma lookup_some_in {A : Type} (m : list (string * A)) (k : string) (v : A) :
  lookup k m = Some v -> In (k, v) m.
Proof.
  induction m as [|[k0 v0] m IH]; cbn [lookup]; [discriminate|].
  destruct (String.eqb k0 k) eqn:Hk.
  - apply String.eqb_eq in Hk. subst k0. intros H. injection H as ->. now left.
  - intros H. right. now apply IH.
Qed.

Lemma all_records_buckets (inv : Inventory) (r : pydict) :
  inventory_ok inv ->
  In r (all_records inv) <-> exists k, In r (owner_bucket inv k).
Proof.
  intros [Hnd _]. rewrite in_all_records. split.
  - intros (k & rs & Hin & Hr). exists k. unfold owner_bucket.
    now rewrite (lookup_in inv k rs Hnd Hin).
  - intros [k Hr]. unfold owner_bucket in Hr.
    destruct (lookup k inv) as [rs|] eqn:Hl; [|contradiction].
    exists k, rs. split; [now apply lookup_some_in | exact Hr].
Qed.

(** X4. Appending records to the inventory, each under its owner key,
    keeps every owner key once and no owner without records; the owners
    already there keep their place and a new owner is put last; the records
    held afterwards are those held before together with the appended ones,
    none lost and none twice; and the list of an owner is its list of
    before followed by the appended records of that owner in the order
    they were appended. *)
Theorem X4_appends_keep_the_inventory :
  forall (inv : Inventory) (rs : list (string * pydict)),
    inventory_ok inv ->
    inventory_ok (extend inv rs)
    /\ (exists new, map fst (extend inv rs) = map fst inv ++ new)
    /\ (forall k, In k (map fst (extend inv rs))
                  <-> In k (map fst inv) \/ In k (map fst rs))
    /\ Permutation (all_records (extend inv rs)) (all_records inv ++ map snd rs)
    /\ (forall k,
          owner_bucket (extend inv rs) k
          = owner_bucket inv k
              ++ map snd (filter (fun kr => String.eqb (fst kr) k) rs))
    /\ (forall k r, ~ In k (map fst inv) -> inv_append inv k r = inv ++ [(k, [r])]).
Proof.
  intros inv rs Hok.
  split; [now apply extend_ok|].
  split; [apply extend_keys|].
  split; [apply extend_keys|].
  split; [apply all_records_extend_perm|].
  split; [intros k; apply owner_bucket_extend|].
  intros k r Hk. clear Hok. induction inv as [|[k0 rs0] inv IH]; [reflexivity|].
  cbn [map fst In] in Hk. cbn [inv_append].
  destruct (String.eqb k0 k) eqn:Heq.
  - apply String.eqb_eq in Heq. exfalso. apply Hk. now left.
  - cbn [app]. f_equal. apply IH. intros H. apply Hk. now right.
Qed.

Lemma X4_two_owners_witness :
  inventory_ok
    (extend [] [("checkout", [("name", PStr "a")]); ("untagged", [("name", PStr "b")]);
                ("checkout", [("name", PStr "c")])]).
Proof.
  refine (proj1 (@X4_appends_keep_the_inventory [] _ _)).
  split; constructor.
Defined.

Lemma run_inventory_ok (E : aws_env) (rgn : string) :
  inventory_ok (inventory (run_inventory E (new_inventory rgn))).
Proof.
  destruct (run_inventory_spec E (new_inventory rgn)
              (available E (new_inventory rgn)) (fun s => eq_refl)) as [Hi _].
  rewrite Hi. apply extend_ok. split; constructor.
Qed.

Lemma filed_bucket (inv : Inventory) (k : string) (r : pydict) :
  inventory_filed inv -> In r (owner_bucket inv k) ->
  text_field r "app_name" = Some k /\ well_formed r = true.
Proof.
  intros Hfiled Hr. unfold owner_bucket in Hr.
  destruct (lookup k inv) as [rs|] eqn:Hl; [|contradiction].
  apply lookup_some_in in Hl.
  unfold inventory_filed in Hfiled. rewrite Forall_forall in Hfiled.
  specialize (Hfiled _ Hl). cbn [fst snd] in Hfiled. rewrite Forall_forall in Hfiled.
  destruct (Hfiled r Hr) as (service & t & n & a & rest & ->).
  split; reflexivity.
Qed.

(** X5. In the inventory a run returns, every owner key occurs once and has
    at least one record; a record is in the returned inventory exactly when
    it is in the list of some owner; and every record in the list of owner
    [k] carries [k] as its ['app_name'] and has its four fixed columns. *)
Theorem X5_run_files_records_by_owner :
  forall (E : aws_env) (rgn : string),
    inventory_ok (inventory (run_inventory E (new_inventory rgn)))
    /\ (forall r,
          In r (all_records (inventory (run_inventory E (new_inventory rgn))))
          <-> exists k,
                In r (owner_bucket (inventory (run_inventory E (new_inventory rgn))) k))
    /\ (forall k r,
          In r (owner_bucket (inventory (run_inventory E (new_inventory rgn))) k) ->
          text_field r "app_name" = Some k /\ well_formed r = true).
Proof.
  intros E rgn.
  split; [apply run_inventory_ok|]. split.
  - intros r. apply all_records_buckets. apply run_inventory_ok.
  - intros k r. apply filed_bucket. apply run_inventory_filed.
Qed.

(** X6. [run_inventory] only appends: the list of every owner after a run is
    its list of before followed by the records collected. The object is
    not reset between runs, so a second run on the same object appends the
    same records once more. *)
Theorem X6_second_run_appends_again :
  forall (E : aws_env) (st : state) (k : string),
    exists added,
      owner_bucket (inventory (run_inventory E st)) k
      = owner_bucket (inventory st) k ++ added
      /\ owner_bucket (inventory (run_inventory E (run_inventory E st))) k
         = owner_bucket (inventory st) k ++ added ++ added.
Proof.
  intros E st k.
  destruct (run_inventory_spec E st (available E st) (fun s => eq_refl))
    as (Hi & Hk & _).
  assert (Hav : forall s, available E st s = available E (run_inventory E st) s).
  { intros s. symmetry. apply Hk. }
  destruct (run_inventory_spec E (run_inventory E st) (available E st) Hav) as (Hi2 & _).
  assert (Hr : region (run_inventory E st) = region st) by apply Hk.
  rewrite Hr in Hi2.
  exists (map snd (filter (fun kr => String.eqb (fst kr) k)
                     (run_records E (region st) (available E st)))).
  rewrite Hi2, Hi, !owner_bucket_extend. split; [reflexivity|].
  now rewrite <- app_assoc.
Qed.

(** ** The session along a run *)

Lemma run_collector_unfold (E : aws_env) (c : collector) (st : state) :
  run_collector E c st
  = try_except (collector_block E c) (collector_what c) (log INFO (collector_intro c) st).
Proof. destruct c; reflexivity. Qed.

Lemma same_session_refl (st : state) : same_session st st.
Proof. repeat split. Qed.

Lemma same_session_trans (st1 st2 st3 : state) :
  same_session st1 st2 -> same_session st2 st3 -> same_session st1 st3.
Proof. intros (H1 & H2 & H3) (H4 & H5 & H6). repeat split; congruence. Qed.

Lemma get_client_same (E : aws_env) (service : string) (st st' : state) :
  same_session st st' ->
  fst (get_client E service st') = fst (get_client E service st)
  /\ same_session (snd (get_client E service st)) (snd (get_client E service st')).
Proof.
  intros (Hr & Hc & Hn). unfold get_client. rewrite Hr, Hc, Hn.
  destruct (lookup service (clients st)); cbn [fst snd].
  - repeat split; auto.
  - destruct (client_error E service); cbn [fst snd]; repeat split; auto.
Qed.

Lemma get_clients_same (E : aws_env) (services : list string) :
  forall st st',
    same_session st st' ->
    same_session (get_clients E services st) (get_clients E services st').
Proof.
  unfold get_clients.
  induction services as [|s services IH]; intros st st' H; cbn [fold_left]; [exact H|].
  apply IH. now apply get_client_same.
Qed.

Lemma get_clients_app (E : aws_env) (l1 l2 : list string) (st : state) :
  get_clients E (l1 ++ l2) st = get_clients E l2 (get_clients E l1 st).
Proof. unfold get_clients. apply fold_left_app. Qed.

Lemma reaches_refl (E : aws_env) (allowed : list string) (st : state) :
  reaches E allowed st st.
Proof. exists []. split; [intros x [] | apply same_session_refl]. Qed.

Lemma reaches_same (E : aws_env) (allowed : list string) (st st' : state) :
  same_session st st' -> reaches E allowed st st'.
Proof. intros H. exists []. split; [intros x [] | exact H]. Qed.

Lemma reaches_trans (E : aws_env) (allowed : list string) (st1 st2 st3 : state) :
  reaches E allowed st1 st2 -> reaches E allowed st2 st3 -> reaches E allowed st1 st3.
Proof.
  intros (l1 & Hl1 & H1) (l2 & Hl2 & H2).
  exists (l1 ++ l2). split; [now apply incl_app|].
  rewrite get_clients_app.
  eapply same_session_trans; [|exact H2]. now apply get_clients_same.
Qed.

Lemma reaches_incl (E : aws_env) (allowed allowed' : list string) (st st' : state) :
  incl allowed allowed' -> reaches E allowed st st' -> reaches E allowed' st st'.
Proof.
  intros Hincl (l & Hl & H). exists l. split; [|exact H].
  eapply incl_tran; eassumption.
Qed.

Lemma reaches_get_client (E : aws_env) (allowed : list string) (service : string)
    (st : state) :
  In service allowed -> reaches E allowed st (snd (get_client E service st)).
Proof.
  intros Hin. exists [service]. split.
  - intros x [<-|[]]. exact Hin.
  - apply same_session_refl.
Qed.

Lemma reaches_use_client (E : aws_env) (allowed : list string) (service : string)
    (st : state) :
  In service allowed -> reaches E allowed st (fst (use_client E service st)).
Proof.
  intros Hin. unfold use_client.
  pose proof (reaches_get_client E allowed service st Hin) as H.
  destruct (get_client E service st) as [[c|e] st1]; exact H.
Qed.

Lemma reaches_for_pages (E : aws_env) (allowed : list string) {A : Type}
    (p : paginated A) (body : A -> state -> state)
    (f : string -> A -> list (string * pydict))
    (g : string -> A -> list (level * string)) (st : state) :
  appends body f g -> reaches E allowed st (fst (for_pages p body st)).
Proof.
  intros Hbody. apply reaches_same. unfold for_pages. cbn [fst].
  destruct (appends_fold Hbody (pages p) st) as (_ & _ & Hr & Hc & Hn).
  repeat split; assumption.
Qed.

Lemma reaches_and_then (E : aws_env) (allowed : list string) (b1 b2 : block) :
  (forall st, reaches E allowed st (fst (b1 st))) ->
  (forall st, reaches E allowed st (fst (b2 st))) ->
  forall st, reaches E allowed st (fst ((b1 ;; b2) st)).
Proof.
  intros H1 H2 st. unfold and_then. specialize (H1 st).
  destruct (b1 st) as [st1 [e|]]; cbn [fst] in *; [exact H1|].
  eapply reaches_trans; [exact H1 | apply H2].
Qed.

Lemma reaches_s3_list_and_collect (E : aws_env) (allowed : list string) (st : state) :
  reaches E allowed st (fst (s3_list_and_collect E st)).
Proof.
  unfold s3_list_and_collect.
  destruct (list_buckets E) as [buckets|e]; cbn [fst]; [|apply reaches_refl].
  apply reaches_same.
  destruct (for_each_try_spec (s3_process E) s3_warning buckets st)
    as (_ & _ & Hr & Hc & Hn).
  repeat split; assumption.
Qed.

Lemma reaches_collector_block (E : aws_env) (c : collector) :
  forall st, reaches E (client_names c) st (fst (collector_block E c st)).
Proof.
  destruct c; cbn [collector_block client_names];
    repeat apply reaches_and_then; intros st;
    try (apply reaches_use_client; cbn [In]; tauto);
    try apply reaches_s3_list_and_collect.
  - eapply reaches_for_pages.
    exact (appends_for_each_try (fun _ => lambda_process E) lambda_warning).
  - eapply reaches_for_pages.
    exact (appends_for_each_try (fun _ => rds_instance_process E) rds_instance_warning).
  - eapply reaches_for_pages.
    exact (appends_for_each_try (fun _ => rds_cluster_process E) rds_cluster_warning).
  - eapply reaches_for_pages.
    exact (appends_for_each_try (fun _ => dynamodb_process E) dynamodb_warning).
  - eapply reaches_for_pages.
    exact (appends_fold (appends_for_each_try ec2_process ec2_warning)).
  - eapply reaches_for_pages.
    exact (appends_for_each_try (rest_api_process E) rest_api_warning).
  - eapply reaches_for_pages.
    exact (appends_for_each_try http_api_process http_api_warning).
Qed.

Lemma reaches_run_collector (E : aws_env) (c : collector) (st : state) :
  reaches E (client_names c) st (run_collector E c st).
Proof.
  rewrite run_collector_unfold. unfold try_except.
  pose proof (reaches_collector_block E c (log INFO (collector_intro c) st)) as H.
  destruct (collector_block E c (log INFO (collector_intro c) st)) as [st1 [e|]];
    cbn [fst] in H.
  - eapply reaches_trans;
      [apply (reaches_same E _ (st := st) (st' := log INFO (collector_intro c) st));
       repeat split|].
    eapply reaches_trans; [exact H|].
    apply reaches_same. repeat split.
  - eapply reaches_trans; [|exact H].
    apply reaches_same. repeat split.
Qed.

Lemma reaches_run_collectors (E : aws_env) (cs : list collector) :
  forall st,
    reaches E (List.flat_map client_names cs) st
      (fold_left (fun st c => run_collector E c st) cs st).
Proof.
  induction cs as [|c cs IH]; intros st; cbn [fold_left List.flat_map].
  - apply reaches_refl.
  - eapply reaches_trans.
    + eapply reaches_incl; [|apply reaches_run_collector]. apply incl_appl, incl_refl.
    + eapply reaches_incl; [|apply IH]. apply incl_appr, incl_refl.
Qed.

Lemma reaches_run_inventory (E : aws_env) (st : state) :
  reaches E all_client_names st (run_inventory E st).
Proof.
  rewrite run_inventory_unfold.
  remember (log INFO ("Starting AWS resource inventory for region: " ++ region st) st)
    as st0 eqn:Hst0.
  assert (H0 : same_session st st0) by (subst st0; repeat split).
  pose proof (reaches_run_collectors E collectors st0) as H1.
  remember (fold_left (fun st c => run_collector E c st) collectors st0) as st1 eqn:Hst1.
  clear Hst0 Hst1.
  assert (H2 : same_session st1 (log INFO "Inventory complete!" st1)) by (repeat split).
  remember (log INFO "Inventory complete!" st1) as st2 eqn:Hst2. clear Hst2.
  unfold all_client_names.
  eapply reaches_trans; [apply reaches_same; exact H0|].
  eapply reaches_trans; [exact H1|].
  apply reaches_same. exact H2.
Qed.

(** ** The client cache along a run *)

Lemma lookup_none_keys {A : Type} (m : list (string * A)) (k : string) :
  lookup k m = None -> ~ In k (map fst m).
Proof.
  induction m as [|[k0 v0] m IH]; cbn [lookup map fst In]; [tauto|].
  destruct (String.eqb k0 k) eqn:Hk; [discriminate|].
  intros H [Heq|Hin]; [|now apply IH].
  subst k0. rewrite String.eqb_refl in Hk. discriminate Hk.
Qed.

Lemma clients_ok_same (st st' : state) :
  same_session st st' -> clients_ok st -> clients_ok st'.
Proof. intros (Hr & Hc & Hn). unfold clients_ok. now rewrite Hr, Hc, Hn. Qed.

Lemma get_client_unavailable (E : aws_env) (service : string) (st : state) (e : exn) :
  lookup service (clients st) = None ->
  client_error E service = Some e ->
  get_client E service st = (Raise e, st).
Proof. intros Hl He. unfold get_client. now rewrite Hl, He. Qed.

Lemma get_client_grows (E : aws_env) (service : string) (st : state) :
  (clients (snd (get_client E service st)) = clients st
   /\ created (snd (get_client E service st)) = created st)
  \/ (lookup service (clients st) = None
      /\ clients (snd (get_client E service st))
         = clients st ++ [(service, {| client_service := service;
                                       client_region := region st;
                                       client_id := created st |})]
      /\ created (snd (get_client E service st)) = S (created st)).
Proof.
  unfold get_client.
  destruct (lookup service (clients st)) eqn:Hl; cbn [snd]; [now left|].
  destruct (client_error E service); cbn [snd clients created]; [now left|].
  right. repeat split.
Qed.

Lemma get_client_region (E : aws_env) (service : string) (st : state) :
  region (snd (get_client E service st)) = region st.
Proof. apply get_client_spec. Qed.

Lemma get_client_ok (E : aws_env) (service : string) (st : state) :
  clients_ok st -> clients_ok (snd (get_client E service st)).
Proof.
  intros (Hk & Hi & Hf).
  pose proof (get_client_region E service st) as Hr.
  destruct (get_client_grows E service st) as [[Hc Hn]|(Hl & Hc & Hn)];
    unfold clients_ok; rewrite Hr, Hc, Hn.
  - repeat split; assumption.
  - rewrite !map_app. cbn [map fst snd client_id].
    rewrite Forall_forall in Hf.
    split; [|split].
    + apply NoDup_app; [exact Hk | repeat constructor; intros [] |].
      intros x Hx [<-|[]]. now apply (lookup_none_keys _ _ Hl).
    + apply NoDup_app; [exact Hi | repeat constructor; intros [] |].
      intros x Hx [<-|[]]. apply in_map_iff in Hx as [sc [Heq Hin]].
      destruct (Hf sc Hin) as (_ & _ & Hlt). lia.
    + apply Forall_app. split.
      * apply Forall_forall. intros sc Hin.
        destruct (Hf sc Hin) as (H1 & H2 & H3). repeat split; auto.
      * repeat constructor.
Qed.

Lemma get_client_count (E : aws_env) (service : string) (st : state) :
  created (snd (get_client E service st)) + List.length (clients st)
  = created st + List.length (clients (snd (get_client E service st))).
Proof.
  destruct (get_client_grows E service st) as [[Hc Hn]|(Hl & Hc & Hn)]; rewrite Hc, Hn.
  - reflexivity.
  - rewrite length_app. cbn [List.length]. lia.
Qed.

Lemma get_client_keys (E : aws_env) (service : string) (st : state) (s : string) :
  In s (map fst (clients (snd (get_client E service st)))) ->
  In s (map fst (clients st)) \/ s = service.
Proof.
  destruct (get_client_grows E service st) as [[Hc Hn]|(Hl & Hc & Hn)]; rewrite Hc.
  - now left.
  - rewrite map_app, in_app_iff. cbn [map fst In]. intuition auto.
Qed.

Lemma get_clients_ok (E : aws_env) (services : list string) :
  forall st,
    clients_ok st ->
    clients_ok (get_clients E services st)
    /\ created (get_clients E services st) + List.length (clients st)
       = created st + List.length (clients (get_clients E services st))
    /\ (forall s, In s (map fst (clients (get_clients E services st))) ->
                  In s (map fst (clients st)) \/ In s services).
Proof.
  unfold get_clients.
  induction services as [|x services IH]; intros st Hok; cbn [fold_left].
  - split; [exact Hok | split; [reflexivity | auto]].
  - destruct (IH (snd (get_client E x st)) (@get_client_ok E x st Hok))
      as (Hok' & Hcount & Hkeys).
    pose proof (get_client_count E x st) as Hc.
    split; [exact Hok' | split; [lia|]].
    intros s Hs. destruct (Hkeys s Hs) as [H|H]; [|right; now right].
    destruct (get_client_keys E x st s H) as [H'|H']; [now left | right; now left].
Qed.

Lemma reaches_ok (E : aws_env) (allowed : list string) (st st' : state) :
  reaches E allowed st st' ->
  clients_ok st ->
  clients_ok st'
  /\ created st' + List.length (clients st) = created st + List.length (clients st')
  /\ (forall s, In s (map fst (clients st')) ->
                In s (map fst (clients st)) \/ In s allowed).
Proof.
  intros (services & Hincl & Hsame) Hok.
  destruct (@get_clients_ok E services st Hok) as (Hok' & Hcount & Hkeys).
  pose proof (clients_ok_same Hsame Hok') as Hok''.
  destruct Hsame as (_ & Hc & Hn). rewrite Hc, Hn.
  split; [exact Hok'' | split; [exact Hcount|]].
  intros s Hs. destruct (Hkeys s Hs) as [H|H]; [now left | right; now apply Hincl].
Qed.

(** X7. The client cache keeps its shape along a run: one entry per service
    name, each handle made for its service and for the region of the run,
    no two handles the same object; [get_client] keeps it so, and so does
    [run_inventory], which adds entries only for the seven service names
    the collectors use and creates exactly as many handles as it adds
    entries. *)
Theorem X7_client_cache_invariant :
  forall (E : aws_env) (st : state),
    clients_ok st ->
    (forall service, clients_ok (snd (get_client E service st)))
    /\ clients_ok (run_inventory E st)
    /\ created (run_inventory E st) + List.length (clients st)
       = created st + List.length (clients (run_inventory E st))
    /\ (forall s, In s (map fst (clients (run_inventory E st))) ->
                  In s (map fst (clients st))
                  \/ In s ["lambda"; "rds"; "dynamodb"; "s3"; "ec2"; "apigateway";
                           "apigatewayv2"]).
Proof.
  intros E st Hok.
  split; [intros service; now apply get_client_ok|].
  exact (@reaches_ok E all_client_names st _ (reaches_run_inventory E st) Hok).
Qed.

Lemma new_inventory_clients_ok (rgn : string) : clients_ok (new_inventory rgn).
Proof. repeat split; constructor. Qed.

Lemma X7_new_run_witness :
  clients_ok (run_inventory sample_account (new_inventory "us-east-1")).
Proof.
  exact (proj1 (proj2 (@X7_client_cache_invariant sample_account
                         (new_inventory "us-east-1")
                         (new_inventory_clients_ok "us-east-1")))).
Defined.

Lemma collector_block_unavailable (E : aws_env) (c : collector) (st : state) (e : exn) :
  lookup (first_client c) (clients st) = None ->
  client_error E (first_client c) = Some e ->
  collector_block E c st = (st, Some e).
Proof.
  intros Hl He.
  destruct c; cbn [collector_block first_client] in *; unfold and_then, use_client;
    rewrite (@get_client_unavailable E _ st e Hl He); reflexivity.
Qed.

(** X8. When no client of a collector's first service is cached and the
    session cannot create one, [get_client] raises and caches nothing, and
    the collector gives up at once: it logs its opening line and one error
    line and changes nothing else, so it adds no record and a later call
    asks the session again. *)
Theorem X8_collector_without_client :
  forall (E : aws_env) (c : collector) (st : state) (e : exn),
    lookup (first_client c) (clients st) = None ->
    client_error E (first_client c) = Some e ->
    get_client E (first_client c) st = (Raise e, st)
    /\ run_collector E c st
       = log ERROR (collector_what c ++ ": " ++ exn_str e)
           (log INFO (collector_intro c) st)
    /\ inventory (run_collector E c st) = inventory st
    /\ clients (run_collector E c st) = clients st.
Proof.
  intros E c st e Hl He.
  split; [now apply get_client_unavailable|].
  assert (Hrun : run_collector E c st
                 = log ERROR (collector_what c ++ ": " ++ exn_str e)
                     (log INFO (collector_intro c) st)).
  { rewrite run_collector_unfold. unfold try_except.
    now rewrite (@collector_block_unavailable E c (log INFO (collector_intro c) st) e Hl He). }
  split; [exact Hrun|]. rewrite Hrun. split; reflexivity.
Qed.

Lemma X8_no_lambda_client_witness :
  run_collector no_lambda_client Lambda (new_inventory "us-east-1")
  = log ERROR ("Error inventorying Lambda functions: "
                 ++ "User is not authorized to perform this operation")
      (log INFO "Inventorying Lambda functions..." (new_inventory "us-east-1")).
Proof.
  exact (proj1 (proj2 (@X8_collector_without_client no_lambda_client Lambda
                         (new_inventory "us-east-1") access_denied eq_refl eq_refl))).
Defined.

(** ** What a collector logs *)

Lemma log_use_client (E : aws_env) (service : string) :
  block_log E (use_client E service) (fun _ _ => [])
    (fun _ avail => client_failure E avail service).
Proof.
  intros st avail Hav.
  destruct (get_client_spec E service st) as (_ & _ & Hl & Hk).
  unfold use_client, client_failure. rewrite Hav.
  unfold available. unfold get_client in *.
  destruct (lookup service (clients st)) as [c|]; cbn [fst snd] in *.
  - rewrite app_nil_r. repeat split; apply Hk.
  - destruct (client_error E service) as [e|]; cbn [fst snd] in *;
      rewrite app_nil_r; repeat split; apply Hk.
Qed.

Lemma log_for_pages (E : aws_env) {A : Type} (p : paginated A)
    (body : A -> state -> state) (f : string -> A -> list (string * pydict))
    (g : string -> A -> list (level * string)) :
  appends body f g ->
  block_log E (for_pages p body)
    (fun rgn _ => List.flat_map (g rgn) (pages p))
    (fun _ _ => failure p).
Proof.
  intros Hbody st avail _. unfold for_pages. cbn [fst snd].
  destruct (appends_fold Hbody (pages p) st) as (_ & Hl & Hr & Hc & _).
  split; [exact Hl | split; [reflexivity|]]. now apply session_kept_same.
Qed.

Lemma log_and_then (E : aws_env) (b1 b2 : block)
    (l1 l2 : string -> (string -> bool) -> list (level * string))
    (r1 r2 : string -> (string -> bool) -> option exn) :
  block_log E b1 l1 r1 -> block_log E b2 l2 r2 ->
  block_log E (b1 ;; b2)
    (fun rgn avail =>
       l1 rgn avail ++ match r1 rgn avail with None => l2 rgn avail | Some _ => [] end)
    (fun rgn avail => or_else (r1 rgn avail) (r2 rgn avail)).
Proof.
  intros H1 H2 st avail Hav. unfold and_then.
  destruct (H1 st avail Hav) as (Hl1 & Hr1 & Hk1).
  destruct (b1 st) as [st1 o]; cbn [fst snd] in *. rewrite <- Hr1.
  destruct o as [e|]; cbn [fst snd or_else].
  - rewrite app_nil_r. repeat split; [exact Hl1 | apply Hk1 ..].
  - assert (Hav1 : forall s, avail s = available E st1 s).
    { intros s. rewrite Hav. symmetry. apply Hk1. }
    destruct (H2 st1 avail Hav1) as (Hl2 & Hr2 & Hk2).
    assert (Hr : region st1 = region st) by apply Hk1.
    rewrite Hr in Hl2, Hr2.
    split; [|split; [exact Hr2|]].
    + rewrite Hl2, Hl1. now rewrite app_assoc.
    + eapply session_kept_trans; eassumption.
Qed.

Lemma log_s3_list_and_collect (E : aws_env) :
  block_log E (s3_list_and_collect E)
    (fun _ _ => match list_buckets E with
                | Ok buckets => warnings (s3_process E) s3_warning buckets
                | Raise _ => []
                end)
    (fun _ _ => match list_buckets E with Ok _ => None | Raise e => Some e end).
Proof.
  intros st avail _. unfold s3_list_and_collect.
  destruct (list_buckets E) as [buckets|e]; cbn [fst snd].
  - destruct (for_each_try_spec (s3_process E) s3_warning buckets st)
      as (_ & Hl & Hr & Hc & _).
    split; [exact Hl | split; [reflexivity|]]. now apply session_kept_same.
  - rewrite app_nil_r. repeat split; auto.
Qed.

Lemma try_except_log (E : aws_env) (b : block)
    (logs : string -> (string -> bool) -> list (level * string))
    (raised : string -> (string -> bool) -> option exn) (what msg : string) :
  block_log E b logs raised ->
  forall st avail,
    (forall s, avail s = available E st s) ->
    logged (try_except b what (log INFO msg st))
    = logged st
        ++ (INFO, msg)
        :: logs (region st) avail
        ++ match raised (region st) avail with
           | None => []
           | Some e => [(ERROR, (what ++ ": " ++ exn_str e)%string)]
           end.
Proof.
  intros Hb st avail Hav. unfold try_except.
  destruct (Hb (log INFO msg st) avail Hav) as (Hl & Hr & _).
  cbn [log region logged] in Hl, Hr. rewrite <- Hr.
  destruct (b (log INFO msg st)) as [st1 [e|]]; cbn [fst snd] in *.
  - cbn [log logged]. rewrite Hl, <- !app_assoc. reflexivity.
  - rewrite Hl, app_nil_r, <- app_assoc. reflexivity.
Qed.

Lemma unavailable_client (E : aws_env) (st : state) (avail : string -> bool)
    (service : string) :
  (forall s, avail s = available E st s) ->
  avail service = false ->
  exists e, client_error E service = Some e.
Proof.
  intros Hav H. rewrite Hav in H. unfold available in H.
  destruct (lookup service (clients st)); [discriminate H|].
  destruct (client_error E service) as [e|]; [now exists e | discriminate H].
Qed.

Lemma collector_block_log (E : aws_env) (c : collector) :
  exists logs raised,
    block_log E (collector_block E c) logs raised
    /\ forall st avail,
         (forall s, avail s = available E st s) ->
         logs (region st) avail = collector_warnings E c (region st) avail
         /\ raised (region st) avail = collector_raised E c avail.
Proof.
  destruct c; cbn [collector_block collector_warnings collector_raised].
  - eexists _, _. split.
    + exact (log_and_then (log_use_client E "lambda")
               (log_for_pages E (list_functions E)
                  (appends_for_each_try (fun _ => lambda_process E) lambda_warning))).
    + intros st avail Hav. cbn beta. unfold client_failure.
      destruct (avail "lambda") eqn:Ha; [split; reflexivity|].
      destruct (unavailable_client E st avail "lambda" Hav Ha) as [e ->].
      split; reflexivity.
  - eexists _, _. split.
    + exact (log_and_then (log_use_client E "rds")
               (log_and_then
                  (log_for_pages E (describe_db_instances E)
                     (appends_for_each_try (fun _ => rds_instance_process E)
                        rds_instance_warning))
                  (log_for_pages E (describe_db_clusters E)
                     (appends_for_each_try (fun _ => rds_cluster_process E)
                        rds_cluster_warning)))).
    + intros st avail Hav. cbn beta. unfold client_failure.
      destruct (avail "rds") eqn:Ha.
      * destruct (failure (describe_db_instances E)); split; reflexivity.
      * destruct (unavailable_client E st avail "rds" Hav Ha) as [e ->].
        split; reflexivity.
  - eexists _, _. split.
    + exact (log_and_then (log_use_client E "dynamodb")
               (log_for_pages E (list_tables E)
                  (appends_for_each_try (fun _ => dynamodb_process E) dynamodb_warning))).
    + intros st avail Hav. cbn beta. unfold client_failure.
      destruct (avail "dynamodb") eqn:Ha; [split; reflexivity|].
      destruct (unavailable_client E st avail "dynamodb" Hav Ha) as [e ->].
      split; reflexivity.
  - eexists _, _. split.
    + exact (log_and_then (log_use_client E "s3") (log_s3_list_and_collect E)).
    + intros st avail Hav. cbn beta. unfold client_failure.
      destruct (avail "s3") eqn:Ha; [split; reflexivity|].
      destruct (unavailable_client E st avail "s3" Hav Ha) as [e ->].
      split; reflexivity.
  - eexists _, _. split.
    + exact (log_and_then (log_use_client E "ec2")
               (log_for_pages E (describe_instances E)
                  (appends_fold (appends_for_each_try ec2_process ec2_warning)))).
    + intros st avail Hav. cbn beta. unfold client_failure.
      destruct (avail "ec2") eqn:Ha; [split; reflexivity|].
      destruct (unavailable_client E st avail "ec2" Hav Ha) as [e ->].
      split; reflexivity.
  - eexists _, _. split.
    + exact (log_and_then (log_use_client E "apigateway")
               (log_and_then
                  (log_for_pages E (get_rest_apis E)
                     (appends_for_each_try (rest_api_process E) rest_api_warning))
                  (log_and_then (log_use_client E "apigatewayv2")
                     (log_for_pages E (get_apis E)
                        (appends_for_each_try http_api_process http_api_warning))))).
    + intros st avail Hav. cbn beta. unfold client_failure.
      destruct (avail "apigateway") eqn:Ha.
      * destruct (failure (get_rest_apis E)); cbn [no_exn andb app or_else];
          [split; reflexivity|].
        destruct (avail "apigatewayv2") eqn:Hb; [split; reflexivity|].
        destruct (unavailable_client E st avail "apigatewayv2" Hav Hb) as [e ->].
        split; reflexivity.
      * destruct (unavailable_client E st avail "apigateway" Hav Ha) as [e ->].
        split; reflexivity.
Qed.

Lemma collector_log_spec (E : aws_env) (c : collector) (st : state)
    (avail : string -> bool) :
  (forall s, avail s = available E st s) ->
  logged (run_collector E c st) = logged st ++ collector_log E c (region st) avail.
Proof.
  intros Hav. rewrite run_collector_unfold.
  destruct (collector_block_log E c) as (logs & raised & Hb & Heq).
  rewrite (try_except_log (collector_what c) (collector_intro c) Hb st avail Hav).
  destruct (Heq st avail Hav) as [-> ->]. reflexivity.
Qed.

Lemma warnings_level {A : Type} (process : A -> result (string * pydict))
    (warning : A -> exn -> string) (items : list A) :
  Forall (fun line => fst line = WARNING) (warnings process warning items).
Proof.
  unfold warnings. apply Forall_flat_map. apply Forall_forall. intros item _.
  destruct (process item); repeat constructor.
Qed.

Lemma page_warnings_level {A : Type} (process : A -> result (string * pydict))
    (warning : A -> exn -> string) (ps : list (list A)) :
  Forall (fun line => fst line = WARNING)
    (List.flat_map (warnings process warning) ps).
Proof.
  apply Forall_flat_map. apply Forall_forall. intros page _. apply warnings_level.
Qed.

Lemma collector_warnings_level (E : aws_env) (c : collector) (rgn : string)
    (avail : string -> bool) :
  Forall (fun line => fst line = WARNING) (collector_warnings E c rgn avail).
Proof.
  destruct c; cbn [collector_warnings];
    repeat match goal with
           | |- context [if ?b then _ else _] => destruct b
           | |- context [match list_buckets E with _ => _ end] => destruct (list_buckets E)
           end;
    repeat first
      [ apply Forall_nil
      | apply Forall_app; split
      | apply page_warnings_level
      | apply warnings_level
      | apply Forall_flat_map; apply Forall_forall; intros ? _ ].
Qed.

(** X9. What a collector adds to the log: its opening line, then one
    warning for each resource it skipped, in the order met, then, when its
    outer [try] ended with an exception, one error line for that
    exception; nothing else, and never more than one error line. *)
Theorem X9_collector_log_shape :
  forall (E : aws_env) (c : collector) (st : state),
    logged (run_collector E c st)
    = logged st
        ++ (INFO, collector_intro c)
        :: collector_warnings E c (region st) (available E st)
        ++ match collector_raised E c (available E st) with
           | None => []
           | Some e => [(ERROR, (collector_what c ++ ": " ++ exn_str e)%string)]
           end
    /\ Forall (fun line => fst line = WARNING)
         (collector_warnings E c (region st) (available E st)).
Proof.
  intros E c st. split; [|apply collector_warnings_level].
  exact (collector_log_spec E c st (available E st) (fun s => eq_refl)).
Qed.

Lemma successes_warnings_length {A : Type} (process : A -> result (string * pydict))
    (warning : A -> exn -> string) (items : list A) :
  List.length (warnings process warning items) + List.length (successes process items)
  = List.length items.
Proof.
  unfold warnings, successes.
  induction items as [|item items IH]; [reflexivity|].
  cbn [List.flat_map]. rewrite !length_app.
  destruct (process item); cbn [List.length]; lia.
Qed.

(** X10. In the loop over listed resources every resource ends as exactly
    one record or exactly one warning: the records and the log lines grow
    together by the number of resources, and every line logged is a
    warning. *)
Theorem X10_each_resource_recorded_or_warned :
  forall (A : Type) (process : A -> result (string * pydict))
         (warning : A -> exn -> string) (items : list A) (st : state),
    List.length (all_records (inventory (for_each_try process warning items st)))
    + List.length (logged (for_each_try process warning items st))
    = List.length (all_records (inventory st)) + List.length (logged st)
      + List.length items
    /\ exists lines,
         logged (for_each_try process warning items st) = logged st ++ lines
         /\ Forall (fun line => fst line = WARNING) lines
         /\ List.length lines + List.length (successes process items)
            = List.length items.
Proof.
  intros A process warning items st.
  destruct (for_each_try_spec process warning items st) as (Hi & Hl & _).
  pose proof (successes_warnings_length process warning items) as Hcount.
  split.
  - rewrite Hi, Hl, length_app.
    rewrite (Permutation_length (all_records_extend_perm _ _)).
    rewrite length_app, length_map. lia.
  - exists (warnings process warning items).
    split; [exact Hl | split; [apply warnings_level | exact Hcount]].
Qed.

(** ** What a run logs *)

Lemma run_collectors_log (E : aws_env) (cs : list collector) :
  forall st avail,
    (forall s, avail s = available E st s) ->
    logged (fold_left (fun st c => run_collector E c st) cs st)
    = logged st ++ List.flat_map (fun c => collector_log E c (region st) avail) cs.
Proof.
  induction cs as [|c cs IH]; intros st avail Hav; cbn [fold_left List.flat_map].
  - now rewrite app_nil_r.
  - destruct (collector_spec E c st avail Hav) as (_ & Hk & _).
    assert (Hav1 : forall s, avail s = available E (run_collector E c st) s).
    { intros s. rewrite Hav. symmetry. apply Hk. }
    assert (Hr : region (run_collector E c st) = region st) by apply Hk.
    rewrite (IH (run_collector E c st) avail Hav1), Hr.
    rewrite (collector_log_spec E c st avail Hav). now rewrite app_assoc.
Qed.

Lemma run_inventory_log (E : aws_env) (st : state) (avail : string -> bool) :
  (forall s, avail s = available E st s) ->
  logged (run_inventory E st)
  = logged st
      ++ (INFO, ("Starting AWS resource inventory for region: " ++ region st)%string)
      :: List.flat_map (fun c => collector_log E c (region st) avail) collectors
      ++ [(INFO, "Inventory complete!")].
Proof.
  intros Hav. rewrite run_inventory_unfold.
  remember (log INFO ("Starting AWS resource inventory for region: " ++ region st) st)
    as st0 eqn:Hst0.
  assert (Hl0 : logged st0
                = logged st
                    ++ [(INFO, ("Starting AWS resource inventory for region: "
                                  ++ region st)%string)])
    by (subst st0; reflexivity).
  assert (Hr0 : region st0 = region st) by (subst st0; reflexivity).
  assert (Hc0 : clients st0 = clients st) by (subst st0; reflexivity).
  assert (Hav0 : forall s, avail s = available E st0 s).
  { intros s. rewrite Hav. unfold available. now rewrite Hc0. }
  pose proof (run_collectors_log E collectors st0 avail Hav0) as Hl.
  remember (fold_left (fun st c => run_collector E c st) collectors st0) as st1 eqn:Hst1.
  clear Hst0 Hst1. cbn [log logged].
  rewrite Hl, Hl0, Hr0, <- !app_assoc. reflexivity.
Qed.

Lemma filter_warnings (lvl : level) (lines : list (level * string)) :
  lvl <> WARNING ->
  Forall (fun line => fst line = WARNING) lines ->
  filter (has_level lvl) lines = [].
Proof.
  intros Hlvl H. apply filter_none. rewrite Forall_forall in H.
  intros [l m] Hin. specialize (H _ Hin). cbn [fst] in H. subst l.
  destruct lvl; try reflexivity. now contradiction Hlvl.
Qed.

Lemma collector_log_infos (E : aws_env) (c : collector) (rgn : string)
    (avail : string -> bool) :
  filter (has_level INFO) (collector_log E c rgn avail) = [(INFO, collector_intro c)].
Proof.
  unfold collector_log. cbn [filter has_level fst]. rewrite filter_app.
  rewrite (@filter_warnings INFO); [|discriminate | apply collector_warnings_level].
  destruct (collector_raised E c avail); reflexivity.
Qed.

Lemma collector_log_errors (E : aws_env) (c : collector) (rgn : string)
    (avail : string -> bool) :
  List.length (filter (has_level ERROR) (collector_log E c rgn avail))
  = if no_exn (collector_raised E c avail) then 0 else 1.
Proof.
  unfold collector_log. cbn [filter has_level fst]. rewrite filter_app.
  rewrite (@filter_warnings ERROR); [|discriminate | apply collector_warnings_level].
  destruct (collector_raised E c avail); reflexivity.
Qed.

(** X11. A run logs its opening line, then what each of the six collectors
    logs, in the fixed order, then its closing line, whatever failed on the
    way: the six opening lines of the collectors are all there, and there
    are as many error lines as collectors whose outer [try] ended with an
    exception. *)
Theorem X11_run_log :
  forall (E : aws_env) (st : state),
    logged (run_inventory E st)
    = logged st
        ++ (INFO, ("Starting AWS resource inventory for region: " ++ region st)%string)
        :: List.flat_map (fun c => collector_log E c (region st) (available E st))
             collectors
        ++ [(INFO, "Inventory complete!")]
    /\ filter (has_level INFO)
         (List.flat_map (fun c => collector_log E c (region st) (available E st))
            collectors)
       = map (fun c => (INFO, collector_intro c))
           [Lambda; RDS; DynamoDB; S3; EC2; APIGateway]
    /\ List.length
         (filter (has_level ERROR)
            (List.flat_map (fun c => collector_log E c (region st) (available E st))
               collectors))
       = List.length
           (filter (fun c => negb (no_exn (collector_raised E c (available E st))))
              collectors).
Proof.
  intros E st.
  split; [exact (run_inventory_log E st (available E st) (fun s => eq_refl))|].
  split.
  - unfold collectors. cbn [List.flat_map]. rewrite !filter_app, !collector_log_infos.
    reflexivity.
  - induction collectors as [|c cs IH]; [reflexivity|].
    cbn [List.flat_map filter]. rewrite filter_app, length_app, IH, collector_log_errors.
    destruct (no_exn (collector_raised E c (available E st))); reflexivity.
Qed.

(** ** Collectors that cannot skip a resource *)

Lemma successes_total {A : Type} (process : A -> result (string * pydict))
    (warning : A -> exn -> string) (items : list A) :
  (forall item, is_ok (process item) = true) ->
  Forall2 (fun item kr => process item = Ok kr) items (successes process items)
  /\ warnings process warning items = [].
Proof.
  intros Hok. unfold successes, warnings.
  induction items as [|item items [IH1 IH2]]; cbn [List.flat_map].
  - split; [constructor | reflexivity].
  - specialize (Hok item). destruct (process item) as [kr|e] eqn:Hp; [|discriminate Hok].
    cbn [app]. split; [constructor; [exact Hp | exact IH1] | exact IH2].
Qed.

Lemma page_successes_total {A : Type} (process : A -> result (string * pydict))
    (warning : A -> exn -> string) (ps : list (list A)) :
  (forall item, is_ok (process item) = true) ->
  Forall2 (fun item kr => process item = Ok kr) (List.concat ps)
    (List.flat_map (successes process) ps)
  /\ List.flat_map (warnings process warning) ps = [].
Proof.
  intros Hok.
  induction ps as [|page ps [IH1 IH2]]; cbn [List.concat List.flat_map].
  - split; [constructor | reflexivity].
  - destruct (successes_total process warning page Hok) as [H1 H2].
    rewrite H2, IH2. split; [now apply Forall2_app | reflexivity].
Qed.

Lemma flat_map_cons_eq {A B : Type} (f : A -> list B) (a : A) (l : list A) :
  List.flat_map f (a :: l) = f a ++ List.flat_map f l.
Proof. reflexivity. Qed.

Lemma nested_successes_total {A : Type} (process : A -> result (string * pydict))
    (warning : A -> exn -> string) (pss : list (list (list A))) :
  (forall item, is_ok (process item) = true) ->
  Forall2 (fun item kr => process item = Ok kr) (List.concat (List.concat pss))
    (List.flat_map (List.flat_map (successes process)) pss)
  /\ List.flat_map (List.flat_map (warnings process warning)) pss = [].
Proof.
  intros Hok.
  induction pss as [|ps pss [IH1 IH2]].
  - split; [constructor | reflexivity].
  - destruct (page_successes_total process warning ps Hok) as [H1 H2].
    rewrite !flat_map_cons_eq, concat_cons, concat_app, H2, IH2.
    split; [now apply Forall2_app | reflexivity].
Qed.

Lemma ec2_process_total (rgn : string) (instance : ec2_instance) :
  is_ok (ec2_process rgn instance) = true.
Proof.
  unfold ec2_process. now rewrite extract_app_name_tag_pairs.
Qed.

Lemma ec2_process_owner (rgn : string) (instance : ec2_instance) (k : string)
    (r : pydict) :
  ec2_process rgn instance = Ok (k, r) ->
  k = owner_of (tags_or_empty (ec2_Tags instance)).
Proof.
  unfold ec2_process. rewrite extract_app_name_tag_pairs. cbn [bind].
  intros H. now injection H as <- _.
Qed.

Lemma http_api_process_total (rgn : string) (api : http_api) :
  is_ok (http_api_process rgn api) = true.
Proof.
  unfold http_api_process, flat_tags. now rewrite extract_app_name_flat.
Qed.

Lemma http_api_process_owner (rgn : string) (api : http_api) (k : string) (r : pydict) :
  http_api_process rgn api = Ok (k, r) -> k = "untagged".
Proof.
  unfold http_api_process, flat_tags. rewrite extract_app_name_flat. cbn [bind].
  intros H. now injection H as <- _.
Qed.

Lemma Forall2_weaken {A B : Type} (P Q : A -> B -> Prop) (l : list A) (l' : list B) :
  (forall a b, P a b -> Q a b) -> Forall2 P l l' -> Forall2 Q l l'.
Proof. intros H HF. induction HF; constructor; auto. Qed.

(** X12. The EC2 collector never skips an instance: when its client is
    there, it appends one record per instance listed, in the order listed,
    named by the instance id and filed under the owner resolved from the
    tags that came with the instance, and it logs no warning. *)
Theorem X12_ec2_records_every_instance :
  forall (E : aws_env) (st : state),
    available E st "ec2" = true ->
    exists recs,
      inventory (inventory_ec2_instances E st) = extend (inventory st) recs
      /\ Forall2
           (fun instance kr =>
              fst kr = owner_of (tags_or_empty (ec2_Tags instance))
              /\ text_field (snd kr) "name" = Some (ec2_InstanceId instance)
              /\ has_service ["EC2"] (snd kr) = true)
           (List.concat (List.concat (pages (describe_instances E)))) recs
      /\ logged (inventory_ec2_instances E st)
         = logged st
             ++ (INFO, "Inventorying EC2 instances...")
             :: match failure (describe_instances E) with
                | None => []
                | Some e => [(ERROR, ("Error inventorying EC2 instances: "
                                        ++ exn_str e)%string)]
                end.
Proof.
  intros E st Hav.
  destruct (collector_spec E EC2 st (available E st) (fun s => eq_refl)) as [Hi _].
  pose proof (collector_log_spec E EC2 st (available E st) (fun s => eq_refl)) as Hl.
  cbn [run_collector collector_records] in Hi, Hl. rewrite Hav in Hi.
  unfold collector_log in Hl.
  cbn [collector_warnings collector_raised collector_intro collector_what] in Hl.
  unfold client_failure in Hl. rewrite Hav in Hl. cbn [or_else] in Hl.
  pose proof (nested_successes_total (ec2_process (region st)) ec2_warning
                (pages (describe_instances E)) (ec2_process_total (region st))) as Hall.
  destruct Hall as [Hrecs Hwarn]. rewrite Hwarn in Hl.
  eexists. split; [exact Hi|]. split; [|exact Hl].
  eapply Forall2_weaken; [|exact Hrecs].
  intros instance [k r] Hp. cbn [fst snd].
  split; [exact (ec2_process_owner _ _ Hp)|].
  apply ec2_process_ok in Hp.
  split; [apply (text_fields_headed Hp)|].
  now rewrite (has_service_headed _ Hp).
Qed.

Lemma X12_sample_witness :
  exists recs,
    inventory (inventory_ec2_instances sample_account (new_inventory "us-east-1"))
    = extend [] recs
    /\ Forall2
         (fun instance kr =>
            fst kr = owner_of (tags_or_empty (ec2_Tags instance))
            /\ text_field (snd kr) "name" = Some (ec2_InstanceId instance)
            /\ has_service ["EC2"] (snd kr) = true)
         [web_instance] recs.
Proof.
  destruct (@X12_ec2_records_every_instance sample_account (new_inventory "us-east-1")
              eq_refl) as (recs & Hi & Hrecs & _).
  exists recs. split; [exact Hi | exact Hrecs].
Defined.

(** X13. The API Gateway collector works in two stages. The records of the
    REST APIs come first. The HTTP APIs are listed only when the REST
    listing ended without an exception and a client for [apigatewayv2] can
    be had; then every HTTP API listed gets one record, in the order
    listed and always under [untagged]; otherwise none is recorded and the
    REST records stay. *)
Theorem X13_api_gateway_two_stages :
  forall (E : aws_env) (st : state),
    available E st "apigateway" = true ->
    exists rest_recs http_recs,
      inventory (inventory_apigateway_apis E st)
      = extend (inventory st) (rest_recs ++ http_recs)
      /\ (forall kr, In kr rest_recs -> has_service ["API Gateway"] (snd kr) = true)
      /\ (no_exn (failure (get_rest_apis E)) && available E st "apigatewayv2" = true ->
          Forall2
            (fun api kr =>
               fst kr = "untagged"
               /\ text_field (snd kr) "name" = Some (http_Name api)
               /\ has_service ["API Gateway v2"] (snd kr) = true)
            (List.concat (pages (get_apis E))) http_recs)
      /\ (no_exn (failure (get_rest_apis E)) && available E st "apigatewayv2" = false ->
          http_recs = []).
Proof.
  intros E st Hav.
  destruct (collector_spec E APIGateway st (available E st) (fun s => eq_refl))
    as [Hi _].
  cbn [run_collector collector_records] in Hi. rewrite Hav in Hi.
  eexists _, _. split; [exact Hi|]. split; [|split].
  - intros [k r] Hin. cbn [snd].
    apply in_page_successes in Hin as (page & api & _ & _ & Hp).
    apply rest_api_process_ok in Hp. now rewrite (has_service_headed _ Hp).
  - intros ->.
    destruct (page_successes_total (http_api_process (region st)) http_api_warning
                (pages (get_apis E)) (http_api_process_total (region st))) as [H _].
    eapply Forall2_weaken; [|exact H].
    intros api [k r] Hp. cbn [fst snd].
    split; [exact (http_api_process_owner _ _ Hp)|].
    apply http_api_process_ok in Hp.
    split; [apply (text_fields_headed Hp)|].
    now rewrite (has_service_headed _ Hp).
  - intros ->. reflexivity.
Qed.

Lemma X13_sample_witness :
  exists rest_recs http_recs,
    inventory (inventory_apigateway_apis sample_account (new_inventory "us-east-1"))
    = extend [] (rest_recs ++ http_recs)
    /\ Forall2
         (fun api kr =>
            fst kr = "untagged"
            /\ text_field (snd kr) "name" = Some (http_Name api)
            /\ has_service ["API Gateway v2"] (snd kr) = true)
         [order_http_api] http_recs.
Proof.
  destruct (@X13_api_gateway_two_stages sample_account (new_inventory "us-east-1")
              eq_refl) as (rest_recs & http_recs & Hi & _ & Hhttp & _).
  exists rest_recs, http_recs. split; [exact Hi | exact (Hhttp eq_refl)].
Defined.

(** ** Secondary fetches of the other collectors *)

Lemma collector_warning_logged (E : aws_env) (c : collector) (st : state)
    (line : level * string) :
  In line (collector_warnings E c (region st) (available E st)) ->
  In line (logged (run_collector E c st)).
Proof.
  intros H. rewrite (collector_log_spec E c st (available E st) (fun s => eq_refl)).
  unfold collector_log. apply in_or_app. right. right. apply in_or_app. now left.
Qed.

Lemma page_warnings_in {A : Type} (process : A -> result (string * pydict))
    (warning : A -> exn -> string) (ps : list (list A)) (page : list A) (item : A)
    (e : exn) :
  In page ps -> In item page -> process item = Raise e ->
  In (WARNING, warning item e) (List.flat_map (warnings process warning) ps).
Proof.
  intros Hp Hi He. apply in_flat_map. exists page. split; [exact Hp|].
  now apply warnings_in.
Qed.

Lemma dynamodb_process_fetched (E : aws_env) (table_name : string)
    (table : table_description) (tags : option tag_list) :
  describe_table E table_name = Ok table ->
  list_tags_of_resource E (tbl_TableArn table) = Ok tags ->
  exists r,
    dynamodb_process E table_name = Ok (owner_of (tags_or_empty tags), r)
    /\ dict_lookup r "status"
       = Some (PStr match tbl_TableStatus table with Some s => s | None => "Unknown" end)
    /\ dict_lookup r "item_count"
       = Some (PInt match tbl_ItemCount table with Some n => n | None => 0%Z end)
    /\ dict_lookup r "table_size_bytes"
       = Some (PInt match tbl_TableSizeBytes table with Some n => n | None => 0%Z end).
Proof.
  intros Hd Ht. unfold dynamodb_process. rewrite Hd. cbn [bind]. rewrite Ht. cbn [bind].
  rewrite extract_app_name_tag_pairs. cbn [bind].
  eexists. split; [reflexivity|]. repeat split.
Qed.

Lemma dynamodb_process_fails (E : aws_env) (table_name : string) (e : exn) :
  describe_table E table_name = Raise e
  \/ (exists table, describe_table E table_name = Ok table
                    /\ list_tags_of_resource E (tbl_TableArn table) = Raise e) ->
  dynamodb_process E table_name = Raise e.
Proof.
  unfold dynamodb_process. intros [H|(table & Hd & Ht)].
  - now rewrite H.
  - rewrite Hd. cbn [bind]. now rewrite Ht.
Qed.

(** X14. The DynamoDB collector makes two fetches per listed table, its
    description and then its tags. When both succeed the table gets its
    record, under the owner resolved from its tags, with status
    ['Unknown'], item count 0 and size 0 where the description lacks them.
    When either fails the table is left out with a warning that carries the
    exception, and no record named after it is added. *)
Theorem X14_dynamodb_needs_both_fetches :
  forall (E : aws_env) (st : state) (page : list string) (table_name : string),
    available E st "dynamodb" = true ->
    In page (pages (list_tables E)) ->
    In table_name page ->
    (forall table tags,
        describe_table E table_name = Ok table ->
        list_tags_of_resource E (tbl_TableArn table) = Ok tags ->
        exists r,
          In r (owner_bucket (inventory (inventory_dynamodb_tables E st))
                  (owner_of (tags_or_empty tags)))
          /\ headed "DynamoDB" "Table" table_name (tbl_TableArn table)
               (owner_of (tags_or_empty tags)) r
          /\ dict_lookup r "status"
             = Some (PStr match tbl_TableStatus table with
                          | Some s => s
                          | None => "Unknown"
                          end)
          /\ dict_lookup r "item_count"
             = Some (PInt match tbl_ItemCount table with Some n => n | None => 0%Z end)
          /\ dict_lookup r "table_size_bytes"
             = Some (PInt match tbl_TableSizeBytes table with
                          | Some n => n
                          | None => 0%Z
                          end))
    /\ (forall e,
          describe_table E table_name = Raise e
          \/ (exists table, describe_table E table_name = Ok table
                            /\ list_tags_of_resource E (tbl_TableArn table) = Raise e) ->
          In (WARNING, dynamodb_warning table_name e)
             (logged (inventory_dynamodb_tables E st))
          /\ (forall r,
                In r (all_records (inventory (inventory_dynamodb_tables E st))) ->
                has_service ["DynamoDB"] r = true ->
                text_field r "name" = Some table_name ->
                In r (all_records (inventory st)))).
Proof.
  intros E st page table_name Hav Hpage Hin.
  split.
  - intros table tags Hd Ht.
    destruct (dynamodb_process_fetched E table_name Hd Ht) as (r & Hp & Hs & Hc & Hb).
    exists r. split; [|split; [|repeat split; assumption]].
    + apply (collector_record_in_bucket E DynamoDB).
      cbn [collector_records]. rewrite Hav.
      apply in_page_successes. exists page, table_name. auto.
    + destruct (dynamodb_process_ok E table_name Hp) as (table' & Hd' & Hh).
      rewrite Hd in Hd'. injection Hd' as <-. exact Hh.
  - intros e Hfail. apply dynamodb_process_fails in Hfail. split.
    + apply (collector_warning_logged E DynamoDB).
      cbn [collector_warnings]. rewrite Hav.
      now apply (page_warnings_in (dynamodb_process E) dynamodb_warning _ page).
    + intros r Hr _ Hname.
      apply (collector_new_record E DynamoDB) in Hr as [Hr|[k Hr]]; [exact Hr|].
      exfalso. apply collector_records_origin in Hr as (page' & t' & _ & _ & Hp).
      destruct (dynamodb_process_ok E t' Hp) as (table' & _ & Hh).
      destruct (text_fields_headed Hh) as (_ & _ & Hn & _).
      rewrite Hn in Hname. injection Hname as ->.
      rewrite Hfail in Hp. discriminate Hp.
Qed.

Lemma X14_carts_witness :
  exists r,
    In r (owner_bucket
            (inventory (inventory_dynamodb_tables sample_account
                          (new_inventory "us-east-1")))
            "checkout")
    /\ headed "DynamoDB" "Table" "carts"
         "arn:aws:dynamodb:us-east-1:123456789012:table/carts" "checkout" r.
Proof.
  destruct (proj1 (@X14_dynamodb_needs_both_fetches sample_account
                     (new_inventory "us-east-1") ["carts"] "carts" eq_refl
                     (or_introl eq_refl) (or_introl eq_refl))
              carts_table (Some [("Application", "Checkout")]) eq_refl eq_refl)
    as (r & Hin & Hh & _).
  exists r. split; [exact Hin | exact Hh].
Defined.

Lemma s3_process_fetched (E : aws_env) (b : bucket) (tags : tag_list) :
  s3_bucket_tags E (bkt_Name b) = Ok tags ->
  exists r,
    s3_process E b = Ok (owner_of tags, r)
    /\ dict_lookup r "region" = Some (PStr (s3_bucket_location E (bkt_Name b)))
    /\ dict_lookup r "creation_date" = Some (PStr (isoformat (bkt_CreationDate b))).
Proof.
  intros Ht. unfold s3_process. rewrite Ht. cbn [bind].
  rewrite extract_app_name_tag_pairs. cbn [bind].
  eexists. split; [reflexivity|]. split; reflexivity.
Qed.

(** X15. A bucket whose tags could be read is recorded whatever the
    location request does: when that request raises, the record's
    ['region'] is ['Unknown']; when the answer has no location constraint,
    or [None], it is ['us-east-1']; otherwise it is the constraint. *)
Theorem X15_bucket_location_never_skips :
  forall (E : aws_env) (st : state) (buckets : list bucket) (b : bucket)
         (tags : tag_list),
    available E st "s3" = true ->
    list_buckets E = Ok buckets ->
    In b buckets ->
    s3_bucket_tags E (bkt_Name b) = Ok tags ->
    exists r location,
      In r (owner_bucket (inventory (inventory_s3_buckets E st)) (owner_of tags))
      /\ headed "S3" "Bucket" (bkt_Name b) ("arn:aws:s3:::" ++ bkt_Name b)
           (owner_of tags) r
      /\ dict_lookup r "region" = Some (PStr location)
      /\ dict_lookup r "creation_date" = Some (PStr (isoformat (bkt_CreationDate b)))
      /\ (forall e, get_bucket_location E (bkt_Name b) = Raise e -> location = "Unknown")
      /\ (get_bucket_location E (bkt_Name b) = Ok None -> location = "us-east-1")
      /\ (get_bucket_location E (bkt_Name b) = Ok (Some None) -> location = "us-east-1")
      /\ (forall l, get_bucket_location E (bkt_Name b) = Ok (Some (Some l)) ->
                    location = l).
Proof.
  intros E st buckets b tags Hav Hlist Hb Ht.
  destruct (s3_process_fetched E b Ht) as (r & Hp & Hregion & Hdate).
  exists r, (s3_bucket_location E (bkt_Name b)).
  split; [|split; [|split; [exact Hregion | split; [exact Hdate|]]]].
  - apply (collector_record_in_bucket E S3).
    cbn [collector_records]. rewrite Hav, Hlist.
    apply in_successes. exists b. auto.
  - apply (s3_process_ok E b Hp).
  - unfold s3_bucket_location.
    repeat split; intros; match goal with H : get_bucket_location _ _ = _ |- _ =>
                                            now rewrite H end.
Qed.

Lemma X15_assets_witness :
  exists r location,
    In r (owner_bucket
            (inventory (inventory_s3_buckets sample_account (new_inventory "us-east-1")))
            "untagged")
    /\ dict_lookup r "region" = Some (PStr location)
    /\ location = "us-east-1".
Proof.
  destruct (@X15_bucket_location_never_skips sample_account (new_inventory "us-east-1")
              [assets_bucket; private_bucket] assets_bucket [] eq_refl eq_refl
              (or_introl eq_refl) eq_refl)
    as (r & location & Hin & _ & Hregion & _ & _ & _ & Hnone & _).
  exists r, location. split; [exact Hin | split; [exact Hregion | exact (Hnone eq_refl)]].
Defined.

Lemma rds_cluster_process_fetched (E : aws_env) (cluster : db_cluster)
    (tags : option tag_list) :
  list_tags_for_resource E (dbc_DBClusterArn cluster) = Ok tags ->
  exists r, rds_cluster_process E cluster = Ok (owner_of (tags_or_empty tags), r).
Proof.
  intros Ht. unfold rds_cluster_process. rewrite Ht. cbn [bind].
  rewrite extract_app_name_tag_pairs. cbn [bind]. eexists; reflexivity.
Qed.

(** X16. The RDS collector lists the DB instances, then the DB clusters,
    in one [try]. The instance records come first. When the instance
    listing ends with an exception the clusters are never listed and no
    cluster record is added; otherwise every listed cluster whose tags can
    be fetched gets a record of type [DB Cluster]. *)
Theorem X16_rds_instances_then_clusters :
  forall (E : aws_env) (st : state),
    available E st "rds" = true ->
    exists instance_recs cluster_recs,
      inventory (inventory_rds_instances E st)
      = extend (inventory st) (instance_recs ++ cluster_recs)
      /\ (forall kr, In kr instance_recs ->
                     text_field (snd kr) "resource_type" = Some "DB Instance"
                     /\ has_service ["RDS"] (snd kr) = true)
      /\ (forall kr, In kr cluster_recs ->
                     text_field (snd kr) "resource_type" = Some "DB Cluster"
                     /\ has_service ["RDS"] (snd kr) = true)
      /\ (forall e, failure (describe_db_instances E) = Some e -> cluster_recs = [])
      /\ (failure (describe_db_instances E) = None ->
          forall page cluster tags,
            In page (pages (describe_db_clusters E)) -> In cluster page ->
            list_tags_for_resource E (dbc_DBClusterArn cluster) = Ok tags ->
            exists r,
              In (owner_of (tags_or_empty tags), r) cluster_recs
              /\ headed "RDS" "DB Cluster" (dbc_DBClusterIdentifier cluster)
                   (dbc_DBClusterArn cluster) (owner_of (tags_or_empty tags)) r).
Proof.
  intros E st Hav.
  destruct (collector_spec E RDS st (available E st) (fun s => eq_refl)) as [Hi _].
  cbn [run_collector collector_records] in Hi. rewrite Hav in Hi.
  eexists _, _. split; [exact Hi|]. split; [|split; [|split]].
  - intros [k r] Hin. cbn [snd].
    apply in_page_successes in Hin as (page & db & _ & _ & Hp).
    apply rds_instance_process_ok in Hp.
    split; [apply (text_fields_headed Hp) | now rewrite (has_service_headed _ Hp)].
  - intros [k r] Hin. cbn [snd].
    destruct (no_exn (failure (describe_db_instances E))); [|contradiction].
    apply in_page_successes in Hin as (page & cluster & _ & _ & Hp).
    apply rds_cluster_process_ok in Hp.
    split; [apply (text_fields_headed Hp) | now rewrite (has_service_headed _ Hp)].
  - intros e ->. reflexivity.
  - intros -> page cluster tags Hpage Hin Ht. cbn [no_exn].
    destruct (rds_cluster_process_fetched E cluster Ht) as [r Hp].
    exists r. split.
    + apply in_page_successes. exists page, cluster. auto.
    + exact (rds_cluster_process_ok E cluster Hp).
Qed.

Lemma X16_sample_witness :
  exists instance_recs cluster_recs,
    inventory (inventory_rds_instances clusters_denied (new_inventory "us-east-1"))
    = extend [] (instance_recs ++ cluster_recs)
    /\ (forall kr, In kr instance_recs ->
                   text_field (snd kr) "resource_type" = Some "DB Instance"
                   /\ has_service ["RDS"] (snd kr) = true).
Proof.
  destruct (@X16_rds_instances_then_clusters clusters_denied (new_inventory "us-east-1")
              eq_refl) as (instance_recs & cluster_recs & Hi & Hinst & _).
  exists instance_recs, cluster_recs. split; [exact Hi | exact Hinst].
Defined.

(** ** The CSV rows on any inventory *)

Lemma result_map_is_ok {A B : Type} (f : A -> result B) (l : list A) :
  is_ok (result_map f l) = forallb (fun a => is_ok (f a)) l.
Proof.
  induction l as [|a l IH]; [reflexivity|].
  cbn [result_map forallb]. destruct (f a); cbn [bind is_ok andb]; [|reflexivity].
  rewrite <- IH. destruct (result_map f l); reflexivity.
Qed.

Lemma result_map_forall2 {A B : Type} (f : A -> result B) (l : list A) :
  forall bs, result_map f l = Ok bs -> Forall2 (fun a b => f a = Ok b) l bs.
Proof.
  induction l as [|a l IH]; cbn [result_map]; intros bs H.
  - injection H as <-. constructor.
  - destruct (f a) as [b|e] eqn:Hf; cbn [bind] in H; [|discriminate H].
    destruct (result_map f l) as [bs'|e]; cbn [bind] in H; [|discriminate H].
    injection H as <-. constructor; [exact Hf | now apply IH].
Qed.

Lemma csv_row_is_ok (json_dumps : pydict -> string) (k : string) (r : pydict) :
  is_ok (csv_row json_dumps k r) = has_columns r.
Proof.
  unfold csv_row, has_columns, dict_item. cbn [forallb].
  destruct (dict_lookup r "service"); cbn [bind andb is_ok]; [|reflexivity].
  destruct (dict_lookup r "resource_type"); cbn [bind andb is_ok]; [|reflexivity].
  destruct (dict_lookup r "name"); cbn [bind andb is_ok]; [|reflexivity].
  destruct (dict_lookup r "arn"); reflexivity.
Qed.

Lemma csv_row_shape (json_dumps : pydict -> string) (k : string) (r : pydict)
    (row : list pyval) :
  csv_row json_dumps k r = Ok row ->
  List.length row = 6
  /\ nth_error row 0 = Some (PStr k)
  /\ nth_error row 5 = Some (PStr (json_dumps (additional_info r))).
Proof.
  unfold csv_row. intros H.
  destruct (dict_item r "service"); cbn [bind] in H; [|discriminate H].
  destruct (dict_item r "resource_type"); cbn [bind] in H; [|discriminate H].
  destruct (dict_item r "name"); cbn [bind] in H; [|discriminate H].
  destruct (dict_item r "arn"); cbn [bind] in H; [|discriminate H].
  injection H as <-. repeat split.
Qed.

Lemma forallb_concat {A : Type} (p : A -> bool) (ls : list (list A)) :
  forallb p (List.concat ls) = forallb (forallb p) ls.
Proof.
  induction ls as [|l ls IH]; [reflexivity|].
  cbn [List.concat forallb]. now rewrite forallb_app, IH.
Qed.

Lemma forallb_pointwise {A : Type} (p q : A -> bool) (l : list A) :
  (forall a, p a = q a) -> forallb p l = forallb q l.
Proof.
  intros H. induction l as [|a l IH]; [reflexivity|].
  cbn [forallb]. now rewrite H, IH.
Qed.

Lemma forallb_map_snd {A B : Type} (p : B -> bool) (l : list (A * B)) :
  forallb p (map snd l) = forallb (fun kv => p (snd kv)) l.
Proof.
  induction l as [|a l IH]; [reflexivity|].
  cbn [map forallb]. now rewrite IH.
Qed.

Lemma csv_rows_is_ok (json_dumps : pydict -> string) (inv : Inventory) :
  is_ok (csv_rows json_dumps inv) = forallb has_columns (all_records inv).
Proof.
  unfold csv_rows, all_records. rewrite forallb_concat, forallb_map_snd.
  rewrite (forallb_pointwise
             (fun kv => forallb has_columns (snd kv))
             (fun kv => is_ok (result_map (csv_row json_dumps (fst kv)) (snd kv)))).
  - rewrite <- result_map_is_ok.
    destruct (result_map _ inv); reflexivity.
  - intros [k rs]. cbn [fst snd]. rewrite result_map_is_ok.
    apply forallb_pointwise. intros r. symmetry. apply csv_row_is_ok.
Qed.

(** X18. On any inventory, the CSV rows can be written exactly when every
    record has the entries ['service'], ['resource_type'], ['name'] and
    ['arn'] (a record without one of them raises [KeyError] and ends the
    report). When they can, there is one row more than there are records,
    the first row is the header, and every other row has six cells, the
    first of them the owner key the record is stored under. *)
Theorem X18_csv_rows_need_the_columns :
  forall (json_dumps : pydict -> string) (inv : Inventory),
    is_ok (csv_rows json_dumps inv) = forallb has_columns (all_records inv)
    /\ (forall rows,
          csv_rows json_dumps inv = Ok rows ->
          exists data,
            rows = csv_header :: data
            /\ List.length data = List.length (all_records inv)
            /\ Forall (fun row => List.length row = 6) data
            /\ map (fun row => nth_error row 0) data
               = List.flat_map (fun kv => map (fun _ => Some (PStr (fst kv))) (snd kv))
                   inv)
    /\ (forall k r, dict_lookup r "service" = None ->
                    csv_row json_dumps k r = Raise (PyError "KeyError" "service")).
Proof.
  intros json_dumps inv.
  split; [apply csv_rows_is_ok|]. split.
  - intros rows H. unfold csv_rows in H.
    destruct (result_map _ inv) as [per_owner|e] eqn:Hm; cbn [bind] in H;
      [|discriminate H].
    injection H as <-. exists (List.concat per_owner). split; [reflexivity|].
    apply result_map_forall2 in Hm. unfold all_records.
    induction Hm as [|[k rs] rows_k inv' per_owner' Hk Hrest IH];
      cbn [map snd List.concat List.flat_map fst].
    + repeat split. constructor.
    + destruct IH as (IH1 & IH2 & IH3).
      apply result_map_forall2 in Hk. cbn [fst snd] in Hk.
      assert (Hrow : List.length rows_k = List.length rs
                     /\ Forall (fun row => List.length row = 6) rows_k
                     /\ map (fun row => nth_error row 0) rows_k
                        = map (fun _ => Some (PStr k)) rs).
      { clear - Hk. induction Hk as [|r row rs rows_k Hr Hrest IH]; cbn [map List.length].
        - repeat split. constructor.
        - destruct IH as (IH1 & IH2 & IH3).
          destruct (csv_row_shape json_dumps k r Hr) as (H6 & H0 & _).
          rewrite IH1, IH3, H0. repeat split. constructor; assumption. }
      destruct Hrow as (H1 & H2 & H3).
      rewrite !length_app, map_app, IH1, IH3, H1, H3. repeat split.
      now apply Forall_app.
  - intros k r H. unfold csv_row, dict_item. now rewrite H.
Qed.

Lemma X18_missing_service_witness :
  csv_row json_dumps_stub "untagged" [("name", PStr "assets")]
  = Raise (PyError "KeyError" "service").
Proof.
  exact (proj2 (proj2 (X18_csv_rows_need_the_columns json_dumps_stub []))
           "untagged" [("name", PStr "assets")] eq_refl).
Defined.

(** ** The summary report *)

Lemma key_eqb_eq (a b : pykey) : key_eqb a b = true <-> a = b.
Proof.
  destruct a, b; cbn [key_eqb]; split; intros H; try discriminate H; try reflexivity.
  - apply Z.eqb_eq in H. now subst.
  - injection H as ->. apply Z.eqb_refl.
  - apply String.eqb_eq in H. now subst.
  - injection H as ->. apply String.eqb_refl.
Qed.

Lemma key_eqb_refl (a : pykey) : key_eqb a a = true.
Proof. now apply key_eqb_eq. Qed.

Lemma key_eqb_neq (a b : pykey) : key_eqb a b = false <-> a <> b.
Proof.
  split.
  - intros H Heq. apply key_eqb_eq in Heq. congruence.
  - intros H. destruct (key_eqb a b) eqn:Heq; [|reflexivity].
    apply key_eqb_eq in Heq. contradiction.
Qed.

Lemma count_up_keys (counts : list (pykey * nat)) (key : pykey) :
  (In key (map fst counts) /\ map fst (count_up counts key) = map fst counts)
  \/ (~ In key (map fst counts)
      /\ count_up counts key = counts ++ [(key, 1)]).
Proof.
  induction counts as [|[k n] counts IH]; cbn [count_up map fst In].
  - right. split; [tauto | reflexivity].
  - destruct (key_eqb k key) eqn:Hk.
    + apply key_eqb_eq in Hk. subst k. left. split; [now left | reflexivity].
    + apply key_eqb_neq in Hk. destruct IH as [[Hin Heq]|[Hnin Heq]].
      * left. split; [now right|]. cbn [map fst]. now rewrite Heq.
      * right. split; [intros [H|H]; contradiction|]. cbn [app]. now rewrite Heq.
Qed.

Lemma count_up_nodup (counts : list (pykey * nat)) (key : pykey) :
  NoDup (map fst counts) -> NoDup (map fst (count_up counts key)).
Proof.
  intros Hnd. destruct (count_up_keys counts key) as [[_ ->]|[Hnin ->]]; [exact Hnd|].
  rewrite map_app. cbn [map fst].
  apply NoDup_app; [exact Hnd | repeat constructor; intros [] |].
  intros x Hx [<-|[]]. contradiction.
Qed.

Lemma list_sum_cons (n : nat) (l : list nat) : list_sum (n :: l) = n + list_sum l.
Proof. reflexivity. Qed.

Lemma count_up_sum (counts : list (pykey * nat)) (key : pykey) :
  list_sum (map snd (count_up counts key)) = S (list_sum (map snd counts)).
Proof.
  induction counts as [|[k n] counts IH]; cbn [count_up map snd].
  - reflexivity.
  - destruct (key_eqb k key); cbn [map snd]; rewrite !list_sum_cons; [lia|].
    rewrite IH. lia.
Qed.

Lemma count_up_other (counts : list (pykey * nat)) (key k : pykey) (n : nat) :
  k <> key -> (In (k, n) (count_up counts key) <-> In (k, n) counts).
Proof.
  intros Hk. induction counts as [|[k0 n0] counts IH]; cbn [count_up In].
  - split; [intros [H|[]]; congruence | tauto].
  - destruct (key_eqb k0 key) eqn:Hk0; cbn [In].
    + apply key_eqb_eq in Hk0. subst k0. split; intros [H|H]; auto; congruence.
    + rewrite IH. tauto.
Qed.

Lemma count_up_same (counts : list (pykey * nat)) (key : pykey) (n : nat) :
  NoDup (map fst counts) ->
  In (key, n) (count_up counts key)
  <-> (exists m, In (key, m) counts /\ n = S m)
      \/ (~ In key (map fst counts) /\ n = 1).
Proof.
  intros Hnd.
  induction counts as [|[k0 n0] counts IH]; cbn [count_up In map fst].
  - split.
    + intros [H|[]]. injection H as <-. right. split; [tauto | reflexivity].
    + intros [(m & Hf & _)|[_ ->]]; [contradiction | now left].
  - cbn [map fst] in Hnd. inversion Hnd as [|x l Hx Hl]; subst.
    destruct (key_eqb k0 key) eqn:Hk0; cbn [In].
    + apply key_eqb_eq in Hk0. subst k0. split.
      * intros [H|H].
        -- injection H as <-. left. exists n0. split; [now left | reflexivity].
        -- exfalso. apply Hx. apply in_map_iff. exists (key, n). auto.
      * intros [[m [[H|H] ->]]|[H _]].
        -- injection H as <-. now left.
        -- exfalso. apply Hx. apply in_map_iff. exists (key, m). auto.
        -- exfalso. apply H. now left.
    + apply key_eqb_neq in Hk0. rewrite (IH Hl). split.
      * intros [Heq|[[m [H ->]]|[H ->]]].
        -- congruence.
        -- left. exists m. split; [now right | reflexivity].
        -- right. split; [|reflexivity]. intros [Heq|Hin]; [congruence | contradiction].
      * intros [[m [[H|H] ->]]|[H ->]].
        -- congruence.
        -- right. left. exists m. auto.
        -- right. right. split; [|reflexivity]. intros Hin. apply H. now right.
Qed.

Lemma filter_length_snoc {A : Type} (p : A -> bool) (l : list A) (a : A) :
  List.length (filter p (l ++ [a]))
  = List.length (filter p l) + (if p a then 1 else 0).
Proof.
  rewrite filter_app, length_app. cbn [filter]. destruct (p a); reflexivity.
Qed.

Lemma counted_step (counts : list (pykey * nat)) (seen : list pydict) (r : pydict)
    (key : pykey) :
  counted counts seen -> service_key r = Ok key ->
  counted (count_up counts key) (seen ++ [r]).
Proof.
  intros (Hnd & Hsum & Hcount & Hcover) Hkey.
  assert (Hr : forall k, has_service_key k r = key_eqb key k).
  { intros k. unfold has_service_key. now rewrite Hkey. }
  split; [now apply count_up_nodup|].
  split; [rewrite count_up_sum, Hsum, length_app; cbn [List.length]; lia|].
  split.
  - intros k n Hin. rewrite filter_length_snoc, Hr.
    destruct (key_eqb key k) eqn:Hk.
    + apply key_eqb_eq in Hk. subst k.
      apply (@count_up_same counts key n Hnd) in Hin as [[m [Hm ->]]|[Hnin ->]].
      * destruct (Hcount key m Hm) as [-> _]. lia.
      * rewrite filter_none; [cbn [List.length]; lia|].
        intros r' Hr'. destruct (has_service_key key r') eqn:Hs; [|reflexivity].
        exfalso. apply Hnin.
        destruct (Hcover r' Hr') as (k' & n' & Hk' & Hin').
        unfold has_service_key in Hs. rewrite Hk' in Hs.
        apply key_eqb_eq in Hs. subst k'.
        apply in_map_iff. exists (key, n'). auto.
    + apply key_eqb_neq in Hk.
      apply count_up_other in Hin; [|congruence].
      destruct (Hcount k n Hin) as [-> Hpos]. lia.
  - intros r' Hr'. apply in_app_or in Hr' as [Hr'|[<-|[]]].
    + destruct (Hcover r' Hr') as (k' & n' & Hk' & Hin').
      exists k'. destruct (key_eqb k' key) eqn:Hk.
      * apply key_eqb_eq in Hk. subst k'. exists (S n'). split; [exact Hk'|].
        apply (@count_up_same counts key (S n') Hnd). left. now exists n'.
      * apply key_eqb_neq in Hk. exists n'. split; [exact Hk'|].
        now apply count_up_other.
    + exists key. destruct (count_up_keys counts key) as [[Hin _]|[Hnin _]].
      * apply in_map_iff in Hin as [[k m] [Heq Hin]]. cbn [fst] in Heq. subst k.
        exists (S m). split; [exact Hkey|].
        apply (@count_up_same counts key (S m) Hnd). left. now exists m.
      * exists 1. split; [exact Hkey|].
        apply (@count_up_same counts key 1 Hnd). right. now split.
Qed.

Lemma count_services_counted (rest : list pydict) :
  forall counts seen result,
    counted counts seen ->
    count_services rest counts = Ok result ->
    counted result (seen ++ rest).
Proof.
  induction rest as [|r rest IH]; intros counts seen result Hc H; cbn [count_services] in H.
  - injection H as <-. now rewrite app_nil_r.
  - destruct (service_key r) as [key|e] eqn:Hkey; cbn [bind] in H; [|discriminate H].
    change (seen ++ r :: rest) with (seen ++ [r] ++ rest). rewrite app_assoc.
    apply (IH (count_up counts key)); [|exact H]. now apply counted_step.
Qed.

Lemma count_services_is_ok (resources : list pydict) :
  forall counts,
    is_ok (count_services resources counts)
    = forallb (fun r => is_ok (service_key r)) resources.
Proof.
  induction resources as [|r rest IH]; intros counts; [reflexivity|].
  cbn [count_services forallb].
  destruct (service_key r); cbn [bind is_ok andb]; [apply IH | reflexivity].
Qed.

(** X19. What the summary counts for one owner: the services counted are
    all different, every record is counted once under its service, so the
    counts add up to the number of records and none is zero; the count of
    a service is the number of records that carry it. The counting raises
    exactly when some record has no ['service'] or one that cannot be a
    dict key. *)
Theorem X19_service_counts :
  forall (resources : list pydict),
    is_ok (count_services resources [])
    = forallb (fun r => is_ok (service_key r)) resources
    /\ forall counts,
         count_services resources [] = Ok counts ->
         NoDup (map fst counts)
         /\ list_sum (map snd counts) = List.length resources
         /\ (forall k n, In (k, n) counts ->
               n = List.length (filter (has_service_key k) resources) /\ 1 <= n)
         /\ (forall r, In r resources ->
               exists k n, service_key r = Ok k /\ In (k, n) counts).
Proof.
  intros resources. split; [apply count_services_is_ok|].
  intros counts H.
  apply (@count_services_counted resources [] [] counts); [|exact H].
  repeat split; try constructor; intros; contradiction.
Qed.

Lemma X19_two_services_witness :
  exists counts,
    count_services [[("service", PStr "S3")]; [("service", PStr "Lambda")];
                    [("service", PStr "S3")]] [] = Ok counts
    /\ list_sum (map snd counts) = 3.
Proof.
  destruct (count_services [[("service", PStr "S3")]; [("service", PStr "Lambda")];
                            [("service", PStr "S3")]] []) as [counts|e] eqn:H.
  - exists counts. split; [reflexivity|].
    exact (proj1 (proj2 (proj2 (X19_service_counts _) counts H))).
  - vm_compute in H. discriminate H.
Defined.

(** ** [sorted] *)

Lemma insert_by_perm {A : Type} (f : A -> A -> bool) (x : A) (l : list A) :
  Permutation (insert_by f x l) (x :: l).
Proof.
  induction l as [|y l IH]; cbn [insert_by]; [reflexivity|].
  destruct (f x y); [reflexivity|].
  rewrite IH. apply perm_swap.
Qed.

Lemma sort_by_perm {A : Type} (f : A -> A -> bool) (l : list A) :
  Permutation (sort_by f l) l.
Proof.
  induction l as [|x l IH]; cbn [sort_by]; [reflexivity|].
  rewrite insert_by_perm. now constructor.
Qed.

Lemma insert_sorted_ok {A : Type} (lt : A -> A -> result bool) (f : A -> A -> bool)
    (x : A) (l : list A) :
  (forall b, In b l -> lt x b = Ok (f x b)) ->
  insert_sorted lt x l = Ok (insert_by f x l).
Proof.
  induction l as [|y l IH]; intros H; cbn [insert_sorted insert_by]; [reflexivity|].
  rewrite (H y (or_introl eq_refl)). cbn [bind].
  destruct (f x y); [reflexivity|].
  rewrite IH by (intros b Hb; apply H; now right). reflexivity.
Qed.

Lemma py_sorted_ok {A : Type} (lt : A -> A -> result bool) (f : A -> A -> bool)
    (l : list A) :
  (forall a b, In a l -> In b l -> lt a b = Ok (f a b)) ->
  py_sorted lt l = Ok (sort_by f l).
Proof.
  induction l as [|x l IH]; intros H; cbn [py_sorted sort_by]; [reflexivity|].
  rewrite IH by (intros a b Ha Hb; apply H; now right). cbn [bind].
  apply insert_sorted_ok. intros b Hb. apply H; [now left|].
  right. now apply (Permutation_in _ (sort_by_perm f l)).
Qed.

Lemma ltb_lt (a b : string) : String.ltb a b = true <-> OrderedTypeEx.String_as_OT.lt a b.
Proof.
  rewrite <- OrderedTypeEx.String_as_OT.cmp_lt.
  unfold String.ltb, OrderedTypeEx.String_as_OT.cmp.
  destruct (String.compare a b); split; intros H; try discriminate H; reflexivity.
Qed.

Lemma ltb_trans (a b c : string) :
  String.ltb a b = true -> String.ltb b c = true -> String.ltb a c = true.
Proof.
  rewrite !ltb_lt. apply OrderedTypeEx.String_as_OT.lt_trans.
Qed.

Lemma ltb_other (a b : string) :
  String.ltb a b = false -> a <> b -> String.ltb b a = true.
Proof.
  unfold String.ltb. rewrite (String.compare_antisym b a).
  destruct (String.compare a b) eqn:Hc; cbn [CompOpp]; intros H Hne;
    try reflexivity; try discriminate H.
  apply String.compare_eq_iff in Hc. contradiction.
Qed.

Lemma insert_by_sorted {A : Type} (key : A -> string) (x : A) (l : list A) :
  StronglySorted (fun a b => String.ltb (key a) (key b) = true) l ->
  (forall b, In b l -> key b <> key x) ->
  StronglySorted (fun a b => String.ltb (key a) (key b) = true)
    (insert_by (fun a b => String.ltb (key a) (key b)) x l).
Proof.
  intros Hs Hne. induction Hs as [|y l Hs IH Hy]; cbn [insert_by].
  - repeat constructor.
  - destruct (String.ltb (key x) (key y)) eqn:Hxy.
    + constructor; [now constructor|].
      constructor; [exact Hxy|].
      rewrite Forall_forall in Hy |- *. intros z Hz.
      eapply ltb_trans; [exact Hxy | now apply Hy].
    + constructor.
      * apply IH. intros b Hb. apply Hne. now right.
      * rewrite Forall_forall in Hy |- *. intros z Hz.
        apply (Permutation_in _ (insert_by_perm _ x l)) in Hz as [<-|Hz].
        -- apply ltb_other; [exact Hxy|]. intros Heq. apply (Hne y); [now left|].
           now symmetry.
        -- now apply Hy.
Qed.

Lemma sort_by_sorted {A : Type} (key : A -> string) (l : list A) :
  NoDup (map key l) ->
  StronglySorted (fun a b => String.ltb (key a) (key b) = true)
    (sort_by (fun a b => String.ltb (key a) (key b)) l).
Proof.
  induction l as [|x l IH]; intros Hnd; cbn [sort_by]; [constructor|].
  cbn [map] in Hnd. inversion Hnd as [|k ks Hx Hl]; subst.
  apply insert_by_sorted; [now apply IH|].
  intros b Hb Heq. apply Hx. rewrite <- Heq. apply in_map.
  exact (Permutation_in b
           (sort_by_perm (fun a b => String.ltb (key a) (key b)) l) Hb).
Qed.

Lemma sorted_map {A : Type} (key : A -> string) (l : list A) :
  StronglySorted (fun a b => String.ltb (key a) (key b) = true) l ->
  ascending (map key l).
Proof.
  unfold ascending. intros H. induction H as [|x l Hs IH Hx]; cbn [map]; constructor.
  - exact IH.
  - rewrite Forall_forall in Hx |- *. intros k Hk.
    apply in_map_iff in Hk as [b [<- Hb]]. now apply Hx.
Qed.

Lemma list_sum_perm (l l' : list nat) : Permutation l l' -> list_sum l = list_sum l'.
Proof.
  intros H. induction H; rewrite ?list_sum_cons in *; lia.
Qed.

Lemma length_all_records (inv : Inventory) :
  list_sum (map (fun kv => List.length (snd kv)) inv) = List.length (all_records inv).
Proof.
  unfold all_records. induction inv as [|[k rs] inv IH]; [reflexivity|].
  cbn [map snd List.concat]. rewrite list_sum_cons, length_app, IH. reflexivity.
Qed.

(** ** The summary of an inventory of collector records *)

Lemma filed_service_key (k : string) (r : pydict) :
  filed_under k r -> exists service, service_key r = Ok (KStr service).
Proof. intros (service & t & n & a & rest & ->). now exists service. Qed.

Lemma result_map_exists {A B : Type} (f : A -> result B) (P : A -> B -> Prop)
    (l : list A) :
  (forall a, In a l -> exists b, f a = Ok b /\ P a b) ->
  exists bs, result_map f l = Ok bs /\ Forall2 P l bs.
Proof.
  induction l as [|a l IH]; intros H; cbn [result_map].
  - exists []. split; [reflexivity | constructor].
  - destruct (H a (or_introl eq_refl)) as (b & Hb & Hp).
    destruct IH as (bs & Hbs & Hf); [intros x Hx; apply H; now right|].
    exists (b :: bs). rewrite Hb. cbn [bind]. rewrite Hbs. cbn [bind].
    split; [reflexivity | now constructor].
Qed.

Lemma filter_nonempty {A : Type} (p : A -> bool) (l : list A) :
  1 <= List.length (filter p l) -> exists a, In a l /\ p a = true.
Proof.
  intros H. destruct (filter p l) as [|a l'] eqn:Hf; [cbn in H; lia|].
  exists a. apply filter_In. rewrite Hf. now left.
Qed.

Lemma counted_keys_are_strs (counts : list (pykey * nat)) (k : string)
    (rs : list pydict) :
  counted counts rs -> Forall (filed_under k) rs ->
  forall kn, In kn counts -> fst kn = KStr (key_name (fst kn)).
Proof.
  intros (_ & _ & Hcount & _) Hfiled [key n] Hin. cbn [fst].
  destruct (Hcount key n Hin) as [Hn Hpos]. rewrite Hn in Hpos.
  apply filter_nonempty in Hpos as (r & Hr & Hs).
  rewrite Forall_forall in Hfiled.
  destruct (filed_service_key (Hfiled r Hr)) as [service Hk].
  unfold has_service_key in Hs. rewrite Hk in Hs.
  apply key_eqb_eq in Hs. now subst key.
Qed.

Lemma map_key_name (l : list (pykey * nat)) :
  (forall kn, In kn l -> fst kn = KStr (key_name (fst kn))) ->
  map fst l = map KStr (map (fun kn => key_name (fst kn)) l).
Proof.
  intros H. induction l as [|kn l IH]; [reflexivity|].
  cbn [map]. rewrite <- IH by (intros x Hx; apply H; now right).
  now rewrite <- (H kn (or_introl eq_refl)).
Qed.

Lemma summarize_owner_filed (k : string) (rs : list pydict) :
  Forall (filed_under k) rs ->
  exists b,
    summarize_owner (k, rs) = Ok b
    /\ summary_owner b = k
    /\ summary_total b = List.length rs
    /\ list_sum (map snd (summary_counts b)) = List.length rs
    /\ exists names, map fst (summary_counts b) = map KStr names /\ ascending names.
Proof.
  intros Hfiled. unfold summarize_owner. cbn [fst snd].
  assert (Hok : is_ok (count_services rs []) = true).
  { rewrite count_services_is_ok. apply forallb_forall. intros r Hr.
    rewrite Forall_forall in Hfiled.
    destruct (filed_service_key (Hfiled r Hr)) as [service ->]. reflexivity. }
  destruct (count_services rs []) as [counts|e] eqn:Hc; [|discriminate Hok].
  cbn [bind].
  assert (Hcounted : counted counts ([] ++ rs)).
  { apply (@count_services_counted rs [] [] counts); [|exact Hc].
    repeat split; try constructor; intros; contradiction. }
  cbn [app] in Hcounted.
  pose proof (counted_keys_are_strs Hcounted Hfiled) as Hstr.
  set (f := fun a b : pykey * nat =>
              String.ltb (key_name (fst a)) (key_name (fst b))).
  assert (Hsort : py_sorted (fun a b => key_ltb (fst a) (fst b)) counts
                  = Ok (sort_by f counts)).
  { apply py_sorted_ok. intros a b Ha Hb.
    rewrite (Hstr a Ha), (Hstr b Hb). reflexivity. }
  rewrite Hsort. cbn [bind].
  eexists. split; [reflexivity|]. cbn [summary_owner summary_total summary_counts].
  split; [reflexivity | split; [reflexivity|]].
  pose proof (sort_by_perm f counts) as Hperm.
  destruct Hcounted as (Hnd & Hsum & _).
  split.
  - rewrite <- Hsum. apply list_sum_perm. now apply Permutation_map.
  - exists (map (fun kn => key_name (fst kn)) (sort_by f counts)). split.
    + apply map_key_name. intros kn Hkn. apply Hstr.
      now apply (Permutation_in _ Hperm).
    + apply (sorted_map (fun kn : pykey * nat => key_name (fst kn))).
      apply (sort_by_sorted (fun kn : pykey * nat => key_name (fst kn))).
      rewrite (map_key_name counts Hstr) in Hnd.
      now apply NoDup_map_inv in Hnd.
Qed.

Lemma summary_blocks_filed (inv : Inventory) :
  NoDup (map fst inv) ->
  inventory_filed inv ->
  exists blocks,
    summary_blocks inv = Ok blocks
    /\ Forall2
         (fun kv b =>
            summary_owner b = fst kv
            /\ summary_total b = List.length (snd kv)
            /\ list_sum (map snd (summary_counts b)) = List.length (snd kv)
            /\ exists names,
                 map fst (summary_counts b) = map KStr names /\ ascending names)
         (sort_by (fun a b => String.ltb (fst a) (fst b)) inv) blocks.
Proof.
  intros Hnd Hfiled. unfold summary_blocks.
  rewrite (py_sorted_ok (fun a b => Ok (String.ltb (fst a) (fst b)))
             (fun a b => String.ltb (fst a) (fst b)) inv)
    by reflexivity.
  cbn [bind]. apply result_map_exists. intros [k rs] Hin.
  apply (Permutation_in _ (sort_by_perm _ inv)) in Hin.
  unfold inventory_filed in Hfiled. rewrite Forall_forall in Hfiled.
  specialize (Hfiled _ Hin). cbn [fst snd] in *.
  destruct (summarize_owner_filed Hfiled) as (b & Hb & H1 & H2 & H3 & H4).
  exists b. auto.
Qed.

Lemma forall2_member {A B : Type} (P : A -> B -> Prop) (l : list A) (bs : list B)
    (b : B) :
  Forall2 P l bs -> In b bs -> exists a, In a l /\ P a b.
Proof.
  intros H. induction H as [|a b' l bs Hp _ IH]; intros Hin; [contradiction|].
  destruct Hin as [<-|Hin].
  - exists a. split; [now left | exact Hp].
  - destruct (IH Hin) as (a' & Ha & Hp'). exists a'. split; [now right | exact Hp'].
Qed.

(** X20. The summary of an inventory of collector records, one list per
    owner: the owners appear once each, in ascending order; for every
    owner the total is the number of its records, its service counts add
    up to that total and its services appear in ascending order; the
    overall total is the number of records in the inventory, and it is the
    number [main] prints on the console. *)
Theorem X20_summary_totals :
  forall inv : Inventory,
    NoDup (map fst inv) ->
    inventory_filed inv ->
    exists blocks,
      summary_blocks inv = Ok blocks
      /\ Permutation (map summary_owner blocks) (map fst inv)
      /\ ascending (map summary_owner blocks)
      /\ Forall
           (fun b =>
              summary_total b = List.length (owner_bucket inv (summary_owner b))
              /\ list_sum (map snd (summary_counts b)) = summary_total b
              /\ exists names,
                   map fst (summary_counts b) = map KStr names /\ ascending names)
           blocks
      /\ total_resources blocks = List.length (all_records inv)
      /\ summary_text inv
         = Ok ("AWS Resource Inventory Summary" ++ newline
               ++ repeat_string "=" 40 ++ newline ++ newline
               ++ String.concat "" (map render_block blocks)
               ++ "OVERALL TOTAL: " ++ nat_str (List.length (all_records inv))
               ++ " resources across " ++ nat_str (List.length inv) ++ " applications"
               ++ newline)%string
      /\ found_line inv
         = ("Found " ++ nat_str (List.length (all_records inv))
            ++ " resources across " ++ nat_str (List.length inv) ++ " applications")%string.
Proof.
  intros inv Hnd Hfiled.
  destruct (summary_blocks_filed Hnd Hfiled) as (blocks & Hb & Hf).
  set (f := fun a b : string * list pydict => String.ltb (fst a) (fst b)) in *.
  pose proof (sort_by_perm f inv) as Hperm.
  assert (Howners : map summary_owner blocks = map fst (sort_by f inv)).
  { clear - Hf. induction Hf as [|kv b l bs (H & _) _ IH]; [reflexivity|].
    cbn [map]. now rewrite H, IH. }
  assert (Htotals : map summary_total blocks
                    = map (fun kv => List.length (snd kv)) (sort_by f inv)).
  { clear - Hf. induction Hf as [|kv b l bs (_ & H & _) _ IH]; [reflexivity|].
    cbn [map]. now rewrite H, IH. }
  assert (Htotal : total_resources blocks = List.length (all_records inv)).
  { unfold total_resources. rewrite Htotals, <- length_all_records.
    apply list_sum_perm. now apply Permutation_map. }
  exists blocks. split; [exact Hb|].
  split; [rewrite Howners; now apply Permutation_map|].
  split; [rewrite Howners; apply (sorted_map fst); now apply (sort_by_sorted fst)|].
  split; [|split; [exact Htotal | split]].
  - apply Forall_forall. intros b Hin.
    destruct (@forall2_member _ _ _ _ _ b Hf Hin) as ([k rs] & Hkv & H1 & H2 & H3 & H4).
    cbn [fst snd] in *. apply (Permutation_in _ Hperm) in Hkv.
    rewrite H1. unfold owner_bucket. rewrite (lookup_in inv k rs Hnd Hkv).
    rewrite H2. auto.
  - unfold summary_text. rewrite Hb. cbn [bind]. now rewrite Htotal.
  - unfold found_line. now rewrite length_all_records.
Qed.

Lemma X20_sample_witness :
  exists blocks,
    summary_blocks (inventory (run_inventory sample_account (new_inventory "us-east-1")))
    = Ok blocks
    /\ total_resources blocks
       = List.length
           (all_records
              (inventory (run_inventory sample_account (new_inventory "us-east-1")))).
Proof.
  destruct (@X20_summary_totals
              (inventory (run_inventory sample_account (new_inventory "us-east-1")))
              (proj1 (run_inventory_ok sample_account "us-east-1"))
              (run_inventory_filed sample_account "us-east-1"))
    as (blocks & Hb & _ & _ & _ & Ht & _).
  exists blocks. split; [exact Hb | exact Ht].
Defined.

(** ** The list of owner-tag keys, and owners against stored tags *)

Lemma py_in_members (v : pyval) (keys keys' : list string) :
  (forall k, In k keys <-> In k keys') -> py_in v keys = py_in v keys'.
Proof.
  intros H. destruct v; try reflexivity. cbn [py_in].
  destruct (existsb (String.eqb s) keys) eqn:H1, (existsb (String.eqb s) keys') eqn:H2;
    try reflexivity; exfalso.
  - apply existsb_exists in H1 as [x [Hx Heq]]. apply String.eqb_eq in Heq. subst x.
    apply H in Hx. apply existsb_eqb_in in Hx. congruence.
  - apply existsb_exists in H2 as [x [Hx Heq]]. apply String.eqb_eq in Heq. subst x.
    apply H in Hx. apply existsb_eqb_in in Hx. congruence.
Qed.

Lemma scan_tags_members (keys keys' : list string) (tags : list pyval) :
  (forall k, In k keys <-> In k keys') -> scan_tags keys tags = scan_tags keys' tags.
Proof.
  intros H. induction tags as [|tag tags IH]; [reflexivity|].
  cbn [scan_tags]. destruct tag; try exact IH.
  rewrite (py_in_members _ keys keys' H), IH. reflexivity.
Qed.

Lemma scan_tags_no_keys (tags : list pyval) : scan_tags [] tags = Ok "untagged".
Proof.
  induction tags as [|tag tags IH]; [reflexivity|].
  cbn [scan_tags]. destruct tag; try exact IH.
  destruct (dict_get d "Key" (PStr "")); exact IH.
Qed.

(** X21. Only membership in the list of owner-tag keys matters to the
    resolver: two lists with the same members, in whatever order and with
    whatever repetitions, resolve every input alike, so which tag wins is
    decided by the order of the tags alone. With an empty list every tag
    sequence resolves to [untagged]. *)
Theorem X21_key_list_is_a_set :
  forall (keys keys' : list string) (tags : pyval),
    (forall k, In k keys <-> In k keys') ->
    extract_app_name_with keys tags = extract_app_name_with keys' tags
    /\ (forall entries, extract_app_name_with [] (PList entries) = Ok "untagged").
Proof.
  intros keys keys' tags H. split.
  - unfold extract_app_name_with. destruct (negb (truthy tags)); [reflexivity|].
    destruct (py_iter tags) as [items|e]; cbn [bind]; [|reflexivity].
    now apply scan_tags_members.
  - intros entries. unfold extract_app_name_with.
    destruct (negb (truthy (PList entries))); [reflexivity|].
    cbn [py_iter bind]. apply scan_tags_no_keys.
Qed.

Lemma X21_reordered_keys_witness :
  extract_app_name_with ["project"; "app"; "app"]
    (PList [tag_dict ("app", "Store Front"); tag_dict ("project", "Orders")])
  = extract_app_name_with ["app"; "project"]
      (PList [tag_dict ("app", "Store Front"); tag_dict ("project", "Orders")]).
Proof.
  refine (proj1 (@X21_key_list_is_a_set ["project"; "app"; "app"] ["app"; "project"]
                   (PList [tag_dict ("app", "Store Front");
                           tag_dict ("project", "Orders")]) _)).
  intros k. cbn [In]. tauto.
Defined.

Ltac stored_tags t := exists t; split; [reflexivity | split; reflexivity].

Lemma lambda_process_keeps_tags (E : aws_env) (func : lambda_function)
    (k : string) (r : pydict) :
  lambda_process E func = Ok (k, r) -> keeps_tags k r.
Proof.
  intros H. unfold lambda_process in H.
  destruct (list_tags E (lf_FunctionArn func)) as [tags|e]; [|discriminate H].
  cbn [bind] in H. rewrite extract_app_name_tag_pairs in H. cbn [bind] in H.
  injection H as <- <-. stored_tags (tags_or_empty tags).
Qed.

Lemma rds_instance_process_keeps_tags (E : aws_env) (db : db_instance)
    (k : string) (r : pydict) :
  rds_instance_process E db = Ok (k, r) -> keeps_tags k r.
Proof.
  intros H. unfold rds_instance_process in H.
  destruct (list_tags_for_resource E (dbi_DBInstanceArn db)) as [tags|e];
    [|discriminate H].
  cbn [bind] in H. rewrite extract_app_name_tag_pairs in H. cbn [bind] in H.
  injection H as <- <-. stored_tags (tags_or_empty tags).
Qed.

Lemma rds_cluster_process_keeps_tags (E : aws_env) (cluster : db_cluster)
    (k : string) (r : pydict) :
  rds_cluster_process E cluster = Ok (k, r) -> keeps_tags k r.
Proof.
  intros H. unfold rds_cluster_process in H.
  destruct (list_tags_for_resource E (dbc_DBClusterArn cluster)) as [tags|e];
    [|discriminate H].
  cbn [bind] in H. rewrite extract_app_name_tag_pairs in H. cbn [bind] in H.
  injection H as <- <-. stored_tags (tags_or_empty tags).
Qed.

Lemma dynamodb_process_keeps_tags (E : aws_env) (table_name : string)
    (k : string) (r : pydict) :
  dynamodb_process E table_name = Ok (k, r) -> keeps_tags k r.
Proof.
  intros H. unfold dynamodb_process in H.
  destruct (describe_table E table_name) as [table|e]; [|discriminate H].
  cbn [bind] in H.
  destruct (list_tags_of_resource E (tbl_TableArn table)) as [tags|e];
    [|discriminate H].
  cbn [bind] in H. rewrite extract_app_name_tag_pairs in H. cbn [bind] in H.
  injection H as <- <-. stored_tags (tags_or_empty tags).
Qed.

Lemma s3_process_keeps_tags (E : aws_env) (b : bucket) (k : string) (r : pydict) :
  s3_process E b = Ok (k, r) -> keeps_tags k r.
Proof.
  intros H. unfold s3_process in H.
  destruct (s3_bucket_tags E (bkt_Name b)) as [tags|e]; [|discriminate H].
  cbn [bind] in H. rewrite extract_app_name_tag_pairs in H. cbn [bind] in H.
  injection H as <- <-. stored_tags tags.
Qed.

Lemma ec2_process_keeps_tags (rgn : string) (instance : ec2_instance)
    (k : string) (r : pydict) :
  ec2_process rgn instance = Ok (k, r) -> keeps_tags k r.
Proof.
  intros H. unfold ec2_process in H.
  rewrite extract_app_name_tag_pairs in H. cbn [bind] in H.
  injection H as <- <-. stored_tags (tags_or_empty (ec2_Tags instance)).
Qed.

Lemma rest_api_process_keeps_tags (E : aws_env) (rgn : string) (api : rest_api)
    (k : string) (r : pydict) :
  rest_api_process E rgn api = Ok (k, r) -> keeps_tags k r.
Proof.
  intros H. unfold rest_api_process in H.
  destruct (get_tags E (rest_api_arn rgn api)) as [tags|e]; [|discriminate H].
  cbn [bind] in H. rewrite extract_app_name_tag_pairs in H. cbn [bind] in H.
  injection H as <- <-. stored_tags (tags_or_empty tags).
Qed.

Lemma http_api_process_service (rgn : string) (api : http_api)
    (k : string) (r : pydict) :
  http_api_process rgn api = Ok (k, r) ->
  has_service ["API Gateway v2"] r = true.
Proof.
  intros H. apply http_api_process_ok in H.
  rewrite (has_service_headed _ H). reflexivity.
Qed.

Lemma collector_records_tags (E : aws_env) (c : collector) (rgn : string)
    (avail : string -> bool) (k : string) (r : pydict) :
  In (k, r) (collector_records E c rgn avail) ->
  has_service ["API Gateway v2"] r = false ->
  keeps_tags k r.
Proof.
  intros H Hv2. apply collector_records_origin in H. destruct c.
  - destruct H as (page & func & _ & _ & H).
    exact (lambda_process_keeps_tags _ _ H).
  - destruct H as [(page & db & _ & _ & H)|(page & cluster & _ & _ & H)].
    + exact (rds_instance_process_keeps_tags _ _ H).
    + exact (rds_cluster_process_keeps_tags _ _ H).
  - destruct H as (page & table_name & _ & _ & H).
    exact (dynamodb_process_keeps_tags _ _ H).
  - destruct H as (buckets & b & _ & _ & H).
    exact (s3_process_keeps_tags _ _ H).
  - destruct H as (page & reservation & instance & _ & _ & _ & H).
    exact (ec2_process_keeps_tags _ _ H).
  - destruct H as [(page & api & _ & _ & H)|(page & api & _ & _ & H)].
    + exact (rest_api_process_keeps_tags _ _ _ H).
    + apply http_api_process_service in H. rewrite H in Hv2. discriminate Hv2.
Qed.

(** X22. Every record of a run other than those of the HTTP APIs is filed
    under the owner that its own stored tags resolve to: the ['tags'] entry
    of the record is a list of [{Key, Value}] pairs, and resolving it again
    gives the record's ['app_name']. *)
Theorem X22_owner_agrees_with_stored_tags :
  forall (E : aws_env) (rgn : string),
    Forall (fun r =>
              has_service ["API Gateway v2"] r = false ->
              exists tags owner,
                dict_lookup r "tags" = Some (PList (tag_pairs tags))
                /\ extract_app_name (PList (tag_pairs tags)) = Ok owner
                /\ text_field r "app_name" = Some owner)
           (all_records (inventory (run_inventory E (new_inventory rgn)))).
Proof.
  intros E rgn. apply Forall_forall.
  destruct (run_inventory_spec E (new_inventory rgn)
              (available E (new_inventory rgn)) (fun s => eq_refl)) as [Hi _].
  rewrite Hi. clear Hi. intros r Hr.
  apply all_records_extend in Hr as [Hr|Hr]; [contradiction|].
  apply in_map_iff in Hr as [[k r'] [Heq Hr]]. cbn [snd] in Heq. subst r'.
  unfold run_records in Hr. apply in_flat_map in Hr as [c [_ Hr]].
  intros Hv2.
  destruct (@collector_records_tags E c _ _ k r Hr Hv2) as (tags & Ht & Hk & Ha).
  exists tags, k. split; [exact Ht|].
  split; [rewrite Hk; apply extract_app_name_tag_pairs | exact Ha].
Qed.

(** In the sample account the function [checkout-fn] is recorded with its
    two tags, which resolve to [checkout], the owner it is filed under. *)
Lemma X22_sample_witness :
  exists r,
    In r (all_records (inventory (run_inventory sample_account
                                    (new_inventory "us-east-1"))))
    /\ text_field r "name" = Some "checkout-fn"
    /\ has_service ["API Gateway v2"] r = false
    /\ exists tags owner,
         dict_lookup r "tags" = Some (PList (tag_pairs tags))
         /\ extract_app_name (PList (tag_pairs tags)) = Ok owner
         /\ text_field r "app_name" = Some owner.
Proof.
  pose (r := hd [] (all_records (inventory (run_inventory sample_account
                                              (new_inventory "us-east-1"))))).
  assert (Hin : In r (all_records (inventory (run_inventory sample_account
                                                (new_inventory "us-east-1"))))).
  { vm_compute. left. reflexivity. }
  assert (Hs : has_service ["API Gateway v2"] r = false) by (vm_compute; reflexivity).
  exists r. split; [exact Hin|]. split; [vm_compute; reflexivity|].
  split; [exact Hs|].
  exact (proj1 (Forall_forall _ _)
           (X22_owner_agrees_with_stored_tags sample_account "us-east-1") r Hin Hs).
Defined.

(** ** Where the resolver raises *)







(** ** A resource whose secondary fetch fails, in any collector *)

Lemma raise_eq {A B : Type} (e e' : exn) :
  @Raise A e = Raise e' <-> @Raise B e = Raise e'.
Proof. split; intros H; injection H as ->; reflexivity. Qed.

Lemma process_raises_iff (E : aws_env) (rgn : string) (R : resource) (e : exn) :
  process_resource E rgn R = Raise e <-> fetch_fails E rgn R e.
Proof.
  destruct R; cbn [process_resource fetch_fails].
  - unfold lambda_process.
    destruct (list_tags E (lf_FunctionArn func)) as [tags|e0]; cbn [bind];
      [|apply raise_eq].
    rewrite extract_app_name_tag_pairs. cbn [bind]. split; discriminate.
  - unfold rds_instance_process.
    destruct (list_tags_for_resource E (dbi_DBInstanceArn db)) as [tags|e0];
      cbn [bind]; [|apply raise_eq].
    rewrite extract_app_name_tag_pairs. cbn [bind]. split; discriminate.
  - unfold rds_cluster_process.
    destruct (list_tags_for_resource E (dbc_DBClusterArn cluster)) as [tags|e0];
      cbn [bind]; [|apply raise_eq].
    rewrite extract_app_name_tag_pairs. cbn [bind]. split; discriminate.
  - unfold dynamodb_process.
    destruct (describe_table E table_name) as [table|e0]; cbn [bind].
    + destruct (list_tags_of_resource E (tbl_TableArn table)) as [tags|e1] eqn:Ht;
        cbn [bind].
      * rewrite extract_app_name_tag_pairs. cbn [bind].
        split; [discriminate|].
        intros [H|(table' & H & H')]; [discriminate H|].
        injection H as <-. rewrite Ht in H'. discriminate H'.
      * split.
        -- intros H. injection H as ->. right. exists table.
           split; [reflexivity | exact Ht].
        -- intros [H|(table' & H & H')]; [discriminate H|].
           injection H as <-. rewrite Ht in H'. injection H' as ->. reflexivity.
    + split; [intros H; injection H as ->; now left|].
      intros [H|(table & H & _)]; [injection H as ->; reflexivity | discriminate H].
  - unfold s3_process, s3_bucket_tags.
    destruct (get_bucket_tagging E (bkt_Name b)) as [tags|[code msg|cls msg]];
      cbn [bind].
    + rewrite extract_app_name_tag_pairs. cbn [bind].
      split; [discriminate | intros [H _]; discriminate H].
    + destruct (String.eqb code "NoSuchTagSet") eqn:Hcode; cbn [bind].
      * rewrite extract_app_name_tag_pairs. cbn [bind].
        split; [discriminate|]. intros [H Hn]. injection H as <-.
        cbn [is_no_such_tag_set] in Hn. rewrite Hcode in Hn. discriminate Hn.
      * split.
        -- intros H. injection H as <-. split; [reflexivity | exact Hcode].
        -- intros [H _]. injection H as <-. reflexivity.
    + split.
      * intros H. injection H as <-. split; reflexivity.
      * intros [H _]. injection H as <-. reflexivity.
  - pose proof (ec2_process_total rgn instance) as H.
    destruct (ec2_process rgn instance); [|discriminate H].
    split; [discriminate | contradiction].
  - unfold rest_api_process.
    destruct (get_tags E (rest_api_arn rgn api)) as [tags|e0]; cbn [bind];
      [|apply raise_eq].
    rewrite extract_app_name_tag_pairs. cbn [bind]. split; discriminate.
  - pose proof (http_api_process_total rgn api) as H.
    destruct (http_api_process rgn api); [|discriminate H].
    split; [discriminate | contradiction].
Qed.

Lemma listed_records (E : aws_env) (rgn : string) (avail : string -> bool)
    (R : resource) (k : string) (r : pydict) :
  listed E avail R ->
  process_resource E rgn R = Ok (k, r) ->
  In (k, r) (collector_records E (collector_of R) rgn avail).
Proof.
  destruct R; cbn [listed process_resource collector_of collector_records].
  - intros (-> & page & Hp & Hi) H. apply in_page_successes. eauto.
  - intros (-> & page & Hp & Hi) H. apply in_or_app. left.
    apply in_page_successes. eauto.
  - intros (-> & -> & page & Hp & Hi) H. apply in_or_app. right.
    apply in_page_successes. eauto.
  - intros (-> & page & Hp & Hi) H. apply in_page_successes. eauto.
  - intros (-> & buckets & -> & Hi) H. apply in_successes. eauto.
  - intros (-> & page & reservation & Hp & Hr & Hi) H.
    apply in_flat_map. exists page. split; [exact Hp|].
    apply in_page_successes. eauto.
  - intros (-> & page & Hp & Hi) H. apply in_or_app. left.
    apply in_page_successes. eauto.
  - intros (-> & -> & page & Hp & Hi) H. apply in_or_app. right.
    apply in_page_successes. eauto.
Qed.

Lemma records_listed (E : aws_env) (c : collector) (rgn : string)
    (avail : string -> bool) (k : string) (r : pydict) :
  In (k, r) (collector_records E c rgn avail) ->
  exists R, collector_of R = c /\ listed E avail R
            /\ process_resource E rgn R = Ok (k, r).
Proof.
  destruct c; cbn [collector_records]; intros H.
  - destruct (avail "lambda") eqn:Hav; [|contradiction].
    apply in_page_successes in H as (page & func & Hp & Hi & H).
    exists (LambdaFn func). cbn [collector_of listed process_resource]. eauto 7.
  - destruct (avail "rds") eqn:Hav; [|contradiction].
    apply in_app_or in H as [H|H].
    + apply in_page_successes in H as (page & db & Hp & Hi & H).
      exists (DbInstance db). cbn [collector_of listed process_resource]. eauto 7.
    + destruct (no_exn (failure (describe_db_instances E))) eqn:Hno; [|contradiction].
      apply in_page_successes in H as (page & cluster & Hp & Hi & H).
      exists (DbCluster cluster). cbn [collector_of listed process_resource].
      rewrite Hno. eauto 8.
  - destruct (avail "dynamodb") eqn:Hav; [|contradiction].
    apply in_page_successes in H as (page & table_name & Hp & Hi & H).
    exists (DynamoTable table_name). cbn [collector_of listed process_resource]. eauto 7.
  - destruct (avail "s3") eqn:Hav; [|contradiction].
    destruct (list_buckets E) as [buckets|e] eqn:Hb; [|contradiction].
    apply in_successes in H as (b & Hi & H).
    exists (S3Bucket b). cbn [collector_of listed process_resource].
    rewrite Hb. eauto 7.
  - destruct (avail "ec2") eqn:Hav; [|contradiction].
    apply in_flat_map in H as (page & Hp & H).
    apply in_page_successes in H as (reservation & instance & Hr & Hi & H).
    exists (Ec2Instance instance). cbn [collector_of listed process_resource]. eauto 9.
  - destruct (avail "apigateway") eqn:Hav; [|contradiction].
    apply in_app_or in H as [H|H].
    + apply in_page_successes in H as (page & api & Hp & Hi & H).
      exists (RestApi api). cbn [collector_of listed process_resource]. eauto 7.
    + destruct (no_exn (failure (get_rest_apis E)) && avail "apigatewayv2") eqn:Hno;
        [|contradiction].
      apply in_page_successes in H as (page & api & Hp & Hi & H).
      exists (HttpApi api). cbn [collector_of listed process_resource].
      rewrite Hav, Hno. eauto 8.
Qed.

Lemma listed_warnings (E : aws_env) (rgn : string) (avail : string -> bool)
    (R : resource) (e : exn) :
  listed E avail R ->
  process_resource E rgn R = Raise e ->
  In (warning_line R e) (collector_warnings E (collector_of R) rgn avail).
Proof.
  destruct R;
    cbn [listed process_resource collector_of collector_warnings warning_line].
  - intros (-> & page & Hp & Hi) H. now apply (page_warnings_in _ _ _ _ _ Hp Hi).
  - intros (-> & page & Hp & Hi) H. apply in_or_app. left.
    now apply (page_warnings_in _ _ _ _ _ Hp Hi).
  - intros (-> & -> & page & Hp & Hi) H. apply in_or_app. right.
    now apply (page_warnings_in _ _ _ _ _ Hp Hi).
  - intros (-> & page & Hp & Hi) H. now apply (page_warnings_in _ _ _ _ _ Hp Hi).
  - intros (-> & buckets & -> & Hi) H. now apply warnings_in.
  - intros (-> & page & reservation & Hp & Hr & Hi) H.
    apply in_flat_map. exists page. split; [exact Hp|].
    now apply (page_warnings_in _ _ _ _ _ Hr Hi).
  - intros (-> & page & Hp & Hi) H. apply in_or_app. left.
    now apply (page_warnings_in _ _ _ _ _ Hp Hi).
  - intros (-> & -> & page & Hp & Hi) H. apply in_or_app. right.
    now apply (page_warnings_in _ _ _ _ _ Hp Hi).
Qed.

Lemma s3_location_denied (E : aws_env) (b : bucket) (tags : tag_list) (e : exn) :
  s3_bucket_tags E (bkt_Name b) = Ok tags ->
  get_bucket_location E (bkt_Name b) = Raise e ->
  exists r,
    s3_process E b = Ok (owner_of tags, r)
    /\ dict_lookup r "region" = Some (PStr "Unknown").
Proof.
  intros Ht Hl. destruct (s3_process_fetched E b Ht) as (r & Hr & Hreg & _).
  exists r. split; [exact Hr|]. rewrite Hreg. unfold s3_bucket_location.
  now rewrite Hl.
Qed.

(** C5 (as amended). In every collector, a listed resource [R] for which a
    request of the inner [try] raises (the tag request, or for a table its
    description; for a bucket a tag request that fails with anything but
    [NoSuchTagSet]) is left out with a warning that carries the exception.
    Every record the collector adds comes from another listed resource
    whose requests succeeded, every such resource gets its record under
    its owner key, before or after [R], and the records already there
    stay: a resource is skipped exactly when one of these requests fails,
    and the collector goes on. The location request of a bucket is not
    one of them: when it raises, the bucket is recorded with the region
    ['Unknown']. *)
Theorem C5_failed_fetch_skips_one_resource :
  forall (E : aws_env) (st : state) (R : resource) (e : exn),
    listed E (available E st) R ->
    fetch_fails E (region st) R e ->
    In (warning_line R e) (logged (run_collector E (collector_of R) st))
    /\ process_resource E (region st) R = Raise e
    /\ (forall r,
          In r (all_records (inventory (run_collector E (collector_of R) st))) ->
          In r (all_records (inventory st))
          \/ exists R' k,
               R' <> R
               /\ collector_of R' = collector_of R
               /\ listed E (available E st) R'
               /\ process_resource E (region st) R' = Ok (k, r))
    /\ (forall R' k r,
          listed E (available E st) R' ->
          collector_of R' = collector_of R ->
          process_resource E (region st) R' = Ok (k, r) ->
          In r (owner_bucket (inventory (run_collector E (collector_of R) st)) k))
    /\ (forall k, exists added,
          owner_bucket (inventory (run_collector E (collector_of R) st)) k
          = owner_bucket (inventory st) k ++ added)
    /\ (forall R' e',
          process_resource E (region st) R' = Raise e'
          <-> fetch_fails E (region st) R' e')
    /\ (forall b tags e',
          listed E (available E st) (S3Bucket b) ->
          s3_bucket_tags E (bkt_Name b) = Ok tags ->
          get_bucket_location E (bkt_Name b) = Raise e' ->
          exists r,
            process_resource E (region st) (S3Bucket b) = Ok (owner_of tags, r)
            /\ In r (owner_bucket (inventory (run_collector E S3 st)) (owner_of tags))
            /\ dict_lookup r "region" = Some (PStr "Unknown"))
    /\ (forall (A : Type) (process : A -> result (string * pydict))
               (warning : A -> exn -> string) (pre post : list A) (item : A)
               (e' : exn) (st0 : state),
          process item = Raise e' ->
          inventory (for_each_try process warning (pre ++ item :: post) st0)
          = inventory (for_each_try process warning (pre ++ post) st0)
          /\ In (WARNING, warning item e')
                (logged (for_each_try process warning (pre ++ item :: post) st0))).
Proof.
  intros E st R e Hlisted Hfail.
  assert (HR : process_resource E (region st) R = Raise e)
    by now apply process_raises_iff.
  split; [|split; [exact HR|split; [|split; [|split; [|split; [|split]]]]]].
  - apply collector_warning_logged. now apply listed_warnings.
  - intros r Hr.
    apply collector_new_record in Hr as [Hr|[k Hr]]; [now left|]. right.
    apply records_listed in Hr as (R' & Hc & Hl & Hp).
    exists R', k. split; [|auto].
    intros ->. rewrite HR in Hp. discriminate Hp.
  - intros R' k r Hl Hc Hp. rewrite <- Hc.
    apply collector_record_in_bucket. now apply listed_records.
  - intros k. apply collector_keeps_buckets.
  - intros R' e'. apply process_raises_iff.
  - intros b tags e' Hl Ht Hloc.
    destruct (s3_location_denied E b Ht Hloc) as (r & Hr & Hreg).
    exists r. split; [exact Hr|]. split; [|exact Hreg].
    apply (collector_record_in_bucket E S3).
    now apply (@listed_records E (region st) (available E st) (S3Bucket b)).
  - intros A process warning pre post item e' st0 Hitem.
    destruct (for_each_try_spec process warning (pre ++ item :: post) st0)
      as (-> & -> & _).
    destruct (for_each_try_spec process warning (pre ++ post) st0) as [-> _].
    split.
    + now rewrite (successes_skip process pre post item Hitem).
    + apply in_or_app. right. apply warnings_in; [|exact Hitem].
      apply in_or_app. right. now left.
Qed.

(** In the sample account the tag fetch of [broken-fn] fails: a warning is
    logged for it. *)
Lemma C5_broken_fn_witness :
  In (WARNING, lambda_warning broken_fn
                 (ClientError "ResourceNotFoundException" "Function not found"))
     (logged (inventory_lambda_functions sample_account (new_inventory "us-east-1"))).
Proof.
  refine (proj1 (@C5_failed_fetch_skips_one_resource sample_account
                   (new_inventory "us-east-1") (LambdaFn broken_fn)
                   (ClientError "ResourceNotFoundException" "Function not found")
                   _ eq_refl)).
  split; [reflexivity|]. exists [checkout_fn; broken_fn].
  split; [left; reflexivity | right; left; reflexivity].
Defined.

(** C5 as stated fails for the location request of a bucket: when it is
    denied, the bucket is recorded all the same, with the region
    ['Unknown'], and no warning is logged. *)
Lemma C5_bucket_location_counterexample :
  get_bucket_location location_denied (bkt_Name assets_bucket) = Raise access_denied
  /\ (exists r,
        all_records (inventory (inventory_s3_buckets location_denied
                                  (new_inventory "us-east-1"))) = [r]
        /\ text_field r "name" = Some "assets"
        /\ text_field r "region" = Some "Unknown")
  /\ logged (inventory_s3_buckets location_denied (new_inventory "us-east-1"))
     = [(INFO, "Inventorying S3 buckets...")]
  /\ ~ (forall (E : aws_env) (st : state) (buckets : list bucket) (b : bucket) (e : exn),
          available E st "s3" = true ->
          list_buckets E = Ok buckets ->
          In b buckets ->
          get_bucket_tagging E (bkt_Name b) = Raise e
          \/ get_bucket_location E (bkt_Name b) = Raise e ->
          In (WARNING, s3_warning b e) (logged (inventory_s3_buckets E st))).
Proof.
  split; [reflexivity|]. split; [|split].
  - eexists. split; [vm_compute; reflexivity|]. split; reflexivity.
  - vm_compute. reflexivity.
  - intros H.
    specialize (H location_denied (new_inventory "us-east-1") [assets_bucket]
                  assets_bucket access_denied eq_refl eq_refl
                  (or_introl eq_refl) (or_intror eq_refl)).
    vm_compute in H. destruct H as [H|[]]. discriminate H.
Qed.


(** ** [main] *)

Lemma summary_text_filed (inv : Inventory) :
  inventory_filed inv -> exists text, summary_text inv = Ok text.
Proof.
  intros Hfiled. unfold summary_text, summary_blocks.
  rewrite (py_sorted_ok (fun a b => Ok (String.ltb (fst a) (fst b)))
             (fun a b => String.ltb (fst a) (fst b)) inv)
    by reflexivity.
  cbn [bind].
  destruct (@result_map_exists _ _ summarize_owner (fun _ _ => True)
              (sort_by (fun a b => String.ltb (fst a) (fst b)) inv))
    as (blocks & -> & _).
  - intros [k rs] Hin.
    apply (Permutation_in _ (sort_by_perm _ inv)) in Hin.
    unfold inventory_filed in Hfiled. rewrite Forall_forall in Hfiled.
    specialize (Hfiled _ Hin). cbn [fst snd] in Hfiled.
    destruct (summarize_owner_filed Hfiled) as (b & Hb & _).
    exists b. split; [exact Hb | exact I].
  - cbn [bind]. eexists; reflexivity.
Qed.

Lemma generate_reports_ok (json_dumps : pydict -> string) (E : aws_env)
    (output_dir : string) (st : state) :
  inventory_filed (inventory st) ->
  is_ok (fst (generate_reports json_dumps E output_dir st)) = files_writable E output_dir
  /\ forall rep st', generate_reports json_dumps E output_dir st = (Ok rep, st') ->
       csv_written rep
       = csv_header :: map (record_row json_dumps) (all_records (inventory st))
       /\ summary_text (inventory st) = Ok (summary_written rep).
Proof.
  intros Hinv. unfold generate_reports, files_writable.
  destruct (open_error E _) as [e1|]; cbn [no_exn andb fst is_ok];
    [split; [reflexivity | discriminate]|].
  destruct (open_error E _) as [e2|]; cbn [no_exn andb fst is_ok];
    [split; [reflexivity | discriminate]|].
  cbn [log inventory]. rewrite (csv_rows_filed json_dumps Hinv).
  destruct (open_error E _) as [e3|]; cbn [no_exn andb fst is_ok];
    [split; [reflexivity | discriminate]|].
  destruct (summary_text_filed Hinv) as [text ->].
  split; [reflexivity|]. intros rep st' H. injection H as <- _.
  split; reflexivity.
Qed.



Lemma main_results (json_dumps : pydict -> string) (E : aws_env) (rgn : string)
    (profile : option string) (output_dir : string) :
  results (main json_dumps E rgn profile output_dir)
  = if is_ok (init E rgn profile)
    then inventory (run_inventory E (new_inventory rgn)) else [].
Proof.
  unfold main, init.
  destruct (session_error E _); cbn [is_ok results]; [reflexivity|].
  destruct (generate_reports _ _ _ _) as [[rep|e] st']; reflexivity.
Qed.

Lemma main_exit_status (json_dumps : pydict -> string) (E : aws_env) (rgn : string)
    (profile : option string) (output_dir : string) :
  exit_status (main json_dumps E rgn profile output_dir)
  = if is_ok (init E rgn profile) && files_writable E output_dir then 0%Z else 1%Z.
Proof.
  unfold main, init.
  destruct (session_error E _); cbn [is_ok andb exit_status]; [reflexivity|].
  destruct (@generate_reports_ok json_dumps E output_dir _ (run_inventory_filed E rgn))
    as [Hok _].
  rewrite <- Hok.
  destruct (generate_reports _ _ _ _) as [[rep|e] st']; reflexivity.
Qed.



(** C4 (as amended). When the first listing request of one collector fails
    before it gives a page, the final inventory holds no record with a
    service value of that collector; every owner's records are those of the
    run in which the request succeeds, less that collector's, in the same
    order; the exit status is what it is without the failure, and it is 0
    when the session can be created and the report files written. *)
Theorem C4_failed_listing_leaves_other_collectors :
  forall (json_dumps : pydict -> string) (c : collector) (e : exn) (E : aws_env)
         (rgn : string) (profile : option string) (output_dir : string),
    (forall r,
        In r (all_records
                (results (main json_dumps (fail_listing c e E) rgn profile output_dir))) ->
        has_service (services_of c) r = false)
    /\ (forall k,
          owner_bucket
            (results (main json_dumps (fail_listing c e E) rgn profile output_dir)) k
          = filter (of_other_collector c)
              (owner_bucket (results (main json_dumps E rgn profile output_dir)) k))
    /\ exit_status (main json_dumps (fail_listing c e E) rgn profile output_dir)
       = exit_status (main json_dumps E rgn profile output_dir)
    /\ (is_ok (init E rgn profile) = true ->
        files_writable E output_dir = true ->
        exit_status (main json_dumps (fail_listing c e E) rgn profile output_dir) = 0%Z).
Proof.
  intros json_dumps c e E rgn profile output_dir.
  rewrite !main_results, !main_exit_status.
  change (init (fail_listing c e E) rgn profile) with (init E rgn profile).
  change (files_writable (fail_listing c e E) output_dir) with (files_writable E output_dir).
  split; [|split; [|split]].
  - destruct (is_ok (init E rgn profile)); [|contradiction].
    destruct (run_inventory_spec (fail_listing c e E) (new_inventory rgn)
                (available E (new_inventory rgn)) (fun s => eq_refl)) as [Hi _].
    rewrite Hi, fail_listing_run_records. intros r Hr.
    apply all_records_extend in Hr as [Hr|Hr]; [contradiction|].
    apply in_map_iff in Hr as [[k r'] [Heq Hr]]. cbn [snd] in Heq. subst r'.
    apply filter_In in Hr as [_ Hr]. cbn [snd] in Hr.
    unfold of_other_collector in Hr. now apply negb_true_iff in Hr.
  - intros k. destruct (is_ok (init E rgn profile)); [|reflexivity].
    apply fail_listing_inventory.
  - reflexivity.
  - intros -> ->. reflexivity.
Qed.

(** With the RDS listing denied in the sample account, the run still ends
    with status 0. *)
Lemma C4_rds_denied_witness :
  exit_status (main json_dumps_stub (fail_listing RDS access_denied sample_account)
                 "us-east-1" None ".") = 0%Z.
Proof.
  exact (proj2 (proj2 (proj2
           (C4_failed_listing_leaves_other_collectors json_dumps_stub RDS access_denied
              sample_account "us-east-1" None ".")))
           eq_refl eq_refl).
Defined.

(** C4 as stated fails: the request that lists the DB clusters is a listing
    request of the RDS collector; when it is denied, the DB instance
    collected before it stays in the inventory. *)
Lemma C4_later_listing_counterexample :
  ~ (forall (c : collector) (E : aws_env) (rgn : string),
        listing_fails c E = true ->
        forall r,
          In r (all_records (inventory (run_inventory E (new_inventory rgn)))) ->
          has_service (services_of c) r = false).
Proof.
  intros H.
  specialize (H RDS clusters_denied "us-east-1" eq_refl).
  assert (Hex : existsb (has_service (services_of RDS))
                  (all_records
                     (inventory (run_inventory clusters_denied (new_inventory "us-east-1"))))
                = true) by (vm_compute; reflexivity).
  apply existsb_exists in Hex as [r [Hin Hr]].
  rewrite (H r Hin) in Hr. discriminate Hr.
Qed.

(** ** The CSV report *)

Lemma record_row_filed (json_dumps : pydict -> string) (k : string) (r : pydict) :
  filed_under k r ->
  exists service resource_type name arn,
    record_row json_dumps r
    = [PStr k; PStr service; PStr resource_type; PStr name; PStr arn;
       PStr (json_dumps (additional_info r))]
    /\ text_field r "app_name" = Some k
    /\ text_field r "service" = Some service
    /\ text_field r "resource_type" = Some resource_type
    /\ text_field r "name" = Some name
    /\ text_field r "arn" = Some arn.
Proof.
  intros (service & t & n & a & rest & ->).
  exists service, t, n, a. repeat split.
Qed.

Lemma additional_info_spec (r : pydict) (kv : string * pyval) :
  In kv (additional_info r) <-> In kv r /\ ~ In (fst kv) fixed_keys.
Proof.
  unfold additional_info. rewrite filter_In, negb_true_iff.
  split; intros [Hin H]; (split; [exact Hin|]).
  - intros Hk. apply existsb_eqb_in in Hk. congruence.
  - destruct (existsb _ fixed_keys) eqn:Hex; [|reflexivity].
    exfalso. apply H. apply existsb_exists in Hex as [x [Hx Heq]].
    apply String.eqb_eq in Heq. now subst.
Qed.

(** C8 (as amended). The CSV report is comma-delimited; its header row is
    [App Name,Service,Resource Type,Resource Name,ARN,Additional Info]; it
    is followed by one row per record of the inventory, owner by owner,
    whose columns are the record's owner key, service, resource type, name
    and ARN, and the JSON text of the record's entries other than those
    five and ['tags']. *)
Theorem C8_csv_report_rows :
  forall (json_dumps : pydict -> string) (E : aws_env) (rgn : string)
         (profile : option string) (output_dir : string) (rep : reports),
    written (main json_dumps E rgn profile output_dir) = Some rep ->
    csv_written rep
    = csv_header
        :: map (record_row json_dumps)
             (all_records (results (main json_dumps E rgn profile output_dir)))
    /\ csv_header
       = [PStr "App Name"; PStr "Service"; PStr "Resource Type"; PStr "Resource Name";
          PStr "ARN"; PStr "Additional Info"]
    /\ option_map csv_line (row_text csv_header)
       = Some ("App Name,Service,Resource Type,Resource Name,ARN,Additional Info"
                 ++ String cr (String lf EmptyString))%string
    /\ (forall r,
          In r (all_records (results (main json_dumps E rgn profile output_dir))) ->
          exists k service resource_type name arn,
            record_row json_dumps r
            = [PStr k; PStr service; PStr resource_type; PStr name; PStr arn;
               PStr (json_dumps (additional_info r))]
            /\ text_field r "app_name" = Some k
            /\ text_field r "service" = Some service
            /\ text_field r "resource_type" = Some resource_type
            /\ text_field r "name" = Some name
            /\ text_field r "arn" = Some arn)
    /\ (forall r kv, In kv (additional_info r)
                     <-> In kv r
                         /\ ~ In (fst kv)
                              ["service"; "resource_type"; "name"; "arn"; "app_name"; "tags"]).
Proof.
  intros json_dumps E rgn profile output_dir rep Hw.
  rewrite main_results.
  unfold main, init in Hw. unfold init.
  destruct (session_error E _); cbn [is_ok]; [discriminate Hw|].
  destruct (@generate_reports_ok json_dumps E output_dir _ (run_inventory_filed E rgn))
    as [_ Hrows].
  destruct (generate_reports _ _ _ _) as [[rep'|e] st'] eqn:Hg; [|discriminate Hw].
  cbn [written] in Hw. injection Hw as ->.
  split; [exact (proj1 (Hrows _ _ eq_refl))|].
  split; [reflexivity|]. split; [reflexivity|]. split.
  - intros r Hr.
    destruct (@filed_record _ r (run_inventory_filed E rgn) Hr) as [k Hk].
    exists k. now apply record_row_filed.
  - intros r kv. apply additional_info_spec.
Qed.

(** The report written for the sample account. *)
Lemma C8_sample_witness :
  exists rep,
    written (main json_dumps_stub sample_account "us-east-1" None ".") = Some rep
    /\ csv_written rep
       = csv_header
           :: map (record_row json_dumps_stub)
                (all_records
                   (results (main json_dumps_stub sample_account "us-east-1" None "."))).
Proof.
  destruct (written (main json_dumps_stub sample_account "us-east-1" None "."))
    as [rep|] eqn:Hw.
  - exists rep. split; [reflexivity|].
    exact (proj1 (C8_csv_report_rows json_dumps_stub sample_account "us-east-1" None "."
                    Hw)).
  - vm_compute in Hw. discriminate Hw.
Defined.

(** C8 as stated fails: the header row the code writes is not
    [Owner Key, Service, Resource Type, Name, ARN, Additional Info]; its
    first column is named [App Name] and its fourth [Resource Name]. *)
Lemma C8_header_counterexample :
  csv_rows json_dumps_stub [] = Ok [csv_header]
  /\ csv_header <> spec_header
  /\ nth_error csv_header 0 = Some (PStr "App Name")
  /\ nth_error spec_header 0 = Some (PStr "Owner Key")
  /\ nth_error csv_header 3 = Some (PStr "Resource Name")
  /\ nth_error spec_header 3 = Some (PStr "Name")
  /\ ~ (forall (inv : Inventory) (rows : list (list pyval)),
           csv_rows json_dumps_stub inv = Ok rows -> hd [] rows = spec_header).
Proof.
  repeat split; try discriminate.
  intros H. specialize (H [] [csv_header] eq_refl). discriminate H.
Qed.

(** ** The exit status *)



